(** * The training driver [src/train.py], embedded and verified

    The script loads a rent data set, runs the preprocessing pipeline,
    expands a hyper-parameter grid, fits and tracks one run per parameter
    set, selects the tracked run with the smallest cross-validated RMSE
    and exports its model into the serving store.

    Python values are embedded as follows: a [dict] whose order matters is
    an association list, a [float] is a rational of [Q] or the missing
    value (NaN), the objects the script mutates (estimators, the shared
    preprocessing pipeline) live in a heap indexed by object identity, and
    the script is a program of a state-and-exception monad over that heap,
    the tracking store, the model store and the data directory. *)

From Stdlib Require Import QArith.
From stdpp Require Import base option strings list gmap sorting pretty.

Local Open Scope string_scope.
Local Open Scope list_scope.
Local Open Scope nat_scope.

(** ** src/common/utils.py: the parameter-set expander *)

Module Utils.

(** [itertools.product] over the value lists: the leftmost list varies
    slowest. *)
Fixpoint product {V : Type} (vals : list (list V)) : list (list V) :=
  match vals with
  | [] => [[]]
  | l :: rest => x ← l; (x ::.) <$> product rest
  end.

(** Modelled from the spec: [get_param_set] of [src/common/utils.py] is
    not among the sources.  The spec has it take a mapping from parameter
    name to candidate list and return the Cartesian product as a sequence
    of dictionaries, each a full assignment, in the lexicographic product
    order over the input key order.  A grid and a parameter set are
    dictionaries in key order: association lists. *)
Definition get_param_set {V : Type} (params : list (string * list V))
  : list (list (string * V)) :=
  (λ v, zip (params.*1) v) <$> product (params.*2).

(** The tuples of candidate positions, one position per key. *)
Definition index_tuples (lens : list nat) : list (list nat) :=
  product (seq 0 <$> lens).

(** Lexicographic order on position tuples, first key most significant. *)
Inductive lex_lt : list nat → list nat → Prop :=
| lex_lt_head i j t t' : i < j → lex_lt (i :: t) (j :: t')
| lex_lt_tail i t t' : lex_lt t t' → lex_lt (i :: t) (i :: t').

(** [picks params idx d]: the dictionary [d] assigns to every key of
    [params], in key order, the candidate at that key's position in
    [idx]. *)
Definition picks {V : Type} (params : list (string * list V))
    (idx : list nat) (d : list (string * V)) : Prop :=
  Forall3 (λ kv i e, e.1 = kv.1 ∧ kv.2 !! i = Some e.2) params idx d.

(** [d] gives every key of [params], in key order, one of its candidates. *)
Definition full_assignment {V : Type} (params : list (string * list V))
    (d : list (string * V)) : Prop :=
  Forall2 (λ kv e, e.1 = kv.1 ∧ e.2 ∈ kv.2) params d.

Definition grid_size {V : Type} (params : list (string * list V)) : nat :=
  foldr Nat.mul 1 (length <$> params.*2).

End Utils.

(** ** Python values and exceptions *)

(** A Python [float]: a rational, or [None] for NaN (infinities are not
    represented). *)
Definition pyfloat : Type := option Q.

(** The hyper-parameter values of the grid. *)
Inductive pyval : Type :=
| PyFloat (q : Q)
| PyInt (z : Z).

Inductive exn : Type :=
| FileNotFoundError (path : string)
| KeyError (key : string)
| TypeError (msg : string)
| AttributeError (msg : string)
| OSError (msg : string)
| DistutilsFileError (msg : string)
| MlflowException (msg : string)
| Exception (msg : string).

(** Lookup in a dictionary kept in insertion order. *)
Fixpoint assoc {K V : Type} `{EqDecision K} (k : K) (d : list (K * V))
  : option V :=
  match d with
  | [] => None
  | (k', v) :: d' => if decide (k = k') then Some v else assoc k d'
  end.

(** [ndarray.mean()]: NaN on an empty array and as soon as one entry is
    NaN. *)
Definition np_sum (l : list pyfloat) : pyfloat :=
  foldl (λ acc x, a ← acc; b ← x; Some (a + b)%Q) (Some 0%Q) l.

Definition np_mean (l : list pyfloat) : pyfloat :=
  match l with
  | [] => None
  | _ => s ← np_sum l; Some (s / inject_Z (Z.of_nat (length l)))%Q
  end.

(** ** pandas: the part of the data-frame interface the script uses *)

Module Pandas.

(** A cell of a table as pandas holds it after parsing: a number or the
    missing value, or a text. *)
Inductive cell : Type :=
| Num (x : pyfloat)
| Str (s : string).

Definition NaN : cell := Num None.

(** A column with its row labels. *)
Record Series : Type := mkSeries {
  s_index : list nat;
  s_values : list cell;
}.

(** Row labels and named columns, in column order. *)
Record DataFrame : Type := mkDataFrame {
  df_index : list nat;
  df_columns : list (string * list cell);
}.

(** The content of a CSV file, as a table: its data rows, held column-wise.
    The table is the file at the level at which pandas hands it over, not
    its text: the names are the header after the parser has renamed
    repeated names, and a cell is the value the parser has read, see
    [csv_as_read]. *)
Record Csv : Type := mkCsv {
  csv_nrows : nat;
  csv_columns : list (string * list cell);
}.


(** The texts [pd.read_csv] reads as the missing value by default. *)
Definition pandas_na_values : list string :=
  [EmptyString; "#N/A"; "#N/A N/A"; "#NA"; "-1.#IND"; "-1.#QNAN"; "-NaN";
   "-nan"; "1.#IND"; "1.#QNAN"; "<NA>"; "N/A"; "NA"; "NULL"; "NaN"; "None";
   "n/a"; "nan"; "null"].

Definition is_number (c : cell) : bool :=
  match c with
  | Num _ => true
  | Str _ => false
  end.

Definition is_text_or_missing (c : cell) : bool :=
  match c with
  | Num None => true
  | Num (Some _) => false
  | Str s => bool_decide (s ∉ pandas_na_values)
  end.

(** A column as the parser returns it: numbers and missing values, or
    texts and missing values, and no text that is an NA marker. *)
Definition column_as_read (c : list cell) : bool :=
  forallb is_number c || forallb is_text_or_missing c.

(** A table [pd.read_csv] can return: the parser makes the header names
    distinct (a repeated name [x] becomes [x.1], [x.2], ...), reads the NA
    markers as the missing value, and gives every column one kind of
    value. *)
Definition csv_as_read (f : Csv) : Prop :=
  NoDup (csv_columns f).*1
  ∧ Forall (λ c, column_as_read c.2 = true) (csv_columns f).

(** [pd.read_csv(path)], from the table the parser has read: the rows are
    labelled 0, 1, ... *)
Definition read_csv (f : Csv) : DataFrame :=
  mkDataFrame (seq 0 (csv_nrows f)) (csv_columns f).

(** [df.drop(labels, axis=1)]: a label that is no column is a [KeyError]. *)
Definition drop (labels : list string) (df : DataFrame)
  : exn + DataFrame :=
  match filter (λ l, l ∉ (df_columns df).*1) labels with
  | l :: _ => inl (KeyError l)
  | [] =>
      inr (mkDataFrame (df_index df)
             (filter (λ c, c.1 ∉ labels) (df_columns df)))
  end.

(** [df[name]] *)
Definition getitem (name : string) (df : DataFrame) : exn + Series :=
  match assoc name (df_columns df) with
  | Some vals => inr (mkSeries (df_index df) vals)
  | None => inl (KeyError name)
  end.

(** The values of [s] at the row labels [idx]; NaN where [s] has no such
    label. *)
Definition align (idx : list nat) (s : Series) : list cell :=
  (λ lab, default NaN (assoc lab (zip (s_index s) (s_values s)))) <$> idx.

(** [df.assign(name=s)]: a copy of [df] whose column [name] holds [s]
    aligned on the row labels of [df]; the column is replaced when it
    exists and appended otherwise. *)
Definition assign (df : DataFrame) (name : string) (s : Series)
  : DataFrame :=
  let vals := align (df_index df) s in
  mkDataFrame (df_index df)
    (if decide (name ∈ (df_columns df).*1)
     then (λ c, if decide (c.1 = name) then (c.1, vals) else c)
            <$> df_columns df
     else df_columns df ++ [(name, vals)]).

(** [df.to_csv(path, index=False)] *)
Definition to_csv (df : DataFrame) : Csv :=
  mkCsv (length (df_index df)) (df_columns df).

End Pandas.
Import Pandas.

(** ** What the script imports *)

(** The learned statistics of the preprocessing pipeline. *)
Definition PrepFit : Type := list Q.

(** The attributes of a fitted gradient-boosting regressor. *)
Record GbrFit : Type := mkGbrFit {
  train_score_ : list pyfloat;
  feature_importances_ : list pyfloat;
  estimators_ : list Q;
}.

(** One cross-validation split. *)
Record Fold : Type := mkFold {
  X_train : DataFrame;
  y_train : Series;
  X_test : DataFrame;
  y_test : Series;
}.

(** The numeric collaborators and the constants of [src/common/constants.py].
    Their arithmetic is floating point and stays abstract; every one of them
    is a function of its arguments only. *)
Class Collaborators : Type := {
  (** [ARTIFACT_PATH], the name of the artifact directory *)
  ARTIFACT_PATH : string;
  (** [str(v)], the form in which a parameter value is tracked *)
  py_str : pyval → string;
  (** [np.log1p] and [np.sqrt] on one number *)
  np_log1p : Q → pyfloat;
  np_sqrt : Q → pyfloat;
  (** Modelled from the spec: [src/preprocess.py] is not among the sources.
      [fit] learns the internal statistics of the pipeline from the training
      data, [transform] applies learned statistics without re-fitting. *)
  prep_fit : DataFrame → Series → exn + PrepFit;
  prep_transform : PrepFit → DataFrame → exn + DataFrame;
  (** [GradientBoostingRegressor.fit] under the given hyper-parameters *)
  gbr_fit : list (string * pyval) → DataFrame → Series → exn + GbrFit;
  (** the [neg_mean_squared_error] scorer of a fitted regressor *)
  neg_mean_squared_error : GbrFit → DataFrame → Series → pyfloat;
  (** the splits of the k-fold cross-validation *)
  kfold : DataFrame → Series → list Fold;
  (** the rendering of the feature-importance chart *)
  render_importance : DataFrame → GbrFit → exn + string;
}.

(** ** The state the script runs in *)

(** The Python objects the script creates or shares.  A [Pipeline] holds
    references to its steps, it does not copy them. *)
Inductive PyObj : Type :=
| Preprocessor (fitted : option PrepFit)
| GradientBoostingRegressor (params : list (string * pyval))
    (fitted : option GbrFit)
| Pipeline (steps : list (string * nat)).

(** A pickled pipeline: its steps by value. *)
Definition Pickle : Type := list (string * PyObj).

(** The calls into the estimators, the metric utility and the chart logger,
    in call order with their arguments (a record kept beside the state, which
    no operation reads). *)
Inductive Call : Type :=
| CallFitTransform (obj : nat) (X : DataFrame) (y : Series)
| CallFit (obj : nat) (X : DataFrame) (y : Series)
| CallRmseCv (model : nat) (X : DataFrame) (y : Series)
| CallFeatureImportance (train : DataFrame) (model : nat).

Inductive File : Type :=
| ModelFile (p : Pickle)
| ChartFile (c : string).

Inductive Artifact : Type :=
| ModelArtifact (p : Pickle)
| DirArtifact (files : gmap string File)
| ChartArtifact (c : string).

Inductive RunStatus : Type := RUNNING | FINISHED | FAILED.

(** A run record of the tracking store. *)
Record Run : Type := mkRun {
  experiment : string;
  run_name : string;
  status : RunStatus;
  tags : list (string * string);
  params : list (string * string);
  metrics : list (string * pyfloat);
  artifacts : gmap string Artifact;
}.

Record Signature : Type := mkSignature {
  batchable : bool;
  batch_dim : Z;
}.

(** An entry of the model store. *)
Record BentoModel : Type := mkBentoModel {
  bento_name : string;
  bento_model : Pickle;
  bento_signatures : list (string * Signature);
  bento_metadata : list (string * string);
}.

(** The data directory and the artifact directory. *)
Record Files : Type := mkFiles {
  train_csv : option Csv;
  storage_dir : bool;
  features_csv : option Csv;
  artifact_dir : option (gmap string File);
}.

Record World : Type := mkWorld {
  heap : list PyObj;
  calls : list Call;
  active_experiment : option string;
  tracking_uri : option string;
  active_run : option nat;
  runs : gmap nat Run;
  bento_store : list BentoModel;
  files : Files;
}.

Definition set_heap (f : list PyObj → list PyObj) (w : World) : World :=
  mkWorld (f (heap w)) (calls w) (active_experiment w) (tracking_uri w)
    (active_run w) (runs w) (bento_store w) (files w).
Definition set_calls (f : list Call → list Call) (w : World) : World :=
  mkWorld (heap w) (f (calls w)) (active_experiment w) (tracking_uri w)
    (active_run w) (runs w) (bento_store w) (files w).
Definition set_active_experiment (e : option string) (w : World) : World :=
  mkWorld (heap w) (calls w) e (tracking_uri w)
    (active_run w) (runs w) (bento_store w) (files w).
Definition set_tracking_uri_field (u : option string) (w : World) : World :=
  mkWorld (heap w) (calls w) (active_experiment w) u
    (active_run w) (runs w) (bento_store w) (files w).
Definition set_active_run (r : option nat) (w : World) : World :=
  mkWorld (heap w) (calls w) (active_experiment w) (tracking_uri w)
    r (runs w) (bento_store w) (files w).
Definition set_runs (f : gmap nat Run → gmap nat Run) (w : World) : World :=
  mkWorld (heap w) (calls w) (active_experiment w) (tracking_uri w)
    (active_run w) (f (runs w)) (bento_store w) (files w).
Definition set_bento_store (f : list BentoModel → list BentoModel)
    (w : World) : World :=
  mkWorld (heap w) (calls w) (active_experiment w) (tracking_uri w)
    (active_run w) (runs w) (f (bento_store w)) (files w).
Definition set_files (f : Files → Files) (w : World) : World :=
  mkWorld (heap w) (calls w) (active_experiment w) (tracking_uri w)
    (active_run w) (runs w) (bento_store w) (f (files w)).

(** What outlives a process: the tracking store, the model store and the
    files. *)
Record Disk : Type := mkDisk {
  disk_runs : gmap nat Run;
  disk_bento : list BentoModel;
  disk_files : Files;
}.

(** The identity of the module-level object [preprocess_pipeline]. *)
Definition preprocess_pipeline : nat := 0.

(** The state when [__main__] starts: the imports have created the shared,
    unfitted preprocessing pipeline; no experiment is set and no run is
    active. *)
Definition boot (d : Disk) : World :=
  mkWorld [Preprocessor None] [] None None None
    (disk_runs d) (disk_bento d) (disk_files d).

(** ** The monad of the script: state and exceptions *)

Inductive Result (A : Type) : Type :=
| Ok (a : A) (w : World)
| Raised (e : exn) (w : World).
Arguments Ok {A} a w.
Arguments Raised {A} e w.

Definition world_of {A : Type} (r : Result A) : World :=
  match r with Ok _ w | Raised _ w => w end.

Definition M (A : Type) : Type := World → Result A.

#[global] Instance M_ret : MRet M := λ A a w, Ok a w.
#[global] Instance M_bind : MBind M := λ A B f m w,
  match m w with
  | Ok a w' => f a w'
  | Raised e w' => Raised e w'
  end.
#[global] Instance M_throw : MThrow exn M := λ A e w, Raised e w.

Definition get : M World := λ w, Ok w w.
Definition modify (f : World → World) : M unit := λ w, Ok () (f w).

(** The result of a collaborator, an exception or a value. *)
Definition lift {A : Type} (r : exn + A) : M A :=
  match r with
  | inl e => mthrow e
  | inr a => mret a
  end.

Definition emit (c : Call) : M unit := modify (set_calls (λ cs, cs ++ [c])).

(** [for i, x in enumerate(l): body], counting from [i]. *)
Fixpoint for_enumerate {A : Type} (i : nat) (l : list A)
    (body : nat → A → M unit) : M unit :=
  match l with
  | [] => mret ()
  | x :: l' => body i x;; for_enumerate (S i) l' body
  end.

(** [for x in l: body] *)
Definition for_each {A : Type} (l : list A) (body : A → M unit) : M unit :=
  for_enumerate 0 l (λ _, body).

(** ** scikit-learn: estimators as heap objects *)

Module Sklearn.
Section sklearn.
Context `{!Collaborators}.

(** A new object: its identity is the next free place of the heap. *)
Definition alloc (o : PyObj) : M nat := λ w,
  Ok (length (heap w)) (set_heap (λ h, h ++ [o]) w).

(** The object behind a reference.  Python has no dangling reference; the
    model answers one with an exception. *)
Definition deref (p : nat) : M PyObj := λ w,
  match heap w !! p with
  | Some o => Ok o w
  | None => Raised (TypeError "no such object") w
  end.

Definition store (p : nat) (o : PyObj) : M unit :=
  modify (set_heap (λ h, <[p := o]> h)).

(** The keyword arguments of [GradientBoostingRegressor(...)]. *)
Definition gbr_keywords : list string :=
  ["loss"; "learning_rate"; "n_estimators"; "subsample"; "criterion";
   "min_samples_split"; "min_samples_leaf"; "min_weight_fraction_leaf";
   "max_depth"; "min_impurity_decrease"; "init"; "random_state";
   "max_features"; "alpha"; "verbose"; "max_leaf_nodes"; "warm_start";
   "validation_fraction"; "n_iter_no_change"; "tol"; "ccp_alpha"].

(** [GradientBoostingRegressor] applied to the keyword dictionary [params]:
    a new, unfitted regressor; an unknown keyword is a [TypeError]. *)
Definition new_GradientBoostingRegressor (params : list (string * pyval))
  : M nat :=
  match filter (λ k, k ∉ gbr_keywords) (params.*1) with
  | k :: _ => mthrow (TypeError k)
  | [] => alloc (GradientBoostingRegressor params None)
  end.

(** [Pipeline(steps)]: the steps are kept by reference. *)
Definition new_Pipeline (steps : list (string * nat)) : M nat :=
  alloc (Pipeline steps).

(** [obj.fit_transform(X, y)] on a transformer: re-fits [obj] in place and
    transforms [X] with the new statistics. *)
Definition fit_transform (obj : nat) (X : DataFrame) (y : Series)
  : M DataFrame :=
  emit (CallFitTransform obj X y);;
  o ← deref obj;
  match o with
  | Preprocessor _ =>
      st ← lift (prep_fit X y);
      store obj (Preprocessor (Some st));;
      lift (prep_transform st X)
  | _ => mthrow (AttributeError "fit_transform")
  end.

(** [obj.fit(X, y)] on a final estimator: fits [obj] in place.  The script
    puts no pipeline inside a pipeline, and the model has none. *)
Definition fit (obj : nat) (X : DataFrame) (y : Series) : M unit :=
  emit (CallFit obj X y);;
  o ← deref obj;
  match o with
  | GradientBoostingRegressor ps _ =>
      f ← lift (gbr_fit ps X y);
      store obj (GradientBoostingRegressor ps (Some f))
  | Preprocessor _ =>
      st ← lift (prep_fit X y);
      store obj (Preprocessor (Some st))
  | Pipeline _ => mthrow (TypeError "nested pipeline")
  end.

(** The steps of a pipeline, fitted in order: every step but the last
    fits and transforms, the last fits on the transformed data. *)
Fixpoint fit_steps (steps : list (string * nat)) (X : DataFrame)
    (y : Series) : M unit :=
  match steps with
  | [] => mret ()
  | [(_, est)] => fit est X y
  | (_, tr) :: rest => Xt ← fit_transform tr X y; fit_steps rest Xt y
  end.

(** [pipeline.fit(X, y)] *)
Definition Pipeline_fit (p : nat) (X : DataFrame) (y : Series) : M unit :=
  o ← deref p;
  match o with
  | Pipeline steps => fit_steps steps X y
  | _ => mthrow (AttributeError "steps")
  end.

(** [sklearn.base.clone(obj)]: a new unfitted estimator with the same
    parameters; the original is read only. *)
Definition clone (obj : nat) : M nat :=
  o ← deref obj;
  match o with
  | GradientBoostingRegressor ps _ =>
      alloc (GradientBoostingRegressor ps None)
  | Preprocessor _ => alloc (Preprocessor None)
  | Pipeline _ => mthrow (TypeError "nested pipeline")
  end.

(** [obj.get_params()[key]] *)
Definition get_param (obj : nat) (key : string) : M pyval :=
  o ← deref obj;
  match o with
  | GradientBoostingRegressor ps _ =>
      match assoc key ps with
      | Some v => mret v
      | None => mthrow (KeyError key)
      end
  | _ => mthrow (KeyError key)
  end.

(** [obj.__class__.__name__] *)
Definition class_name (obj : nat) : M string :=
  o ← deref obj;
  mret match o with
       | Preprocessor _ => "Pipeline"
       | GradientBoostingRegressor _ _ => "GradientBoostingRegressor"
       | Pipeline _ => "Pipeline"
       end.

(** The attributes of a fitted regressor; unfitted, they do not exist. *)
Definition fitted_regressor (obj : nat) : M GbrFit :=
  o ← deref obj;
  match o with
  | GradientBoostingRegressor _ (Some f) => mret f
  | _ => mthrow (AttributeError "not fitted")
  end.

(** [pickle] of a pipeline: the steps by value, as they are now. *)
Definition pickle (p : nat) : M Pickle :=
  o ← deref p;
  match o with
  | Pipeline steps =>
      mapM (λ st : string * nat, o ← deref st.2; mret (st.1, o)) steps
  | _ => mthrow (TypeError "not a pipeline")
  end.

End sklearn.
End Sklearn.

(** ** src/common/metrics.py: cross-validated RMSE *)

Module Metrics.
Section metrics.
Context `{!Collaborators}.
Import Sklearn.

(** The RMSE of one fold: a clone of the estimator is fitted on the
    training part and scored on the held-out part. *)
Definition fold_rmse (model : nat) (fold : Fold) : M pyfloat :=
  c ← clone model;
  fit c (X_train fold) (y_train fold);;
  f ← fitted_regressor c;
  mret (s ← neg_mean_squared_error f (X_test fold) (y_test fold);
        np_sqrt (- s)).

(** Modelled from the spec: [rmse_cv_score] of [src/common/metrics.py] is
    not among the sources.  The spec has it perform k-fold
    cross-validation with a fixed fold count, fit a fresh estimator clone
    per fold, score the negative mean squared error per fold and convert
    it to an RMSE per fold; the result is the sequence of per-fold RMSE
    values. *)
Definition rmse_cv_score (model : nat) (X : DataFrame) (y : Series)
  : M (list pyfloat) :=
  emit (CallRmseCv model X y);;
  mapM (fold_rmse model) (kfold X y).

End metrics.
End Metrics.

(** ** mlflow: the tracking store and the fluent interface *)

Module Mlflow.
Section mlflow.
Context `{!Collaborators}.
Import Sklearn.

(** The experiment new runs go to and searches look in. *)
Definition current_experiment (w : World) : string :=
  default "Default" (active_experiment w).

Definition set_experiment (experiment_name : string) : M unit :=
  modify (set_active_experiment (Some experiment_name)).

(** The model has one tracking store, the directory [./mlruns], which is
    also where the default tracking URI points. *)
Definition set_tracking_uri (uri : string) : M unit :=
  modify (set_tracking_uri_field (Some uri)).

Definition new_run (exp name : string) : Run :=
  mkRun exp name RUNNING [] [] [] ∅.

(** [mlflow.start_run(run_name=name)]: a new run of the current experiment
    becomes the active run; it is an error when a run is active. *)
Definition start_run (name : string) : M nat := λ w,
  match active_run w with
  | Some _ => Raised (Exception "Run is already active") w
  | None =>
      let id := fresh (dom (runs w)) in
      Ok id (set_active_run (Some id)
               (set_runs (λ rs, <[id := new_run (current_experiment w) name]> rs)
                  w))
  end.

Definition set_status (st : RunStatus) (r : Run) : Run :=
  mkRun (experiment r) (run_name r) st (tags r) (params r) (metrics r)
    (artifacts r).

(** [mlflow.end_run(status)] *)
Definition end_run_world (st : RunStatus) (w : World) : World :=
  match active_run w with
  | Some id => set_active_run None (set_runs (alter (set_status st) id) w)
  | None => w
  end.

Definition end_run (st : RunStatus) : M unit := modify (end_run_world st).

(** [with mlflow.start_run(run_name=name): body]: the run ends FINISHED
    when the body returns and FAILED when it raises; the exception goes
    on. *)
Definition with_start_run (name : string) (body : M unit) : M unit := λ w,
  match start_run name w with
  | Raised e w1 => Raised e w1
  | Ok _ w1 =>
      match body w1 with
      | Ok _ w2 => end_run FINISHED w2
      | Raised e w2 => Raised e (end_run_world FAILED w2)
      end
  end.

(** The run the fluent logging calls write to: the active run, started on
    the spot when there is none. *)
Definition get_or_start_run : M nat :=
  w ← get;
  match active_run w with
  | Some id => mret id
  | None => start_run ""
  end.

Definition update_run (f : Run → Run) : M unit :=
  id ← get_or_start_run;
  modify (set_runs (alter f id)).

Definition add_tag (k v : string) (r : Run) : Run :=
  mkRun (experiment r) (run_name r) (status r) (tags r ++ [(k, v)])
    (params r) (metrics r) (artifacts r).
Definition add_params (ps : list (string * string)) (r : Run) : Run :=
  mkRun (experiment r) (run_name r) (status r) (tags r)
    (params r ++ ps) (metrics r) (artifacts r).
Definition add_metrics (ms : list (string * pyfloat)) (r : Run) : Run :=
  mkRun (experiment r) (run_name r) (status r) (tags r)
    (params r) (metrics r ++ ms) (artifacts r).
Definition add_artifact (path : string) (a : Artifact) (r : Run) : Run :=
  mkRun (experiment r) (run_name r) (status r) (tags r)
    (params r) (metrics r) (<[path := a]> (artifacts r)).

Definition set_tag (k v : string) : M unit := update_run (add_tag k v).

(** [mlflow.log_params(d)]: the values are tracked as strings. *)
Definition log_params (d : list (string * pyval)) : M unit :=
  update_run (add_params (prod_map id py_str <$> d)).

Definition log_metrics (d : list (string * pyfloat)) : M unit :=
  update_run (add_metrics d).

Definition log_metric (k : string) (v : pyfloat) : M unit :=
  update_run (add_metrics [(k, v)]).

(** [mlflow.sklearn.log_model(pipeline, path)] *)
Definition log_model (pipeline : nat) (path : string) : M unit :=
  p ← pickle pipeline;
  update_run (add_artifact path (ModelArtifact p)).

(** [mlflow.log_artifact(ARTIFACT_PATH)]: the artifact directory as it is
    now, under its name.  The tracking store merges a directory into what
    the run already holds under the same name, where a record keeps one
    artifact per name: the two agree where the artifact directory is not
    named like the directory of the logged model, [model], which the
    statements about logged models assume. *)
Definition log_artifact_dir : M unit :=
  w ← get;
  match artifact_dir (files w) with
  | Some fs => update_run (add_artifact ARTIFACT_PATH (DirArtifact fs))
  | None => mthrow (FileNotFoundError ARTIFACT_PATH)
  end.

(** The value a search sees for a metric: the last one logged; a metric
    never logged counts like NaN. *)
Definition latest_metric (key : string) (r : Run) : pyfloat :=
  mjoin (assoc key (reverse (metrics r))).

(** Ascending order of metric values, missing values and NaN last. *)
Definition metric_leb (a b : pyfloat) : bool :=
  match a, b with
  | Some x, Some y => Qle_bool x y
  | Some _, None => true
  | None, Some _ => false
  | None, None => true
  end.

Fixpoint insert_by {A : Type} (key : A → pyfloat) (x : A) (l : list A)
  : list A :=
  match l with
  | [] => [x]
  | y :: l' =>
      if metric_leb (key x) (key y) then x :: l
      else y :: insert_by key x l'
  end.

(** A stable sort, as Python's [sorted]. *)
Definition sort_by {A : Type} (key : A → pyfloat) (l : list A) : list A :=
  foldr (insert_by key) [] l.

(** The runs of the current experiment, with their ids. *)
Definition experiment_runs (w : World) : list (nat * Run) :=
  filter (λ ir, experiment ir.2 = current_experiment w)
    (map_to_list (runs w)).

(** [mlflow.search_runs(order_by=["metrics.<key> ASC"], max_results=n)]:
    the first [n] runs of the current experiment by ascending metric; the
    rows of the resulting frame are the runs with their ids. *)
Definition search_runs (key : string) (max_results : nat)
  : M (list (nat * Run)) :=
  w ← get;
  mret (take max_results
          (sort_by (λ ir, latest_metric key ir.2) (experiment_runs w))).

Definition get_run (run_id : nat) : M Run :=
  w ← get;
  match runs w !! run_id with
  | Some r => mret r
  | None => mthrow (MlflowException "Run not found")
  end.

(** [mlflow.sklearn.load_model(f"{artifact_uri}/model")] of a run *)
Definition load_model (run_id : nat) (path : string) : M Pickle :=
  r ← get_run run_id;
  match artifacts r !! path with
  | Some (ModelArtifact p) => mret p
  | _ => mthrow (MlflowException "No such model")
  end.

End mlflow.
End Mlflow.

(** ** bentoml: the model store *)

Module Bentoml.

(** [bentoml.sklearn.save_model(name, model, signatures, metadata)] *)
Definition save_model (name : string) (model : Pickle)
    (signatures : list (string * Signature))
    (metadata : list (string * string)) : M unit :=
  modify (set_bento_store
            (λ st, st ++ [mkBentoModel name model signatures metadata])).

End Bentoml.

(** ** src/common/logger.py: the chart logger *)

Module Logger.
Section logger.
Context `{!Collaborators}.
Import Sklearn Mlflow.

(** Modelled from the spec: [log_feature_importance] of
    [src/common/logger.py] is not among the sources.  The spec has it take
    the feature matrix and a fitted estimator exposing per-feature
    importance scores, and produce and persist a chart as a tracked
    artifact; nothing it returns is used.  The spec asks that a failure
    here does not abort the run but describes no handler inside the
    function, so a failure of the rendering is raised to the caller.
    Section 6 of the spec has the artifact directory receive copies of
    charts, without saying which component writes them or under which
    names: the model writes none there, and the statements say of the
    artifact directory only what its model file is. *)
Definition log_feature_importance (train : DataFrame) (model : nat)
  : M unit :=
  emit (CallFeatureImportance train model);;
  f ← fitted_regressor model;
  chart ← lift (render_importance train f);
  update_run (add_artifact "feature_importance.png" (ChartArtifact chart)).

End logger.
End Logger.

(** ** numpy on a column *)

Module Numpy.
Section numpy.
Context `{!Collaborators}.

Definition log1p_cell (c : cell) : exn + cell :=
  match c with
  | Num None => inr NaN
  | Num (Some q) => inr (Num (np_log1p q))
  | Str _ => inl (TypeError "log1p")
  end.

Fixpoint log1p_cells (cs : list cell) : exn + list cell :=
  match cs with
  | [] => inr []
  | c :: cs' =>
      match log1p_cell c with
      | inl e => inl e
      | inr v =>
          match log1p_cells cs' with
          | inl e => inl e
          | inr vs => inr (v :: vs)
          end
      end
  end.

(** [np.log1p(s)]: element-wise, the row labels are kept. *)
Definition log1p (s : Series) : exn + Series :=
  match log1p_cells (s_values s) with
  | inl e => inl e
  | inr vs => inr (mkSeries (s_index s) vs)
  end.

End numpy.
End Numpy.

(** ** src/train.py: the driver

    The log lines of the script and its print of the model location only
    write to the log file and to standard output; they are left out.  An
    exception nothing handles ends the script: the result [Raised]. *)

Module Train.
Section train.
Context `{!Collaborators}.
Import Utils Sklearn Metrics Mlflow Bentoml Logger.

Definition experiment_name : string := "new_experiment".

Definition params_candidates : list (string * list pyval) :=
  [("learning_rate", [PyFloat 0.01]);
   ("max_depth", [PyInt 3]);
   ("max_features", [PyFloat 1.0])].

(** [pd.read_csv] of [house_rent_train.csv] in the data directory *)
Definition read_train_csv : M DataFrame :=
  w ← get;
  match train_csv (files w) with
  | Some f => mret (read_csv f)
  | None => mthrow (FileNotFoundError "house_rent_train.csv")
  end.

(** The [storage] directory is created when it does not exist. *)
Definition makedirs_storage : M unit :=
  w ← get;
  if storage_dir (files w) then mret ()
  else modify (set_files (λ f,
         mkFiles (train_csv f) true (features_csv f) (artifact_dir f))).

(** [df.to_csv] to [storage/house_rent_train_features.csv], without the
    row labels *)
Definition to_csv_features (df : DataFrame) : M unit :=
  w ← get;
  if storage_dir (files w) then
    modify (set_files (λ f,
      mkFiles (train_csv f) (storage_dir f) (Some (to_csv df))
        (artifact_dir f)))
  else mthrow (OSError "storage").

(** Lines 30 to 43: load the data, derive the target, fit and apply the
    preprocessing pipeline, persist the features with the target. *)
Definition prepare : M (DataFrame * DataFrame * Series) :=
  train_df ← read_train_csv;
  _X ← lift (drop ["rent"; "area_locality"; "posted_on"] train_df);
  rent ← lift (getitem "rent" train_df);
  y ← lift (Numpy.log1p rent);
  X ← fit_transform preprocess_pipeline _X y;
  makedirs_storage;;
  to_csv_features (assign X "rent" y);;
  mret (_X, X, y).

(** Lines 66 to 70, FIT: a regressor under the parameter set, chained
    after the shared preprocessing pipeline and fitted end to end on the
    raw features. *)
Definition fit_pipeline (_X : DataFrame) (y : Series)
    (params : list (string * pyval)) : M (nat * nat) :=
  regr ← new_GradientBoostingRegressor params;
  pipeline ← new_Pipeline
               [("preprocessor", preprocess_pipeline); ("regr", regr)];
  Pipeline_fit pipeline _X y;;
  mret (regr, pipeline).

(** Lines 72 to 106, EVALUATE and LOG: the cross-validated score on the
    transformed features, then the tag, the parameters, the metrics, the
    model, the artifact directory and the chart. *)
Definition evaluate_and_log (X : DataFrame) (y : Series)
    (params : list (string * pyval)) (regr pipeline : nat) : M unit :=
  score_cv ← rmse_cv_score regr X y;
  name ← class_name regr;
  set_tag "estimator_name" name;;
  logged ← mapM (λ key, v ← get_param regr key; mret (key, v)) (params.*1);
  log_params logged;;
  log_metrics [("RMSE_CV", np_mean score_cv)];;
  f ← fitted_regressor regr;
  for_each (train_score_ f) (log_metric "Train Loss");;
  log_model pipeline "model";;
  log_artifact_dir;;
  log_feature_importance X regr.

(** Lines 66 to 106: the body of one tracked run. *)
Definition run_body (_X X : DataFrame) (y : Series)
    (params : list (string * pyval)) : M unit :=
  '(regr, pipeline) ← fit_pipeline _X y params;
  evaluate_and_log X y params regr pipeline.

(** Lines 53 to 106: expand the grid, set the experiment, one run per
    parameter set. *)
Definition grid_search (grid : list (string * list pyval))
    (_X X : DataFrame) (y : Series) : M unit :=
  let param_set := get_param_set grid in
  set_experiment experiment_name;;
  set_tracking_uri "./mlruns";;
  for_enumerate 0 param_set (λ i params,
    with_start_run ("Run " +:+ pretty i) (run_body _X X y params)).

(** Lines 109 to 116: the first run by ascending [RMSE_CV]. *)
Definition select_best : M (nat * Run) :=
  best_run_df ← search_runs "RMSE_CV" 1;
  match best_run_df with
  | [] =>
      mthrow (Exception
                ("Found no runs for experiment '" +:+ experiment_name +:+ "'"))
  | (run_id, _) :: _ =>
      best_run ← get_run run_id;
      mret (run_id, best_run)
  end.

(** [copy_tree] of the model directory of a run into the artifact
    directory: the files of the model overwrite those of the same name.
    Of the files of a model directory the model file [model.pkl] is
    represented; the descriptions the tracking store writes beside it
    ([MLmodel] and the environment files) are copied with it and are not
    represented, so that the statements say of the artifact directory only
    what its model file is. *)
Definition copy_tree_model (run_id : nat) : M unit :=
  r ← get_run run_id;
  match artifacts r !! "model" with
  | Some (ModelArtifact p) =>
      modify (set_files (λ f,
        mkFiles (train_csv f) (storage_dir f) (features_csv f)
          (Some (<["model.pkl" := ModelFile p]>
                   (default ∅ (artifact_dir f))))))
  | _ => mthrow (DistutilsFileError "not a directory")
  end.

(** Lines 117 to 130: copy the model of the best run and save it to the
    model store. *)
Definition export (best : nat * Run) : M unit :=
  let best_params := params best.2 in
  copy_tree_model best.1;;
  model ← load_model best.1 "model";
  save_model "house_rent" model
    [("predict", mkSignature true 0)] best_params.

(** Lines 30 to 106, the states up to the selection: the data, the
    features, the grid search. *)
Definition train_phase (grid : list (string * list pyval)) : M unit :=
  '(_X, X, y) ← prepare;
  grid_search grid _X X y.

(** Lines 108 to 130: selection and export. *)
Definition select_and_export : M unit :=
  best ← select_best;
  export best.

(** The script with the grid as a parameter. *)
Definition main_with (grid : list (string * list pyval)) : M unit :=
  train_phase grid;;
  select_and_export.

(** [__main__] *)
Definition main : M unit := main_with params_candidates.

End train.
End Train.

(** * The vocabulary of the statements *)

Section vocabulary.
Context `{!Collaborators}.
Import Utils Sklearn Metrics Mlflow Bentoml Logger Train.

(** The order of a search on the sort key. *)
Definition key_le {A : Type} (key : A → pyfloat) (a b : A) : Prop :=
  Mlflow.metric_leb (key a) (key b) = true.

(** [keeps R m]: whatever the outcome of [m], the final state is related to
    the initial one. *)
Definition keeps {A : Type} (R : relation World) (m : M A) : Prop :=
  ∀ w, R w (world_of (m w)).

(** The state is read only. *)
Definition unchanged : relation World := λ w w', w' = w.

(** Only the Python objects and the record of calls change. *)
Definition only_python : relation World := λ w w',
  active_experiment w' = active_experiment w
  ∧ tracking_uri w' = tracking_uri w
  ∧ active_run w' = active_run w
  ∧ runs w' = runs w
  ∧ bento_store w' = bento_store w
  ∧ files w' = files w.

(** Only the tracking store and the tracking state of the process change. *)
Definition only_tracker : relation World := λ w w',
  heap w' = heap w
  ∧ calls w' = calls w
  ∧ bento_store w' = bento_store w
  ∧ files w' = files w.

(** While run [id] is active: the run stays active, the other runs, the
    model store and the files are untouched, and run [id] keeps its
    experiment, name and status. *)
Definition run_frame (id : nat) : relation World := λ w w',
  active_run w = Some id →
    active_run w' = Some id
    ∧ active_experiment w' = active_experiment w
    ∧ bento_store w' = bento_store w
    ∧ files w' = files w
    ∧ (∀ j, j ≠ id → runs w' !! j = runs w !! j)
    ∧ (∀ r, runs w !! id = Some r →
         ∃ r', runs w' !! id = Some r'
               ∧ experiment r' = experiment r
               ∧ run_name r' = run_name r
               ∧ status r' = status r).

(** Moreover the tracked parameters of run [id] stay as they are. *)
Definition run_quiet (id : nat) : relation World := λ w w',
  run_frame id w w'
  ∧ (active_run w = Some id →
     ∀ r, runs w !! id = Some r →
          ∃ r', runs w' !! id = Some r' ∧ params r' = params r).

(** A rewrite of a run record that keeps experiment, name and status. *)
Definition keeps_run_meta (f : Run → Run) : Prop :=
  ∀ r, experiment (f r) = experiment r
       ∧ run_name (f r) = run_name r
       ∧ status (f r) = status r.

(** Two states of one object: the class and what the constructor was given
    are the same; only what fitting learns may differ. *)
Definition same_kind (o o' : PyObj) : Prop :=
  match o, o' with
  | Preprocessor _, Preprocessor _ => True
  | GradientBoostingRegressor ps _, GradientBoostingRegressor ps' _ => ps = ps'
  | Pipeline steps, Pipeline steps' => steps = steps'
  | _, _ => False
  end.

(** Objects stay, and stay of their kind. *)
Definition heap_kinds : relation World := λ w w',
  ∀ i o, heap w !! i = Some o → ∃ o', heap w' !! i = Some o' ∧ same_kind o o'.

(** What the script hands to its collaborators: the shared preprocessing
    pipeline is fitted on the raw features, the metric utility and the
    chart logger get the transformed features, and every target is [y] or
    the training part of a cross-validation split. *)
Definition driver_call (_X X : DataFrame) (y : Series) (c : Call) : Prop :=
  match c with
  | CallFitTransform obj X' y' =>
      obj = preprocess_pipeline ∧ X' = _X ∧ y' = y
  | CallFit _ _ y' => y' = y ∨ ∃ fold, fold ∈ kfold X y ∧ y' = y_train fold
  | CallRmseCv _ X' y' => X' = X ∧ y' = y
  | CallFeatureImportance X' _ => X' = X
  end.

(** The calls made so far satisfy [P], and so do those made since. *)
Definition calls_ok (P : Call → Prop) : relation World := λ w w',
  Forall P (calls w) → Forall P (calls w').

(** The state after the two constructors of a run. *)
Definition constructed (params : list (string * pyval)) (w : World)
  : World :=
  set_heap
    (λ h, h ++ [Pipeline [("preprocessor", preprocess_pipeline);
                          ("regr", length (heap w))]])
    (set_heap (λ h, h ++ [GradientBoostingRegressor params None]) w).

(** Between runs: no run is active, and a whole run leaves the experiment
    setting, the model store, the files and the earlier run records as they
    are. *)
Definition loop_frame : relation World := λ w w',
  active_run w = None →
    active_run w' = None
    ∧ active_experiment w' = active_experiment w
    ∧ bento_store w' = bento_store w
    ∧ files w' = files w
    ∧ (∀ j r, runs w !! j = Some r → runs w' !! j = Some r).

(** The state in which the body of a new run starts. *)
Definition started (name : string) (w : World) : World :=
  set_active_run (Some (fresh (dom (runs w))))
    (set_runs
       (λ rs, <[fresh (dom (runs w)) := new_run (current_experiment w) name]> rs)
       w).

(** The state in which the loop starts. *)
Definition experiment_set (w : World) : World :=
  set_tracking_uri_field (Some "./mlruns")
    (set_active_experiment (Some experiment_name) w).

(** Only the Python objects, the record of calls and the files change. *)
Definition only_python_files : relation World := λ w w',
  active_experiment w' = active_experiment w
  ∧ tracking_uri w' = tracking_uri w
  ∧ active_run w' = active_run w
  ∧ runs w' = runs w
  ∧ bento_store w' = bento_store w.

(** Only the model store and the artifact directory change. *)
Definition only_export : relation World := λ w w',
  heap w' = heap w
  ∧ calls w' = calls w
  ∧ runs w' = runs w
  ∧ features_csv (files w') = features_csv (files w).

(** A fit of an object created after the heap had [n] objects. *)
Definition fresh_fit (n : nat) (c : Call) : Prop :=
  match c with
  | CallFit obj _ _ => n ≤ obj
  | _ => False
  end.

(** From a heap of at least [n] objects: the first [n] objects are as
    before, and every call made since is a fit of a later object. *)
Definition clones_only (n : nat) : relation World := λ w w',
  n ≤ length (heap w) →
    n ≤ length (heap w')
    ∧ (∀ i, i < n → heap w' !! i = heap w !! i)
    ∧ ∃ extra, calls w' = calls w ++ extra ∧ Forall (fresh_fit n) extra.

(** The objects there are stay as they are, fitted state included. *)
Definition objects_kept : relation World := λ w w',
  ∀ i o, heap w !! i = Some o → heap w' !! i = Some o.




(** [v] is the RMSE of the fold for the parameter set [ps]: of a regressor
    fitted under [ps] on the training part and scored on the held-out
    part. *)
Definition fold_rmse_of (ps : list (string * pyval)) (fold : Fold)
    (v : pyfloat) : Prop :=
  ∃ f, gbr_fit ps (X_train fold) (y_train fold) = inr f
       ∧ v = (s ← neg_mean_squared_error f (X_test fold) (y_test fold);
              np_sqrt (- s)).

(** The calls the script itself makes: all but the fits of single
    estimators, which the pipeline and the cross-validation make. *)
Definition is_fit (c : Call) : bool :=
  match c with
  | CallFit _ _ _ => true
  | _ => false
  end.

Definition driver_trace (w : World) : list Call :=
  filter (λ c, is_fit c = false) (calls w).

(** No call of the script itself is made. *)
Definition trace_same : relation World := λ w w',
  driver_trace w' = driver_trace w.

(** A computation that returns has made exactly the calls [cs]. *)
Definition ok_adds {A : Type} (m : M A) (cs : list Call) : Prop :=
  ∀ w a w', m w = Ok a w' → driver_trace w' = driver_trace w ++ cs.

(** What one run of the loop adds to the calls of the script. *)
Definition run_calls (_X X : DataFrame) (y : Series) (regr : nat)
  : list Call :=
  [CallFitTransform preprocess_pipeline _X y;
   CallRmseCv regr X y;
   CallFeatureImportance X regr].

(** The collaborators [C] with another rendering of the chart. *)
Definition with_chart (C : Collaborators)
    (render : DataFrame → GbrFit → exn + string) : Collaborators := {|
  ARTIFACT_PATH := @ARTIFACT_PATH C;
  py_str := @py_str C;
  np_log1p := @np_log1p C;
  np_sqrt := @np_sqrt C;
  prep_fit := @prep_fit C;
  prep_transform := @prep_transform C;
  gbr_fit := @gbr_fit C;
  neg_mean_squared_error := @neg_mean_squared_error C;
  kfold := @kfold C;
  render_importance := render;
|}.

(** [rmse] is the mean cross-validated RMSE of the parameter set [ps] on
    [X] and [y]: the mean of the RMSE of the folds. *)
Definition mean_cv_rmse (ps : list (string * pyval)) (X : DataFrame)
    (y : Series) (rmse : pyfloat) : Prop :=
  ∃ score_cv,
    Forall2 (fold_rmse_of ps) (kfold X y) score_cv
    ∧ rmse = np_mean score_cv.

(** The claim that with a grid of a single parameter set the metadata of
    the exported entry are that parameter set, whatever the tracking store
    holds. *)
Definition single_set_is_exported : Prop :=
  ∀ (C : Collaborators) grid ps d w' entry,
    NoDup (grid.*1) →
    get_param_set grid = [ps] →
    @Train.main_with C grid (boot d) = Ok () w' →
    last (bento_store w') = Some entry →
    bento_metadata entry = prod_map id (@py_str C) <$> ps.

(** The claim that chart logging is best effort: an execution that
    completes when the chart is rendered also completes when the rendering
    raises. *)
Definition chart_logging_best_effort : Prop :=
  ∀ (C : Collaborators) render e d w,
    @Train.main (with_chart C render) (boot d) = Ok () w →
    ∃ w', @Train.main (with_chart C (λ _ _, inl e)) (boot d) = Ok () w'.

End vocabulary.

(** ** A stand-in for the collaborators, and small stores, for the examples *)

Module Demo.
Import Train.

(** Square roots of the few squares the examples use; NaN elsewhere. *)
Definition demo_sqrt (q : Q) : pyfloat :=
  if Qeq_bool q 0 then Some 0%Q
  else if Qeq_bool q 4 then Some 2%Q
  else if Qeq_bool q 9 then Some 3%Q
  else None.

(** The strings of the values of the hard-coded grid. *)
Definition demo_str (v : pyval) : string :=
  match v with
  | PyInt z => pretty z
  | PyFloat q => if Qeq_bool q 1 then "1.0" else "0.01"
  end.

(** A preprocessing that keeps the table, a regressor with two boosting
    iterations, two folds with a squared error of 4 each, and a chart
    rendering that succeeds or not. *)
Definition demo (chart : exn + string) : Collaborators := {|
  ARTIFACT_PATH := "artifacts";
  py_str := demo_str;
  np_log1p := λ q, Some q;
  np_sqrt := demo_sqrt;
  prep_fit := λ _ _, inr [1%Q];
  prep_transform := λ _ X, inr X;
  gbr_fit := λ _ _ _, inr (mkGbrFit [Some 2%Q; Some 1%Q] [Some 1%Q] []);
  neg_mean_squared_error := λ _ _ _, Some (-4)%Q;
  kfold := λ X y, [mkFold X y X y; mkFold X y X y];
  render_importance := λ _ _, chart;
|}.

Definition demo_csv : Csv :=
  mkCsv 2 [("rent", [Num (Some 10%Q); Num (Some 20%Q)]);
           ("area_locality", [Str "north"; Str "south"]);
           ("posted_on", [Str "2022-05-18"; Str "2022-05-13"]);
           ("size", [Num (Some 1100%Q); Num (Some 800%Q)])].

(** A data directory with the training file, an empty artifact directory,
    no tracked run and no exported model. *)
Definition demo_disk : Disk :=
  mkDisk ∅ [] (mkFiles (Some demo_csv) false None (Some ∅)).

Definition run_with_rmse (name : string) (rmse : Q) : Run :=
  mkRun experiment_name name FINISHED [] [] [("RMSE_CV", Some rmse)] ∅.

(** Three runs of the experiment with mean RMSE 5.0, 2.0 and 3.0, at
    selection time. *)
Definition three_runs : World :=
  mkWorld [] [] (Some experiment_name) (Some "./mlruns") None
    (<[0 := run_with_rmse "Run 0" 5.0]>
       (<[1 := run_with_rmse "Run 1" 2.0]>
          (<[2 := run_with_rmse "Run 2" 3.0]> ∅)))
    [] (mkFiles None false None None).

(** A run of the experiment tracked by an earlier execution under another
    grid, with a smaller error than the stand-in collaborators give. *)
Definition earlier_run : Run :=
  mkRun experiment_name "Run 0" FINISHED
    [("estimator_name", "GradientBoostingRegressor")]
    [("max_depth", "9")]
    [("RMSE_CV", Some 0.1%Q)]
    (<["model" :=
         ModelArtifact
           [("preprocessor", Preprocessor (Some [1%Q]));
            ("regr",
             GradientBoostingRegressor [("max_depth", PyInt 9)]
               (Some (mkGbrFit [Some 1%Q] [Some 1%Q] [])))]]> ∅).

(** The data directory of [demo_disk] beside a tracking store that holds
    the earlier run. *)
Definition earlier_disk : Disk :=
  mkDisk (<[0 := earlier_run]> ∅) []
    (mkFiles (Some demo_csv) false None (Some ∅)).
End Demo.

(** * The vocabulary of the further properties *)

Section further_vocabulary.
Context `{!Collaborators}.
Import Utils Sklearn Metrics Mlflow Bentoml Logger Train.

(** What a process leaves behind when it ends. *)
Definition persist (w : World) : Disk :=
  mkDisk (runs w) (bento_store w) (files w).

(** The columns line 33 takes out of the training table. *)
Definition dropped_columns : list string :=
  ["rent"; "area_locality"; "posted_on"].

(** The training file is as it was. *)
Definition data_kept : relation World := λ w w',
  train_csv (files w') = train_csv (files w).

(** The training file and the artifact directory are as they were. *)
Definition sources_kept : relation World := λ w w',
  train_csv (files w') = train_csv (files w)
  ∧ artifact_dir (files w') = artifact_dir (files w).

(** The tracking store and the tracking state of the process are as they
    were. *)
Definition tracking_same : relation World := λ w w',
  runs w' = runs w
  ∧ active_run w' = active_run w
  ∧ active_experiment w' = active_experiment w.

(** The loop of lines 61 to 106 on its own. *)
Definition run_loop (_X X : DataFrame) (y : Series) (i : nat)
    (param_set : list (list (string * pyval))) : M unit :=
  for_enumerate i param_set (λ i params,
    with_start_run ("Run " +:+ pretty i) (run_body _X X y params)).

(** The pickle of a pipeline whose two steps are fitted. *)
Definition fitted_pipeline (st : PrepFit) (ps : list (string * pyval))
    (f : GbrFit) : Pickle :=
  [("preprocessor", Preprocessor (Some st));
   ("regr", GradientBoostingRegressor ps (Some f))].

(** What lines 72 to 106 write to the record of the active run. *)
Definition logged (ps : list (string * pyval)) (st : PrepFit) (f : GbrFit)
    (rmse : pyfloat) (dir : gmap string File) (chart : string) (r : Run)
  : Run :=
  add_artifact "feature_importance.png" (ChartArtifact chart)
    (add_artifact ARTIFACT_PATH (DirArtifact dir)
       (add_artifact "model" (ModelArtifact (fitted_pipeline st ps f))
          (add_metrics ((λ v, ("Train Loss", v)) <$> train_score_ f)
             (add_metrics [("RMSE_CV", rmse)]
                (add_params (prod_map id py_str <$> ps)
                   (add_tag "estimator_name" "GradientBoostingRegressor"
                      r)))))).

(** The record of a completed run of the script: the tag, the parameter
    set in string form, the mean cross-validated score followed by the
    training loss of every boosting iteration, and the three artifacts. *)
Definition completed_run (name : string) (ps : list (string * pyval))
    (st : PrepFit) (f : GbrFit) (rmse : pyfloat) (dir : gmap string File)
    (chart : string) : Run :=
  mkRun experiment_name name FINISHED
    [("estimator_name", "GradientBoostingRegressor")]
    (prod_map id py_str <$> ps)
    (("RMSE_CV", rmse) :: ((λ v, ("Train Loss", v)) <$> train_score_ f))
    (<["feature_importance.png" := ChartArtifact chart]>
       (<[ARTIFACT_PATH := DirArtifact dir]>
          (<["model" := ModelArtifact (fitted_pipeline st ps f)]> ∅))).

(** The record of a run that has failed before anything was tracked. *)
Definition empty_failed_run (exp name : string) : Run :=
  mkRun exp name FAILED [] [] [] ∅.

(** The evaluation of a run, lines 66 to 73, raises in state [w]: either
    the end-to-end fit does, or the cross-validation that follows it. *)
Definition evaluation_raises (_X X : DataFrame) (y : Series)
    (ps : list (string * pyval)) (w : World) : Prop :=
  (∃ e w2, fit_pipeline _X y ps w = Raised e w2)
  ∨ (∃ regr pipeline w2 e w3,
       fit_pipeline _X y ps w = Ok (regr, pipeline) w2
       ∧ rmse_cv_score regr X y w2 = Raised e w3).

End further_vocabulary.

(** The stand-in collaborators with a regressor that cannot be fitted. *)
Definition demo_fit_fails : Collaborators :=
  let C := Demo.demo (inr "chart") in {|
  ARTIFACT_PATH := @ARTIFACT_PATH C;
  py_str := @py_str C;
  np_log1p := @np_log1p C;
  np_sqrt := @np_sqrt C;
  prep_fit := @prep_fit C;
  prep_transform := @prep_transform C;
  gbr_fit := λ _ _ _, inl (Exception "fit");
  neg_mean_squared_error := @neg_mean_squared_error C;
  kfold := @kfold C;
  render_importance := @render_importance C;
|}.

(** * Theorems *)

Section product_facts.
Import Utils.
Context {V : Type}.
Implicit Types (l : list V) (vals : list (list V)) (t : list V).

Lemma length_product vals :
  length (product vals) = foldr Nat.mul 1 (length <$> vals).
Proof.
  induction vals as [|l rest IH]; [done|].
  cbn [product fmap list_fmap foldr]. rewrite <- IH. clear IH.
  induction l as [|x l IHl]; [done|].
  rewrite bind_cons, length_app, length_fmap, IHl. simpl. lia.
Qed.

Lemma elem_of_product vals t :
  t ∈ product vals ↔ Forall2 (λ x l, x ∈ l) t vals.
Proof.
  revert t. induction vals as [|l rest IH]; intros t; cbn [product].
  - rewrite list_elem_of_singleton. split; [intros ->; constructor|].
    by intros ->%Forall2_nil_inv_r.
  - rewrite list_elem_of_bind. split.
    + intros (x & (t' & -> & Ht')%list_elem_of_fmap & Hx).
      constructor; [done|]. by apply IH.
    + intros (x & t' & Hx & Ht' & ->)%Forall2_cons_inv_r.
      exists x. split; [|done]. apply list_elem_of_fmap.
      exists t'. split; [done|]. by apply IH.
Qed.

Lemma NoDup_product vals :
  Forall NoDup vals → NoDup (product vals).
Proof.
  induction 1 as [|l rest Hl _ IH]; cbn [product].
  - apply NoDup_singleton.
  - apply NoDup_bind; [| |done].
    + intros x1 x2 t _ _ (t1 & -> & _)%list_elem_of_fmap
        (t2 & [= -> _] & _)%list_elem_of_fmap. done.
    + intros x _. apply NoDup_fmap_2; [|done]. by intros ?? [=].
Qed.

Lemma product_nil_elem vals : [] ∈ vals → product vals = [].
Proof.
  induction vals as [|l rest IH]; [by intros ?%elem_of_nil|].
  intros [<- | Hin]%elem_of_cons; [done|].
  cbn [product]. rewrite (IH Hin).
  induction l as [|x l IHl]; [done|]. by rewrite bind_cons, IHl.
Qed.
End product_facts.

Section get_param_set_facts.
Import Utils.
Context {V : Type}.
Implicit Types (params : list (string * list V)) (d : list (string * V)).

Lemma get_param_set_cons k l params :
  get_param_set ((k, l) :: params)
  = x ← l; ((k, x) ::.) <$> get_param_set params.
Proof.
  unfold get_param_set. cbn [fmap list_fmap fst snd product].
  change (list_fmap ?A ?B ?f ?l) with (f <$> l).
  induction l as [|x l IHl]; [done|].
  rewrite !bind_cons, fmap_app, IHl. f_equal.
  rewrite <- !list_fmap_compose. done.
Qed.

Lemma index_tuples_cons n lens :
  index_tuples (n :: lens) = i ← seq 0 n; (i ::.) <$> index_tuples lens.
Proof. done. Qed.

Lemma length_get_param_set params :
  length (get_param_set params) = grid_size params.
Proof.
  unfold get_param_set, grid_size. by rewrite length_fmap, length_product.
Qed.

Lemma get_param_set_full params d :
  d ∈ get_param_set params ↔ full_assignment params d.
Proof.
  unfold full_assignment. revert d.
  induction params as [|[k l] params IH]; intros d.
  - cbn. rewrite list_elem_of_singleton. split; [intros ->; constructor|].
    by intros ->%Forall2_nil_inv_l.
  - rewrite get_param_set_cons, list_elem_of_bind. split.
    + intros (x & (d' & -> & Hd')%list_elem_of_fmap & Hx).
      constructor; [done|]. by apply IH.
    + intros ([k' x] & d' & [Hk Hx] & Hd' & ->)%Forall2_cons_inv_l.
      cbn in Hk, Hx. subst k'. exists x. split; [|done].
      apply list_elem_of_fmap. exists d'. split; [done|]. by apply IH.
Qed.

Lemma get_param_set_picks params :
  Forall2 (picks params) (index_tuples (length <$> params.*2))
    (get_param_set params).
Proof.
  unfold picks. induction params as [|[k l] params IH].
  - cbn. repeat constructor.
  - rewrite get_param_set_cons. cbn [fmap list_fmap snd].
    change (list_fmap ?A ?B ?f ?l) with (f <$> l).
    rewrite index_tuples_cons. apply Forall2_bind.
    apply Forall2_same_length_lookup. split; [by rewrite length_seq|].
    intros i j x [-> Hi]%lookup_seq Hx. cbn in *.
    apply Forall2_fmap. eapply Forall2_impl; [apply IH|].
    intros idx d Hp. cbn. by constructor.
Qed.

Lemma NoDup_get_param_set params :
  Forall (λ kv, NoDup kv.2) params → NoDup (get_param_set params).
Proof.
  intros Hnd. unfold get_param_set. apply NoDup_fmap_2_strong.
  - intros t1 t2 Ht1%elem_of_product Ht2%elem_of_product Hzip.
    apply Forall2_length in Ht1, Ht2. rewrite length_fmap in Ht1, Ht2.
    rewrite <- (snd_zip (params.*1) t1), <- (snd_zip (params.*1) t2);
      rewrite ?length_fmap; [by rewrite Hzip|lia|lia].
  - apply NoDup_product. by apply Forall_fmap.
Qed.

Lemma get_param_set_empty_candidates params :
  [] ∈ params.*2 → get_param_set params = [].
Proof.
  intros Hin. unfold get_param_set. by rewrite (product_nil_elem _ Hin).
Qed.
End get_param_set_facts.

Section index_tuples_facts.
Import Utils.

Lemma elem_of_index_tuples lens idx :
  idx ∈ index_tuples lens ↔ Forall2 lt idx lens.
Proof.
  unfold index_tuples. rewrite elem_of_product, Forall2_fmap_r.
  split; intros H; (eapply Forall2_impl; [exact H|]);
    intros i n; cbn; rewrite elem_of_seq; lia.
Qed.

Lemma lex_lt_index_tuples lens :
  StronglySorted lex_lt (index_tuples lens).
Proof.
  induction lens as [|n lens IH]; [repeat constructor|].
  rewrite index_tuples_cons. generalize 0.
  induction n as [|n IHn]; intros b; [constructor|].
  cbn [seq]. rewrite bind_cons. apply StronglySorted_app_2.
  - intros t1 t2 (t1' & -> & _)%list_elem_of_fmap
      (j & (t2' & -> & _)%list_elem_of_fmap & Hj%elem_of_seq)%list_elem_of_bind.
    apply lex_lt_head. lia.
  - eapply StronglySorted_fmap; [|exact IH].
    intros ???; by apply lex_lt_tail.
  - apply IHn.
Qed.
End index_tuples_facts.

(** ** The monad *)

Section monad_facts.
Context {A B : Type}.
Implicit Types (m : M A) (f : A → M B).

Lemma bind_Ok m f w a w1 : m w = Ok a w1 → (m ≫= f) w = f a w1.
Proof. unfold mbind, M_bind. by intros ->. Qed.

Lemma bind_Raised m f w e w1 :
  m w = Raised e w1 → (m ≫= f) w = Raised e w1.
Proof. unfold mbind, M_bind. by intros ->. Qed.

Lemma bind_Ok_inv m f w b w' :
  (m ≫= f) w = Ok b w' → ∃ a w1, m w = Ok a w1 ∧ f a w1 = Ok b w'.
Proof.
  unfold mbind, M_bind. destruct (m w) as [a w1|e w1]; [eauto|done].
Qed.

Lemma lift_Ok_inv (r : exn + A) w a w' :
  lift r w = Ok a w' → r = inr a ∧ w' = w.
Proof. destruct r; [done|]. by intros [= -> ->]. Qed.

Lemma bind_Raised_inv m f w e w' :
  (m ≫= f) w = Raised e w' →
  m w = Raised e w' ∨ ∃ a w1, m w = Ok a w1 ∧ f a w1 = Raised e w'.
Proof.
  unfold mbind, M_bind. destruct (m w) as [a w1|e1 w1]; [eauto|].
  intros [= -> ->]. by left.
Qed.
End monad_facts.

(** ** Best-run selection: the order of a search *)

Section search_order.
Import Mlflow.

Lemma metric_leb_refl a : metric_leb a a = true.
Proof. destruct a as [x|]; [|done]. apply Qle_bool_iff, Qle_refl. Qed.

Lemma metric_leb_total a b : metric_leb a b = true ∨ metric_leb b a = true.
Proof.
  destruct a as [x|], b as [y|]; cbn; auto.
  rewrite !Qle_bool_iff.
  destruct (Qlt_le_dec x y) as [?%Qlt_le_weak|?]; auto.
Qed.

Lemma metric_leb_trans a b c :
  metric_leb a b = true → metric_leb b c = true → metric_leb a c = true.
Proof.
  destruct a as [x|], b as [y|], c as [z|]; cbn; try done.
  rewrite !Qle_bool_iff. apply Qle_trans.
Qed.

(** A metric that is present and below a present metric is no larger. *)
Lemma metric_leb_Some a y :
  metric_leb a (Some y) = true → ∃ x, a = Some x ∧ (x <= y)%Q.
Proof.
  destruct a as [x|]; cbn; [|done]. rewrite Qle_bool_iff. eauto.
Qed.

Context {A : Type} (key : A → pyfloat).

Lemma insert_by_perm x l : insert_by key x l ≡ₚ x :: l.
Proof.
  induction l as [|y l IH]; [done|]. cbn.
  destruct (metric_leb (key x) (key y)); [done|].
  by rewrite IH, Permutation_swap.
Qed.

Lemma sort_by_perm l : sort_by key l ≡ₚ l.
Proof.
  induction l as [|x l IH]; [done|]. cbn.
  by rewrite insert_by_perm, IH.
Qed.

Lemma insert_by_sorted x l :
  StronglySorted (key_le key) l → StronglySorted (key_le key) (insert_by key x l).
Proof.
  induction 1 as [|y l Hl IH Hy]; cbn; [repeat constructor|].
  destruct (metric_leb (key x) (key y)) eqn:Hxy.
  - constructor; [by constructor|]. constructor; [done|].
    eapply Forall_impl; [exact Hy|].
    intros z Hz. unfold key_le in *. by eapply metric_leb_trans.
  - constructor; [done|]. rewrite insert_by_perm. constructor; [|done].
    unfold key_le. destruct (metric_leb_total (key x) (key y)); congruence.
Qed.

Lemma sort_by_sorted l : StronglySorted (key_le key) (sort_by key l).
Proof.
  induction l as [|x l IH]; cbn; [constructor|]. by apply insert_by_sorted.
Qed.

(** The first element of a sort is smallest among the sorted elements. *)
Lemma sort_by_head_min l x t :
  sort_by key l = x :: t → x ∈ l ∧ ∀ y, y ∈ l → key_le key x y.
Proof.
  intros Hs. pose proof (sort_by_sorted l) as Hsorted.
  pose proof (sort_by_perm l) as Hperm. rewrite Hs in Hsorted, Hperm.
  apply StronglySorted_cons in Hsorted as [Hmin _]. split.
  - rewrite <- Hperm. left.
  - intros y Hy. rewrite <- Hperm in Hy.
    apply elem_of_cons in Hy as [->|Hy]; [apply metric_leb_refl|].
    by eapply Forall_forall in Hmin.
Qed.

Lemma sort_by_nil l : sort_by key l = [] ↔ l = [].
Proof.
  split; [|by intros ->]. intros Hs. symmetry. apply Permutation_nil_l.
  rewrite <- Hs. apply sort_by_perm.
Qed.
End search_order.

(** ** Relations every step of a computation keeps *)

Section keeps_rules.
Context (R : relation World) `{!PreOrder R}.

Lemma keeps_ret {A} (a : A) : keeps R (mret a).
Proof. intros w. reflexivity. Qed.

Lemma keeps_throw {A} (e : exn) : keeps R (mthrow e : M A).
Proof. intros w. reflexivity. Qed.

Lemma keeps_lift {A} (r : exn + A) : keeps R (lift r).
Proof. destruct r; [apply keeps_throw | apply keeps_ret]. Qed.

Lemma keeps_get : keeps R get.
Proof. intros w. reflexivity. Qed.

Lemma keeps_modify f : (∀ w, R w (f w)) → keeps R (modify f).
Proof. intros Hf w. apply Hf. Qed.

Lemma keeps_bind {A B} (m : M A) (f : A → M B) :
  keeps R m → (∀ a, keeps R (f a)) → keeps R (m ≫= f).
Proof.
  intros Hm Hf w. specialize (Hm w). unfold mbind, M_bind.
  destruct (m w) as [a w1|e w1]; [|done].
  etransitivity; [exact Hm|apply Hf].
Qed.

Lemma keeps_mapM {A B} (f : A → M B) l :
  (∀ x, keeps R (f x)) → keeps R (mapM f l).
Proof.
  intros Hf. induction l as [|x l IH]; [apply keeps_ret|].
  cbn. apply keeps_bind; [done|]. intros b.
  apply keeps_bind; [done|]. intros bs. apply keeps_ret.
Qed.

Lemma keeps_for_enumerate {A} i (l : list A) body :
  (∀ i x, keeps R (body i x)) → keeps R (for_enumerate i l body).
Proof.
  intros Hb. revert i. induction l as [|x l IH]; intros i.
  - apply keeps_ret.
  - cbn. apply keeps_bind; [done|]. intros _. apply IH.
Qed.

Lemma keeps_for_each {A} (l : list A) body :
  (∀ x, keeps R (body x)) → keeps R (for_each l body).
Proof. intros Hb. apply keeps_for_enumerate. intros _. apply Hb. Qed.
End keeps_rules.

Lemma keeps_mono {A} (R S : relation World) (m : M A) :
  (∀ w w', R w w' → S w w') → keeps R m → keeps S m.
Proof. intros HRS Hm w. apply HRS, Hm. Qed.

(** The operations of the monad, unfolded. *)
Ltac unfold_M :=
  unfold lift, mthrow, M_throw, mret, M_ret, mbind, M_bind, modify, get in *.

(** One step of a proof that a computation keeps a relation. *)
Ltac keeps_step :=
  lazymatch goal with
  | |- keeps _ (mret _) => apply keeps_ret; solve [typeclasses eauto]
  | |- keeps _ (mthrow _) => apply keeps_throw; solve [typeclasses eauto]
  | |- keeps _ (lift _) => apply keeps_lift; solve [typeclasses eauto]
  | |- keeps _ get => apply keeps_get; solve [typeclasses eauto]
  | |- keeps _ (mbind _ _) => apply keeps_bind; [typeclasses eauto| |intros ?]
  | |- keeps _ (mapM _ _) => apply keeps_mapM; [typeclasses eauto|intros ?]
  | |- keeps _ (for_each _ _) =>
      apply keeps_for_each; [typeclasses eauto|intros ?]
  | |- keeps _ (match ?x with _ => _ end) => destruct x
  end.

#[global] Instance unchanged_preorder : PreOrder unchanged.
Proof. split; [done|]. intros ??? H1 H2. unfold unchanged in *. congruence. Qed.

#[global] Instance only_python_preorder : PreOrder only_python.
Proof.
  split; [done|]. unfold only_python. intros w1 w2 w3 H1 H2.
  destruct_and!. split_and!; congruence.
Qed.

#[global] Instance only_tracker_preorder : PreOrder only_tracker.
Proof.
  split; [done|]. unfold only_tracker. intros w1 w2 w3 H1 H2.
  destruct_and!. split_and!; congruence.
Qed.

Lemma keeps_unchanged {A} (R : relation World) `{!Reflexive R} (m : M A) :
  keeps unchanged m → keeps R m.
Proof. intros Hm w. rewrite (Hm w). reflexivity. Qed.

Section footprints.
Context `{!Collaborators}.
Import Sklearn Metrics Mlflow.

Lemma deref_unchanged p : keeps unchanged (deref p).
Proof. intros w. unfold deref. by destruct (heap w !! p). Qed.

Lemma get_param_unchanged obj key : keeps unchanged (get_param obj key).
Proof.
  unfold get_param. keeps_step; [apply deref_unchanged|].
  repeat keeps_step.
Qed.

Lemma class_name_unchanged obj : keeps unchanged (class_name obj).
Proof.
  unfold class_name. keeps_step; [apply deref_unchanged|]. keeps_step.
Qed.

Lemma fitted_regressor_unchanged obj : keeps unchanged (fitted_regressor obj).
Proof.
  unfold fitted_regressor. keeps_step; [apply deref_unchanged|].
  repeat keeps_step.
Qed.

Lemma pickle_unchanged p : keeps unchanged (pickle p).
Proof.
  unfold pickle. keeps_step; [apply deref_unchanged|].
  repeat keeps_step; apply deref_unchanged.
Qed.

Lemma get_run_unchanged id : keeps unchanged (get_run id).
Proof. unfold get_run. repeat keeps_step. Qed.

Lemma search_runs_unchanged key n : keeps unchanged (search_runs key n).
Proof. unfold search_runs. repeat keeps_step. Qed.

Lemma load_model_unchanged id path : keeps unchanged (load_model id path).
Proof.
  unfold load_model. keeps_step; [apply get_run_unchanged|].
  repeat keeps_step.
Qed.
End footprints.

Section footprints_python.
Context `{!Collaborators}.
Import Sklearn Metrics.

Lemma emit_only_python c : keeps only_python (emit c).
Proof. by apply keeps_modify. Qed.

Lemma alloc_only_python o : keeps only_python (alloc o).
Proof. done. Qed.

Lemma store_only_python p o : keeps only_python (store p o).
Proof. by apply keeps_modify. Qed.

Lemma deref_only_python p : keeps only_python (deref p).
Proof. apply keeps_unchanged; [apply _|apply deref_unchanged]. Qed.

Lemma new_GradientBoostingRegressor_only_python ps :
  keeps only_python (new_GradientBoostingRegressor ps).
Proof.
  unfold new_GradientBoostingRegressor.
  keeps_step; [apply alloc_only_python|keeps_step].
Qed.

Lemma fit_transform_only_python obj X y :
  keeps only_python (fit_transform obj X y).
Proof.
  unfold fit_transform. keeps_step; [apply emit_only_python|].
  keeps_step; [apply deref_only_python|].
  repeat keeps_step; apply store_only_python.
Qed.

Lemma fit_only_python obj X y : keeps only_python (fit obj X y).
Proof.
  unfold fit. keeps_step; [apply emit_only_python|].
  keeps_step; [apply deref_only_python|].
  repeat keeps_step; apply store_only_python.
Qed.

Lemma fit_steps_only_python steps X y :
  keeps only_python (fit_steps steps X y).
Proof.
  revert X. induction steps as [|[n o] steps IH]; intros X.
  - apply keeps_ret, _.
  - cbn. destruct steps; [apply fit_only_python|].
    keeps_step; [apply fit_transform_only_python|apply IH].
Qed.

Lemma Pipeline_fit_only_python p X y :
  keeps only_python (Pipeline_fit p X y).
Proof.
  unfold Pipeline_fit. keeps_step; [apply deref_only_python|].
  repeat keeps_step. apply fit_steps_only_python.
Qed.

Lemma clone_only_python obj : keeps only_python (clone obj).
Proof.
  unfold clone. keeps_step; [apply deref_only_python|].
  repeat keeps_step; apply alloc_only_python.
Qed.

Lemma fold_rmse_only_python model fold :
  keeps only_python (fold_rmse model fold).
Proof.
  unfold fold_rmse. keeps_step; [apply clone_only_python|].
  keeps_step; [apply fit_only_python|].
  keeps_step; [|keeps_step].
  apply keeps_unchanged; [apply _|apply fitted_regressor_unchanged].
Qed.

Lemma rmse_cv_score_only_python model X y :
  keeps only_python (rmse_cv_score model X y).
Proof.
  unfold rmse_cv_score. keeps_step; [apply emit_only_python|].
  keeps_step. apply fold_rmse_only_python.
Qed.
End footprints_python.

Section footprints_tracker.
Context `{!Collaborators}.
Import Sklearn Mlflow.

Lemma start_run_only_tracker name : keeps only_tracker (start_run name).
Proof. intros w. unfold start_run. by destruct (active_run w). Qed.

Lemma end_run_only_tracker st : keeps only_tracker (end_run st).
Proof.
  apply keeps_modify. intros w. unfold end_run_world.
  by destruct (active_run w).
Qed.

Lemma update_run_only_tracker f : keeps only_tracker (update_run f).
Proof.
  unfold update_run, get_or_start_run.
  keeps_step; [|by apply keeps_modify].
  repeat keeps_step. apply start_run_only_tracker.
Qed.

Lemma log_model_only_tracker pipeline path :
  keeps only_tracker (log_model pipeline path).
Proof.
  unfold log_model. keeps_step; [|apply update_run_only_tracker].
  apply keeps_unchanged; [apply _|apply pickle_unchanged].
Qed.

Lemma log_artifact_dir_only_tracker : keeps only_tracker log_artifact_dir.
Proof.
  unfold log_artifact_dir. repeat keeps_step.
  apply update_run_only_tracker.
Qed.
End footprints_tracker.

(** ** What a tracked run leaves alone *)

#[global] Instance run_frame_preorder id : PreOrder (run_frame id).
Proof.
  split.
  - intros w Hact. split_and!; try done. intros r Hr. by exists r.
  - intros w1 w2 w3 H12 H23 Hact.
    destruct (H12 Hact) as (Ha & He & Hb & Hf & Hother & Hid).
    destruct (H23 Ha) as (Ha' & He' & Hb' & Hf' & Hother' & Hid').
    split_and!; try congruence.
    + intros j Hj. by rewrite Hother', Hother.
    + intros r Hr. destruct (Hid r Hr) as (r2 & Hr2 & ? & ? & ?).
      destruct (Hid' r2 Hr2) as (r3 & Hr3 & ? & ? & ?).
      exists r3. split_and!; congruence.
Qed.

#[global] Instance run_quiet_preorder id : PreOrder (run_quiet id).
Proof.
  split.
  - intros w. split; [reflexivity|]. intros _ r Hr. by exists r.
  - intros w1 w2 w3 [H12 P12] [H23 P23]. split; [by etransitivity|].
    intros Hact r Hr. destruct (P12 Hact r Hr) as (r2 & Hr2 & ?).
    destruct (H12 Hact) as (Ha & _).
    destruct (P23 Ha r2 Hr2) as (r3 & Hr3 & ?).
    exists r3. split; congruence.
Qed.

Lemma only_python_run_quiet id w w' : only_python w w' → run_quiet id w w'.
Proof.
  intros (He & _ & Ha & Hr & Hb & Hf). split.
  - intros Hact. rewrite Ha, He, Hb, Hf, Hr. split_and!; try done.
    intros r ?. by exists r.
  - intros _ r ?. exists r. by rewrite Hr.
Qed.

Lemma run_quiet_frame id w w' : run_quiet id w w' → run_frame id w w'.
Proof. by intros [? _]. Qed.

Lemma unchanged_any (R : relation World) `{!Reflexive R} w w' :
  unchanged w w' → R w w'.
Proof. intros ->. reflexivity. Qed.

Section run_frame_facts.
Context `{!Collaborators}.
Import Sklearn Metrics Mlflow Logger.

Lemma update_run_active id f w :
  active_run w = Some id →
  update_run f w = Ok () (set_runs (alter f id) w).
Proof.
  intros Hact. unfold update_run, get_or_start_run, mbind, M_bind, get.
  by rewrite Hact.
Qed.

Lemma update_run_frame id f :
  keeps_run_meta f → keeps (run_frame id) (update_run f).
Proof.
  intros Hf w Hact. rewrite (update_run_active id) by done.
  cbn. split_and!; try done.
  - intros j Hj. by rewrite lookup_alter_ne.
  - intros r Hr. exists (f r). rewrite lookup_alter_eq, Hr.
    split; [done|apply Hf].
Qed.

Lemma update_run_quiet id f :
  keeps_run_meta f → (∀ r, params (f r) = params r) →
  keeps (run_quiet id) (update_run f).
Proof.
  intros Hf Hp w. split; [by apply update_run_frame|].
  intros Hact r Hr. rewrite (update_run_active id) by done.
  cbn. exists (f r). by rewrite lookup_alter_eq, Hr.
Qed.

Lemma log_model_quiet id pipeline path :
  keeps (run_quiet id) (log_model pipeline path).
Proof.
  unfold log_model. keeps_step; [|by apply update_run_quiet].
  eapply keeps_mono; [apply unchanged_any, _|apply pickle_unchanged].
Qed.

Lemma log_artifact_dir_quiet id : keeps (run_quiet id) log_artifact_dir.
Proof.
  unfold log_artifact_dir. repeat keeps_step.
  by apply update_run_quiet.
Qed.

Lemma log_feature_importance_quiet id train model :
  keeps (run_quiet id) (log_feature_importance train model).
Proof.
  unfold log_feature_importance. keeps_step.
  { eapply keeps_mono; [apply only_python_run_quiet|apply emit_only_python]. }
  keeps_step.
  { eapply keeps_mono; [apply unchanged_any, _|].
    apply fitted_regressor_unchanged. }
  repeat keeps_step. by apply update_run_quiet.
Qed.
End run_frame_facts.

(** ** What fitting leaves alone *)

Lemma same_kind_refl o : same_kind o o.
Proof. by destruct o. Qed.

Lemma same_kind_trans o1 o2 o3 :
  same_kind o1 o2 → same_kind o2 o3 → same_kind o1 o3.
Proof. destruct o1, o2, o3; cbn; try done; congruence. Qed.

#[global] Instance heap_kinds_preorder : PreOrder heap_kinds.
Proof.
  split.
  - intros w i o Hi. exists o. split; [done|apply same_kind_refl].
  - intros w1 w2 w3 H12 H23 i o Hi.
    destruct (H12 i o Hi) as (o2 & Hi2 & ?).
    destruct (H23 i o2 Hi2) as (o3 & Hi3 & ?).
    exists o3. split; [done|by eapply same_kind_trans].
Qed.

Lemma only_tracker_heap_kinds w w' : only_tracker w w' → heap_kinds w w'.
Proof.
  intros (Hh & _) i o Hi. exists o. rewrite Hh.
  split; [done|apply same_kind_refl].
Qed.

Lemma heap_kinds_insert w p o o' new :
  heap w !! p = Some o → same_kind o o' →
  heap new = <[p := o']> (heap w) → heap_kinds w new.
Proof.
  intros Hp Hk Hnew i oi Hi. rewrite Hnew.
  destruct (decide (i = p)) as [->|Hne].
  - exists o'. rewrite list_lookup_insert_eq by by eapply lookup_lt_Some.
    split; [done|congruence].
  - exists oi. rewrite list_lookup_insert_ne by done.
    split; [done|apply same_kind_refl].
Qed.

Lemma heap_kinds_app w o new :
  heap new = heap w ++ [o] → heap_kinds w new.
Proof.
  intros Hnew i oi Hi. exists oi. rewrite Hnew, lookup_app_l.
  - split; [done|apply same_kind_refl].
  - by eapply lookup_lt_Some.
Qed.

Lemma heap_kinds_same w new : heap new = heap w → heap_kinds w new.
Proof.
  intros Hnew i oi Hi. exists oi. rewrite Hnew.
  split; [done|apply same_kind_refl].
Qed.

Section heap_kinds_facts.
Context `{!Collaborators}.
Import Sklearn Metrics.

Lemma emit_heap_kinds c : keeps heap_kinds (emit c).
Proof. apply keeps_modify. intros w. by apply heap_kinds_same. Qed.

Lemma alloc_heap_kinds o : keeps heap_kinds (alloc o).
Proof. intros w. by eapply heap_kinds_app. Qed.

Lemma fit_transform_heap_kinds obj X y :
  keeps heap_kinds (fit_transform obj X y).
Proof.
  intros w. unfold fit_transform, emit, deref, store. unfold_M.
  cbn. destruct (heap w !! obj) as [o|] eqn:Ho; cbn;
    [|by apply heap_kinds_same].
  destruct o; cbn; try by apply heap_kinds_same.
  destruct (prep_fit X y) as [e|st]; cbn; [by apply heap_kinds_same|].
  destruct (prep_transform st X); cbn;
    (eapply heap_kinds_insert; [exact Ho| |reflexivity]; done).
Qed.

Lemma fit_heap_kinds obj X y : keeps heap_kinds (fit obj X y).
Proof.
  intros w. unfold fit, emit, deref, store. unfold_M.
  cbn. destruct (heap w !! obj) as [o|] eqn:Ho; cbn;
    [|by apply heap_kinds_same].
  destruct o; cbn; try by apply heap_kinds_same.
  - destruct (prep_fit X y) as [e|st]; cbn; [by apply heap_kinds_same|].
    eapply heap_kinds_insert; [exact Ho| |reflexivity]; done.
  - destruct (gbr_fit _ X y) as [e|f]; cbn;
      [by apply heap_kinds_same|].
    eapply heap_kinds_insert; [exact Ho| |reflexivity]; done.
Qed.

Lemma fit_steps_heap_kinds steps X y :
  keeps heap_kinds (fit_steps steps X y).
Proof.
  revert X. induction steps as [|[n o] steps IH]; intros X.
  - apply keeps_ret, _.
  - cbn. destruct steps; [apply fit_heap_kinds|].
    keeps_step; [apply fit_transform_heap_kinds|apply IH].
Qed.

Lemma Pipeline_fit_heap_kinds p X y : keeps heap_kinds (Pipeline_fit p X y).
Proof.
  unfold Pipeline_fit. keeps_step.
  { apply keeps_unchanged; [apply _|apply deref_unchanged]. }
  repeat keeps_step. apply fit_steps_heap_kinds.
Qed.

Lemma clone_heap_kinds obj : keeps heap_kinds (clone obj).
Proof.
  unfold clone. keeps_step.
  { apply keeps_unchanged; [apply _|apply deref_unchanged]. }
  repeat keeps_step; apply alloc_heap_kinds.
Qed.

Lemma rmse_cv_score_heap_kinds model X y :
  keeps heap_kinds (rmse_cv_score model X y).
Proof.
  unfold rmse_cv_score. keeps_step; [apply emit_heap_kinds|].
  keeps_step. unfold fold_rmse.
  keeps_step; [apply clone_heap_kinds|].
  keeps_step; [apply fit_heap_kinds|].
  keeps_step; [|keeps_step].
  apply keeps_unchanged; [apply _|apply fitted_regressor_unchanged].
Qed.
End heap_kinds_facts.

(** ** The arguments of the calls *)

#[global] Instance calls_ok_preorder P : PreOrder (calls_ok P).
Proof.
  split; [intros w Hw; exact Hw|].
  intros w1 w2 w3 H12 H23 Hw. apply H23, H12, Hw.
Qed.

Lemma calls_ok_same P w w' : calls w' = calls w → calls_ok P w w'.
Proof. intros Hc. unfold calls_ok. by rewrite Hc. Qed.

Lemma only_tracker_calls_ok P w w' : only_tracker w w' → calls_ok P w w'.
Proof. intros (_ & Hc & _). by apply calls_ok_same. Qed.

Section calls_ok_facts.
Context `{!Collaborators} (P : Call → Prop).
Import Sklearn Metrics Mlflow Logger.

Lemma emit_calls_ok c : P c → keeps (calls_ok P) (emit c).
Proof.
  intros Hc. apply keeps_modify. intros w Hw. cbn.
  apply Forall_app. split; [done|by constructor].
Qed.

Lemma alloc_calls_ok o : keeps (calls_ok P) (alloc o).
Proof. intros w. by apply calls_ok_same. Qed.

Lemma store_calls_ok p o : keeps (calls_ok P) (store p o).
Proof. apply keeps_modify. intros w. by apply calls_ok_same. Qed.

Lemma unchanged_calls_ok {A} (m : M A) :
  keeps unchanged m → keeps (calls_ok P) m.
Proof. apply keeps_unchanged, _. Qed.

Lemma fit_transform_calls_ok obj X y :
  P (CallFitTransform obj X y) → keeps (calls_ok P) (fit_transform obj X y).
Proof.
  intros Hc. unfold fit_transform. keeps_step; [by apply emit_calls_ok|].
  keeps_step; [apply unchanged_calls_ok, deref_unchanged|].
  repeat keeps_step; apply store_calls_ok.
Qed.

Lemma fit_calls_ok obj X y :
  P (CallFit obj X y) → keeps (calls_ok P) (fit obj X y).
Proof.
  intros Hc. unfold fit. keeps_step; [by apply emit_calls_ok|].
  keeps_step; [apply unchanged_calls_ok, deref_unchanged|].
  repeat keeps_step; apply store_calls_ok.
Qed.

Lemma clone_calls_ok obj : keeps (calls_ok P) (clone obj).
Proof.
  unfold clone. keeps_step; [apply unchanged_calls_ok, deref_unchanged|].
  repeat keeps_step; apply alloc_calls_ok.
Qed.

Lemma rmse_cv_score_calls_ok model X y :
  P (CallRmseCv model X y) →
  (∀ obj fold, fold ∈ kfold X y →
     P (CallFit obj (X_train fold) (y_train fold))) →
  keeps (calls_ok P) (rmse_cv_score model X y).
Proof.
  intros Hc Hfit. unfold rmse_cv_score.
  keeps_step; [by apply emit_calls_ok|].
  generalize (kfold X y) Hfit. clear Hfit. intros folds Hfit.
  induction folds as [|fold folds IH]; [apply keeps_ret, _|].
  cbn. keeps_step.
  - unfold fold_rmse. keeps_step; [apply clone_calls_ok|].
    keeps_step; [apply fit_calls_ok, Hfit; left|].
    keeps_step; [|keeps_step].
    apply unchanged_calls_ok, fitted_regressor_unchanged.
  - keeps_step; [|keeps_step]. apply IH. intros obj f Hf.
    apply Hfit. by right.
Qed.

Lemma tracker_calls_ok {A} (m : M A) :
  keeps only_tracker m → keeps (calls_ok P) m.
Proof. apply keeps_mono, only_tracker_calls_ok. Qed.

Lemma log_feature_importance_calls_ok train model :
  P (CallFeatureImportance train model) →
  keeps (calls_ok P) (log_feature_importance train model).
Proof.
  intros Hc. unfold log_feature_importance.
  keeps_step; [by apply emit_calls_ok|].
  keeps_step; [apply unchanged_calls_ok, fitted_regressor_unchanged|].
  repeat keeps_step. apply tracker_calls_ok, update_run_only_tracker.
Qed.
End calls_ok_facts.

(** ** One run: the fit *)

Section fit_pipeline_facts.
Context `{!Collaborators}.
Import Sklearn Train.

(** The end-to-end fit of a run re-fits the shared preprocessing pipeline
    on the raw features and fits the new regressor on what it returns. *)
Lemma fit_pipeline_eq _X y ps w :
  fit_pipeline _X y ps w =
  match filter (λ k, k ∉ gbr_keywords) (ps.*1) with
  | k :: _ => Raised (TypeError k) w
  | [] =>
      ((Xt ← fit_transform preprocess_pipeline _X y;
        fit (length (heap w)) Xt y);;
       mret (length (heap w), S (length (heap w)))) (constructed ps w)
  end.
Proof.
  unfold fit_pipeline, new_GradientBoostingRegressor.
  destruct (filter _ _); [|done].
  unfold new_Pipeline, Pipeline_fit, alloc, deref, constructed.
  unfold mbind at 1 2 3 4, M_bind. cbn [heap set_heap].
  rewrite list_lookup_middle by done. cbn [fit_steps].
  rewrite length_app. cbn [length]. by rewrite Nat.add_1_r.
Qed.
End fit_pipeline_facts.

(** ** One run: what its body keeps *)

Create HintDb footprint discriminated.

#[export] Hint Resolve deref_unchanged get_param_unchanged
  class_name_unchanged fitted_regressor_unchanged pickle_unchanged
  get_run_unchanged search_runs_unchanged load_model_unchanged
  emit_only_python alloc_only_python store_only_python
  new_GradientBoostingRegressor_only_python fit_transform_only_python
  fit_only_python Pipeline_fit_only_python clone_only_python
  rmse_cv_score_only_python start_run_only_tracker end_run_only_tracker
  update_run_only_tracker log_model_only_tracker
  log_artifact_dir_only_tracker : footprint.

Section logging_footprints.
Context `{!Collaborators}.
Import Mlflow.

Lemma set_tag_only_tracker k v : keeps only_tracker (set_tag k v).
Proof. apply update_run_only_tracker. Qed.
Lemma log_params_only_tracker d : keeps only_tracker (log_params d).
Proof. apply update_run_only_tracker. Qed.
Lemma log_metrics_only_tracker d : keeps only_tracker (log_metrics d).
Proof. apply update_run_only_tracker. Qed.
Lemma log_metric_only_tracker k v : keeps only_tracker (log_metric k v).
Proof. apply update_run_only_tracker. Qed.

Lemma set_tag_quiet id k v : keeps (run_quiet id) (set_tag k v).
Proof. by apply update_run_quiet. Qed.
Lemma log_metrics_quiet id d : keeps (run_quiet id) (log_metrics d).
Proof. by apply update_run_quiet. Qed.
Lemma log_metric_quiet id k v : keeps (run_quiet id) (log_metric k v).
Proof. by apply update_run_quiet. Qed.
Lemma log_params_frame id d : keeps (run_frame id) (log_params d).
Proof. by apply update_run_frame. Qed.
End logging_footprints.

#[export] Hint Resolve set_tag_only_tracker log_params_only_tracker
  log_metrics_only_tracker log_metric_only_tracker : footprint.

(** A leaf of a [keeps] proof: by the footprint of the operation. *)
Ltac by_footprint incl :=
  first
    [ solve [eauto with footprint]
    | apply keeps_unchanged; [typeclasses eauto|solve [eauto with footprint]]
    | eapply keeps_mono; [|solve [eauto with footprint]]; solve [incl] ].

Section run_body_keeps.
Context `{!Collaborators}.
Import Sklearn Metrics Mlflow Logger Train.

Lemma keeps_fit_pipeline (R : relation World) `{!PreOrder R} _X y ps :
  (∀ w, R w (constructed ps w)) →
  (∀ regr, keeps R (Xt ← fit_transform preprocess_pipeline _X y;
                    fit regr Xt y)) →
  keeps R (fit_pipeline _X y ps).
Proof.
  intros Hc Hfit w. rewrite fit_pipeline_eq.
  destruct (filter _ _); [|reflexivity].
  etransitivity; [apply Hc|].
  revert Hfit. generalize (constructed ps w), (length (heap w)).
  intros w1 regr Hfit. apply keeps_bind; [done|apply Hfit|].
  intros _. apply keeps_ret, _.
Qed.

Lemma fit_pipeline_only_python _X y ps :
  keeps only_python (fit_pipeline _X y ps).
Proof.
  apply keeps_fit_pipeline; [apply _|done|]. intros regr.
  keeps_step; by_footprint idtac.
Qed.

Lemma fit_pipeline_heap_kinds _X y ps :
  keeps heap_kinds (fit_pipeline _X y ps).
Proof.
  apply keeps_fit_pipeline; [apply _| |].
  - intros w. transitivity
      (set_heap (λ h, h ++ [GradientBoostingRegressor ps None]) w);
      by eapply heap_kinds_app.
  - intros regr.
    keeps_step; [apply fit_transform_heap_kinds|apply fit_heap_kinds].
Qed.

Lemma fit_pipeline_calls_ok _X X y ps :
  keeps (calls_ok (driver_call _X X y)) (fit_pipeline _X y ps).
Proof.
  apply keeps_fit_pipeline; [apply _| |].
  - intros w. by apply calls_ok_same.
  - intros regr. keeps_step.
    + by apply fit_transform_calls_ok.
    + apply fit_calls_ok. by left.
Qed.

Lemma evaluate_and_log_calls_ok _X X y ps regr pipeline :
  keeps (calls_ok (driver_call _X X y))
    (evaluate_and_log X y ps regr pipeline).
Proof.
  unfold evaluate_and_log. keeps_step.
  { apply rmse_cv_score_calls_ok; [done|]. intros obj fold ?.
    right. by exists fold. }
  pose proof (only_tracker_calls_ok (driver_call _X X y)) as Htr.
  keeps_step; [by_footprint idtac|].
  keeps_step; [by_footprint ltac:(apply Htr)|].
  keeps_step; [keeps_step; keeps_step; [by_footprint idtac|keeps_step]|].
  keeps_step; [by_footprint ltac:(apply Htr)|].
  keeps_step; [by_footprint ltac:(apply Htr)|].
  keeps_step; [by_footprint idtac|].
  keeps_step; [keeps_step; by_footprint ltac:(apply Htr)|].
  keeps_step; [by_footprint ltac:(apply Htr)|].
  keeps_step; [by_footprint ltac:(apply Htr)|].
  by apply log_feature_importance_calls_ok.
Qed.

Lemma run_body_calls_ok _X X y ps :
  keeps (calls_ok (driver_call _X X y)) (run_body _X X y ps).
Proof.
  unfold run_body. keeps_step; [apply fit_pipeline_calls_ok|].
  destruct a as [regr pipeline]. apply evaluate_and_log_calls_ok.
Qed.

Lemma evaluate_and_log_frame id X y ps regr pipeline :
  keeps (run_frame id) (evaluate_and_log X y ps regr pipeline).
Proof.
  pose proof (λ w w' (H : only_python w w'),
              run_quiet_frame id w w' (only_python_run_quiet id w w' H))
    as Hpy.
  unfold evaluate_and_log.
  keeps_step; [by_footprint ltac:(apply Hpy)|].
  keeps_step; [by_footprint idtac|].
  keeps_step; [eapply keeps_mono; [apply run_quiet_frame|apply set_tag_quiet]|].
  keeps_step; [keeps_step; keeps_step; [by_footprint idtac|keeps_step]|].
  keeps_step; [apply log_params_frame|].
  keeps_step;
    [eapply keeps_mono; [apply run_quiet_frame|apply log_metrics_quiet]|].
  keeps_step; [by_footprint idtac|].
  keeps_step.
  { keeps_step. eapply keeps_mono;
      [apply run_quiet_frame|apply log_metric_quiet]. }
  keeps_step;
    [eapply keeps_mono; [apply run_quiet_frame|apply log_model_quiet]|].
  keeps_step;
    [eapply keeps_mono; [apply run_quiet_frame|apply log_artifact_dir_quiet]|].
  eapply keeps_mono;
    [apply run_quiet_frame|apply log_feature_importance_quiet].
Qed.

Lemma run_body_frame id _X X y ps :
  keeps (run_frame id) (run_body _X X y ps).
Proof.
  unfold run_body. keeps_step.
  - eapply keeps_mono; [|apply fit_pipeline_only_python].
    intros w w' Hpy. by apply run_quiet_frame, only_python_run_quiet.
  - destruct a as [regr pipeline]. apply evaluate_and_log_frame.
Qed.
End run_body_keeps.

(** ** The loop of runs *)

#[global] Instance loop_frame_preorder : PreOrder loop_frame.
Proof.
  split; [by intros w Hact|].
  intros w1 w2 w3 H12 H23 Hact.
  destruct (H12 Hact) as (Ha & He & Hb & Hf & Hr).
  destruct (H23 Ha) as (Ha' & He' & Hb' & Hf' & Hr').
  split_and!; try congruence. auto.
Qed.

Section loop_facts.
Context `{!Collaborators}.
Import Sklearn Metrics Mlflow Logger Train.

Lemma with_start_run_eq name body w :
  active_run w = None →
  with_start_run name body w =
  match body (started name w) with
  | Ok _ w2 => Ok () (end_run_world FINISHED w2)
  | Raised e w2 => Raised e (end_run_world FAILED w2)
  end.
Proof. intros Hact. unfold with_start_run, start_run. by rewrite Hact. Qed.

Lemma fresh_run_None (w : World) : runs w !! fresh (dom (runs w)) = None.
Proof. apply not_elem_of_dom, is_fresh. Qed.

(** What a whole run does to the tracking store: one new record, of the
    current experiment, ended FINISHED or FAILED with the body. *)
Lemma with_start_run_runs name body w :
  active_run w = None →
  (∀ id, keeps (run_frame id) body) →
  let id := fresh (dom (runs w)) in
  let res := with_start_run name body w in
  ∃ r, runs (world_of res) = <[id := r]> (runs w)
       ∧ experiment r = current_experiment w
       ∧ run_name r = name
       ∧ status r = match res with Ok _ _ => FINISHED | Raised _ _ => FAILED end
       ∧ active_run (world_of res) = None
       ∧ active_experiment (world_of res) = active_experiment w
       ∧ bento_store (world_of res) = bento_store w
       ∧ files (world_of res) = files w.
Proof.
  intros Hact Hbody id res. subst res. rewrite with_start_run_eq by done.
  pose proof (Hbody id (started name w) eq_refl)
    as (Ha & He & Hb & Hf & Hother & Hid).
  destruct (Hid (new_run (current_experiment w) name)) as (r2 & Hr2 & ? & ? & ?).
  { cbn. apply lookup_insert_eq. }
  set (w2 := world_of (body (started name w))) in *.
  assert (∀ st, runs (end_run_world st w2)
                = <[id := set_status st r2]> (runs w)) as Hruns.
  { intros st. unfold end_run_world. rewrite Ha. cbn.
    apply map_eq. intros j. destruct (decide (j = id)) as [->|Hne].
    - by rewrite lookup_alter_eq, Hr2, lookup_insert_eq.
    - rewrite lookup_alter_ne, Hother, lookup_insert_ne by done.
      cbn. by rewrite lookup_insert_ne. }
  assert (∀ st, active_run (end_run_world st w2) = None
                ∧ active_experiment (end_run_world st w2) = active_experiment w
                ∧ bento_store (end_run_world st w2) = bento_store w
                ∧ files (end_run_world st w2) = files w) as Hrest.
  { intros st. unfold end_run_world. rewrite Ha. cbn.
    by rewrite He, Hb, Hf. }
  destruct (body (started name w)) as [[] w2'|e w2']; cbn in *.
  - exists (set_status FINISHED r2). rewrite Hruns.
    split_and!; try done; apply Hrest.
  - exists (set_status FAILED r2). rewrite Hruns.
    split_and!; try done; apply Hrest.
Qed.

Lemma with_start_run_loop_frame name body :
  (∀ id, keeps (run_frame id) body) →
  keeps loop_frame (with_start_run name body).
Proof.
  intros Hbody w Hact.
  destruct (with_start_run_runs name body w Hact Hbody)
    as (r & Hruns & _ & _ & _ & Ha & He & Hb & Hf).
  split_and!; try done. intros j rj Hj. rewrite Hruns.
  rewrite lookup_insert_ne; [done|]. intros <-.
  by rewrite fresh_run_None in Hj.
Qed.

Lemma keeps_with_start_run (R : relation World) `{!PreOrder R} name body :
  keeps R (start_run name) → keeps R body → (∀ st, keeps R (end_run st)) →
  keeps R (with_start_run name body).
Proof.
  intros Hs Hb He w. unfold with_start_run.
  specialize (Hs w). destruct (start_run name w) as [id w1|e w1]; [|done].
  specialize (Hb w1). destruct (body w1) as [[] w2|e w2]; cbn in *.
  - etransitivity; [exact Hs|]. etransitivity; [exact Hb|].
    apply (He FINISHED w2).
  - etransitivity; [exact Hs|]. etransitivity; [exact Hb|].
    apply (He FAILED w2).
Qed.

Lemma grid_search_eq grid _X X y w :
  grid_search grid _X X y w =
  for_enumerate 0 (Utils.get_param_set grid)
    (λ i ps, with_start_run ("Run " +:+ pretty i) (run_body _X X y ps))
    (experiment_set w).
Proof. done. Qed.

Lemma run_loop_frame _X X y i param_set :
  keeps loop_frame
    (for_enumerate i param_set
       (λ i ps, with_start_run ("Run " +:+ pretty i) (run_body _X X y ps))).
Proof.
  apply keeps_for_enumerate; [apply _|]. intros j ps.
  apply with_start_run_loop_frame. intros id. apply run_body_frame.
Qed.

Lemma run_loop_calls_ok _X X y i param_set :
  keeps (calls_ok (driver_call _X X y))
    (for_enumerate i param_set
       (λ i ps, with_start_run ("Run " +:+ pretty i) (run_body _X X y ps))).
Proof.
  apply keeps_for_enumerate; [apply _|]. intros j ps.
  apply keeps_with_start_run; [apply _| | |].
  - by_footprint ltac:(apply only_tracker_calls_ok).
  - apply run_body_calls_ok.
  - intros st. by_footprint ltac:(apply only_tracker_calls_ok).
Qed.
End loop_facts.

(** ** Preparation, selection and export *)

#[global] Instance only_python_files_preorder : PreOrder only_python_files.
Proof.
  split; [done|]. unfold only_python_files. intros w1 w2 w3 H12 H23.
  destruct_and!. split_and!; congruence.
Qed.

#[global] Instance only_export_preorder : PreOrder only_export.
Proof.
  split; [done|]. unfold only_export. intros w1 w2 w3 H12 H23.
  destruct_and!. split_and!; congruence.
Qed.

Lemma only_python_files_weaken w w' :
  only_python w w' → only_python_files w w'.
Proof. intros (? & ? & ? & ? & ? & _). by split_and!. Qed.

Section phases.
Context `{!Collaborators}.
Import Sklearn Metrics Mlflow Bentoml Logger Train.

Lemma prepare_only_python_files : keeps only_python_files prepare.
Proof.
  unfold prepare, read_train_csv, makedirs_storage, to_csv_features.
  keeps_step; [repeat keeps_step|].
  keeps_step; [keeps_step|]. keeps_step; [keeps_step|].
  keeps_step; [keeps_step|].
  keeps_step; [by_footprint ltac:(apply only_python_files_weaken)|].
  keeps_step.
  { keeps_step; [keeps_step|]. destruct (storage_dir _); [keeps_step|].
    by apply keeps_modify. }
  keeps_step; [|keeps_step].
  keeps_step; [keeps_step|]. destruct (storage_dir _); [|keeps_step].
  by apply keeps_modify.
Qed.

Lemma select_best_unchanged : keeps unchanged select_best.
Proof.
  unfold select_best. keeps_step; [by_footprint idtac|].
  repeat keeps_step. by_footprint idtac.
Qed.

Lemma export_only_export best : keeps only_export (export best).
Proof.
  unfold export, copy_tree_model, save_model.
  keeps_step.
  { keeps_step; [by_footprint idtac|]. repeat keeps_step.
    by apply keeps_modify. }
  keeps_step; [by_footprint idtac|]. by apply keeps_modify.
Qed.

Lemma select_and_export_only_export : keeps only_export select_and_export.
Proof.
  unfold select_and_export. keeps_step; [|apply export_only_export].
  apply keeps_unchanged; [apply _|apply select_best_unchanged].
Qed.

(** The selection: with a run in the experiment, the search has a first
    row, the run of that row is in the store, and no run of the experiment
    sorts before it. *)
Lemma select_best_Ok w :
  experiment_runs w ≠ [] →
  ∃ id r, select_best w = Ok (id, r) w
          ∧ (id, r) ∈ experiment_runs w
          ∧ ∀ ir, ir ∈ experiment_runs w →
              metric_leb (latest_metric "RMSE_CV" r)
                (latest_metric "RMSE_CV" ir.2) = true.
Proof.
  intros Hne. unfold select_best, search_runs, get_run. unfold_M.
  destruct (sort_by (λ ir, latest_metric "RMSE_CV" ir.2) (experiment_runs w))
    as [|[id r] t] eqn:Hs.
  { by apply sort_by_nil in Hs. }
  apply sort_by_head_min in Hs as [Hin Hmin]. cbn.
  assert (runs w !! id = Some r) as ->.
  { apply list_elem_of_filter in Hin as [_ Hin].
    by apply elem_of_map_to_list in Hin. }
  exists id, r. split_and!; [done|done|]. intros ir Hir. by apply Hmin.
Qed.

Lemma select_best_no_runs w :
  experiment_runs w = [] →
  select_best w =
  Raised (Exception
            ("Found no runs for experiment '" +:+ experiment_name +:+ "'")) w.
Proof.
  intros Hnil. unfold select_best, search_runs. unfold_M.
  by rewrite Hnil.
Qed.

Lemma elem_of_experiment_runs w id r :
  (id, r) ∈ experiment_runs w ↔
  runs w !! id = Some r ∧ experiment r = current_experiment w.
Proof.
  unfold experiment_runs. rewrite list_elem_of_filter, elem_of_map_to_list.
  cbn. tauto.
Qed.

(** Up to the selection nothing is exported. *)
Lemma train_phase_bento grid d :
  bento_store (world_of (train_phase grid (boot d))) = disk_bento d.
Proof.
  unfold train_phase, mbind, M_bind.
  pose proof (prepare_only_python_files (boot d)) as (_ & _ & Ha & _ & Hb).
  destruct (prepare (boot d)) as [[[_X X] y] w1|e w1]; [|done].
  cbn in Ha, Hb. rewrite grid_search_eq.
  pose proof (run_loop_frame _X X y 0 (Utils.get_param_set grid)
                (experiment_set w1) Ha) as (_ & _ & Hb' & _).
  by rewrite Hb'.
Qed.
End phases.

(** * The claims *)

Section claims_expander.
Import Utils.

(** C3.  For every grid whose candidate lists are all non-empty,
    [get_param_set] returns as many dictionaries as the product of the
    candidate-list lengths; its elements are exactly the full assignments
    (one candidate for every key, keys in input order), none twice when
    no candidate list repeats a value; and it lists, in
    strictly increasing lexicographic order of the candidate positions
    (first key most significant), one dictionary for each tuple of
    positions, so every combination appears exactly once. *)
Theorem get_param_set_cartesian {V : Type} (params : list (string * list V)) :
  Forall (λ kv, kv.2 ≠ []) params →
  let out := get_param_set params in
  length out = grid_size params
  ∧ out ≠ []
  ∧ (∀ d, d ∈ out ↔ full_assignment params d)
  ∧ (Forall (λ kv, NoDup kv.2) params → NoDup out)
  ∧ ∃ idxs,
      StronglySorted lex_lt idxs
      ∧ (∀ idx, idx ∈ idxs ↔ Forall2 (λ i kv, i < length kv.2) idx params)
      ∧ Forall2 (picks params) idxs out.
Proof.
  intros Hne out. split_and!.
  - apply length_get_param_set.
  - intros Hnil. apply (f_equal length) in Hnil.
    unfold out in Hnil. rewrite length_get_param_set in Hnil.
    unfold grid_size in Hnil. cbn in Hnil.
    induction Hne as [|[k l] ps Hl _ IH]; [done|].
    cbn in Hnil, Hl. destruct l; [done|]. cbn in Hnil.
    apply IH. nia.
  - apply get_param_set_full.
  - apply NoDup_get_param_set.
  - exists (index_tuples (length <$> params.*2)). split_and!.
    + apply lex_lt_index_tuples.
    + intros idx. rewrite elem_of_index_tuples.
      rewrite <- list_fmap_compose, Forall2_fmap_r. done.
    + apply get_param_set_picks.
Qed.

(** The grid of the spec's example expands to its two dictionaries. *)
Lemma get_param_set_cartesian_witness :
  let grid := [("a", [1; 2]); ("b", [3])] in
  Forall (λ kv : string * list nat, kv.2 ≠ []) grid
  ∧ get_param_set grid = [[("a", 1); ("b", 3)]; [("a", 2); ("b", 3)]]
  ∧ length (get_param_set grid) = 2.
Proof.
  intros grid.
  assert (Forall (λ kv : string * list nat, kv.2 ≠ []) grid) as Hne
    by (repeat constructor; done).
  split; [exact Hne|]. split; [reflexivity|].
  exact (proj1 (get_param_set_cartesian grid Hne)).
Defined.
End claims_expander.

Section claims_selection.
Context `{!Collaborators}.
Import Utils Sklearn Metrics Mlflow Bentoml Logger Train.

(** C4.  For every grid in which the candidate list of at least one key
    is empty, [get_param_set] returns the empty sequence, and the loop of
    the grid search then runs no iteration: it returns at once, having set
    the experiment only; no run is started and no collaborator is
    called. *)
Theorem empty_candidates_no_runs (grid : list (string * list pyval)) :
  [] ∈ grid.*2 →
  get_param_set grid = []
  ∧ ∀ _X X y w,
      grid_search grid _X X y w = Ok () (experiment_set w)
      ∧ runs (experiment_set w) = runs w
      ∧ calls (experiment_set w) = calls w.
Proof.
  intros Hin. pose proof (get_param_set_empty_candidates grid Hin) as Hnil.
  split; [done|]. intros _X X y w.
  by rewrite grid_search_eq, Hnil.
Qed.

(** C1.  For every state in which the experiment has at least one run
    record, the selection returns a run record of the experiment, as the
    store holds it, whose mean cross-validated RMSE is less than or equal
    to that of every run of the experiment (a run with the metric is
    never beaten by a run without it). *)
Theorem best_run_minimal (w : World) :
  experiment_runs w ≠ [] →
  ∃ id r,
    select_best w = Ok (id, r) w
    ∧ runs w !! id = Some r
    ∧ experiment r = current_experiment w
    ∧ ∀ id' r' m',
        runs w !! id' = Some r' →
        experiment r' = current_experiment w →
        latest_metric "RMSE_CV" r' = Some m' →
        ∃ m, latest_metric "RMSE_CV" r = Some m ∧ (m <= m')%Q.
Proof.
  intros Hne. destruct (select_best_Ok w Hne) as (id & r & Hsel & Hin & Hmin).
  apply elem_of_experiment_runs in Hin as [Hr Hexp].
  exists id, r. split_and!; try done.
  intros id' r' m' Hr' Hexp' Hm'. apply metric_leb_Some.
  rewrite <- Hm'. apply (Hmin (id', r')).
  by apply elem_of_experiment_runs.
Qed.

(** C2.  If the experiment has no run record when the selection starts,
    the script ends there with an exception whose message names the
    experiment, in the state the grid search left: nothing is added to
    the model store. *)
Theorem no_runs_fatal (grid : list (string * list pyval)) (d : Disk)
    (w1 : World) :
  train_phase grid (boot d) = Ok () w1 →
  experiment_runs w1 = [] →
  main_with grid (boot d)
  = Raised (Exception
              ("Found no runs for experiment '" +:+ experiment_name +:+ "'"))
      w1
  ∧ bento_store w1 = disk_bento d.
Proof.
  intros Htrain Hnil. split.
  - unfold main_with. rewrite (bind_Ok _ _ _ _ _ Htrain).
    unfold select_and_export.
    by rewrite (bind_Raised _ _ _ _ _ (select_best_no_runs w1 Hnil)).
  - pose proof (train_phase_bento grid d) as Hb. by rewrite Htrain in Hb.
Qed.
End claims_selection.

Section claims_selection_witnesses.
Import Utils Mlflow Train Demo.

Lemma empty_candidates_no_runs_witness :
  let grid := [("learning_rate", [PyFloat 0.01]); ("max_depth", [])] in
  [] ∈ grid.*2 ∧ get_param_set grid = [].
Proof.
  intros grid. assert ([] ∈ grid.*2) as Hin by (right; left).
  split; [exact Hin|].
  exact (proj1 (@empty_candidates_no_runs (demo (inr "chart")) grid Hin)).
Defined.

(** Of three runs with mean RMSE 5.0, 2.0 and 3.0, the run with 2.0 is
    selected. *)
Lemma select_best_three_runs :
  ∃ w, select_best three_runs = Ok (1, run_with_rmse "Run 1" 2.0) w.
Proof. eexists. vm_compute. reflexivity. Qed.

Lemma best_run_minimal_witness :
  experiment_runs three_runs ≠ []
  ∧ ∃ id r, select_best three_runs = Ok (id, r) three_runs
            ∧ runs three_runs !! id = Some r
            ∧ latest_metric "RMSE_CV" r = Some 2.0%Q.
Proof.
  assert (experiment_runs three_runs ≠ []) as Hne by (vm_compute; discriminate).
  split; [exact Hne|].
  destruct (best_run_minimal three_runs Hne) as (id & r & Hsel & Hr & _).
  exists id, r. split; [exact Hsel|]. split; [exact Hr|].
  destruct select_best_three_runs as [w Hsel2]. rewrite Hsel2 in Hsel.
  injection Hsel as _ <- _. reflexivity.
Defined.

Lemma no_runs_fatal_witness :
  let grid := [("learning_rate", [PyFloat 0.01]); ("max_depth", [])] in
  ∃ w1,
    @train_phase (demo (inr "chart")) grid (boot demo_disk) = Ok () w1
    ∧ experiment_runs w1 = []
    ∧ @main_with (demo (inr "chart")) grid (boot demo_disk)
      = Raised (Exception "Found no runs for experiment 'new_experiment'") w1
    ∧ bento_store w1 = [].
Proof.
  intros grid.
  destruct (@train_phase (demo (inr "chart")) grid (boot demo_disk))
    as [[] w1|e w1] eqn:Htrain; [|vm_compute in Htrain; discriminate].
  assert (experiment_runs w1 = []) as Hnil.
  { vm_compute in Htrain. injection Htrain as <-. vm_compute. reflexivity. }
  exists w1. split; [reflexivity|]. split; [exact Hnil|].
  exact (@no_runs_fatal (demo (inr "chart")) grid demo_disk w1 Htrain Hnil).
Defined.
End claims_selection_witnesses.

(** ** Cross-validation works on clones *)

#[global] Instance clones_only_preorder n : PreOrder (clones_only n).
Proof.
  split.
  - intros w Hn. split_and!; [done|done|]. exists [].
    by rewrite app_nil_r.
  - intros w1 w2 w3 H12 H23 Hn.
    destruct (H12 Hn) as (Hn2 & Hh2 & ex2 & Hc2 & Hf2).
    destruct (H23 Hn2) as (Hn3 & Hh3 & ex3 & Hc3 & Hf3).
    split_and!; [done| |].
    + intros i Hi. by rewrite Hh3, Hh2.
    + exists (ex2 ++ ex3). rewrite Hc3, Hc2, app_assoc.
      split; [done|]. by apply Forall_app.
Qed.

Lemma clones_only_same n w w' :
  heap w' = heap w → calls w' = calls w → clones_only n w w'.
Proof.
  intros Hh Hc Hn. rewrite Hh, Hc. split_and!; [done|done|].
  exists []. by rewrite app_nil_r.
Qed.

Section clones.
Context `{!Collaborators}.
Import Sklearn Metrics.

Lemma fit_clones_only n obj X y :
  n ≤ obj → keeps (clones_only n) (fit obj X y).
Proof.
  intros Hobj w Hn.
  assert (∃ extra, calls w ++ [CallFit obj X y] = calls w ++ extra
                   ∧ Forall (fresh_fit n) extra) as Hcalls.
  { exists [CallFit obj X y]. split; [done|]. by repeat constructor. }
  assert (∀ o i, i < n → <[obj := o]> (heap w) !! i = heap w !! i) as Hins.
  { intros o i Hi. apply list_lookup_insert_ne. lia. }
  unfold fit, emit, deref, store. unfold_M. cbn.
  destruct (heap w !! obj) as [o|]; cbn; [|done].
  destruct o; cbn; [| |done].
  - destruct (prep_fit X y); cbn; [done|].
    rewrite length_insert. auto.
  - destruct (gbr_fit _ X y); cbn; [done|].
    rewrite length_insert. auto.
Qed.

Lemma clone_inv model w :
  (∃ e, clone model w = Raised e w)
  ∨ ∃ o, clone model w
         = Ok (length (heap w)) (set_heap (λ h, h ++ [o]) w).
Proof.
  unfold clone, deref, alloc. unfold_M.
  destruct (heap w !! model) as [[]|]; eauto.
Qed.

Lemma fold_rmse_clones_only n model fold :
  keeps (clones_only n) (fold_rmse model fold).
Proof.
  intros w. unfold fold_rmse.
  destruct (clone_inv model w) as [[e He]|[o Ho]].
  { rewrite (bind_Raised _ _ _ _ _ He). reflexivity. }
  rewrite (bind_Ok _ _ _ _ _ Ho). intros Hn.
  assert (clones_only n w (set_heap (λ h, h ++ [o]) w)) as Halloc.
  { intros _. cbn. rewrite length_app. split_and!; [lia| |].
    - intros i Hi. apply lookup_app_l. lia.
    - exists []. by rewrite app_nil_r. }
  revert Hn. change (clones_only n w (world_of
    ((fit (length (heap w)) (X_train fold) (y_train fold) ≫= λ _,
      fitted_regressor (length (heap w)) ≫= λ f,
      mret (neg_mean_squared_error f (X_test fold) (y_test fold)
            ≫= λ s, np_sqrt (- s))) (set_heap (λ h, h ++ [o]) w)))).
  destruct (decide (n ≤ length (heap w))) as [Hn|Hn]; [|by intros ?].
  etransitivity; [exact Halloc|].
  apply keeps_bind; [apply _|by apply fit_clones_only|]. intros _.
  apply keeps_bind; [apply _| |intros f; apply keeps_ret, _].
  apply keeps_unchanged; [apply _|apply fitted_regressor_unchanged].
Qed.

Lemma cross_validation_clones_only n model folds :
  keeps (clones_only n) (mapM (fold_rmse model) folds).
Proof. apply keeps_mapM; [apply _|]. apply fold_rmse_clones_only. Qed.
End clones.

Section claims_metrics.
Context `{!Collaborators}.
Import Sklearn Metrics.

(** C7.  [rmse_cv_score] does not change the caller's estimator: whatever
    the estimator, the feature matrix and the target, and whether the call
    returns or raises, every object that exists when it is called, the
    estimator among them, is afterwards exactly as before, fitted state
    included; the call is recorded once, and every fit it makes is a fit
    of an object created during the call, a clone. *)
Theorem rmse_cv_score_keeps_estimator (model : nat) (X : DataFrame)
    (y : Series) (w : World) :
  let w' := world_of (rmse_cv_score model X y w) in
  (∀ o, heap w !! model = Some o → heap w' !! model = Some o)
  ∧ (∀ i o, heap w !! i = Some o → heap w' !! i = Some o)
  ∧ ∃ fits,
      calls w' = calls w ++ CallRmseCv model X y :: fits
      ∧ Forall (fresh_fit (length (heap w))) fits.
Proof.
  intros w'. set (w0 := set_calls (λ cs, cs ++ [CallRmseCv model X y]) w).
  assert (w' = world_of (mapM (fold_rmse model) (kfold X y) w0)) as Hw'
    by done.
  destruct (cross_validation_clones_only (length (heap w)) model
              (kfold X y) w0) as (Hlen & Hsame & fits & Hcalls & Hfits);
    [done|].
  rewrite <- Hw' in *. cbn in Hcalls, Hsame.
  assert (∀ i o, heap w !! i = Some o → heap w' !! i = Some o) as Hkeep.
  { intros i o Hi. rewrite Hsame; [done|]. by eapply lookup_lt_Some. }
  split_and!; [by auto|done|].
  exists fits. by rewrite Hcalls, <- app_assoc.
Qed.
End claims_metrics.

Section cross_validation_example.
Import Sklearn Metrics Demo.

(** On a heap holding a fitted regressor, the two folds of the stand-in
    fit two new clones and leave the regressor as fitted. *)
Example rmse_cv_score_two_folds :
  let fitted := Some (mkGbrFit [Some 7%Q] [Some 1%Q] []) in
  let regr := GradientBoostingRegressor [("max_depth", PyInt 3)] fitted in
  let X := mkDataFrame [0] [("size", [Num (Some 1%Q)])] in
  let y := mkSeries [0] [Num (Some 2%Q)] in
  let w := mkWorld [Preprocessor None; regr] [] None None None ∅ []
             (mkFiles None false None None) in
  ∃ w', @rmse_cv_score (demo (inr "chart")) 1 X y w
        = Ok [Some 2%Q; Some 2%Q] w'
        ∧ heap w' !! 1 = Some regr
        ∧ length (heap w') = 4
        ∧ calls w' = [CallRmseCv 1 X y; CallFit 2 X y; CallFit 3 X y].
Proof. eexists. split; [vm_compute; reflexivity|]. by split_and!. Qed.
End cross_validation_example.

Section claims_grid.
Context `{!Collaborators}.
Import Utils Sklearn Metrics Mlflow Bentoml Logger Train.

(** A loop over at least one parameter set that returns has tracked a run
    in the current experiment. *)
Lemma run_loop_Ok_has_run _X X y i param_set w w' :
  active_run w = None → param_set ≠ [] →
  for_enumerate i param_set
    (λ i ps, with_start_run ("Run " +:+ pretty i) (run_body _X X y ps)) w
  = Ok () w' →
  ∃ id r, runs w' !! id = Some r
          ∧ experiment r = current_experiment w
          ∧ current_experiment w' = current_experiment w.
Proof.
  intros Hact Hne Hloop. destruct param_set as [|ps rest]; [done|].
  cbn [for_enumerate] in Hloop.
  apply bind_Ok_inv in Hloop as ([] & w1 & Hrun & Hrest).
  destruct (with_start_run_runs ("Run " +:+ pretty i) (run_body _X X y ps)
              w Hact (λ id, run_body_frame id _X X y ps))
    as (r & Hruns & Hexp & _ & _ & Hact1 & Hexp1 & _).
  rewrite Hrun in Hruns, Hact1, Hexp1. cbn in Hruns, Hact1, Hexp1.
  pose proof (run_loop_frame _X X y (S i) rest w1 Hact1)
    as (_ & Hexp' & _ & _ & Hold).
  rewrite Hrest in Hexp', Hold. cbn in Hexp', Hold.
  exists (fresh (dom (runs w))), r. split_and!; [|done|].
  - apply Hold. rewrite Hruns. apply lookup_insert_eq.
  - unfold current_experiment. by rewrite Hexp', Hexp1.
Qed.

(** C9.  The hard-coded grid has three keys with one candidate each, so
    it expands to one parameter set; and whenever the script gets as far
    as the selection, the experiment has a run record, the search is not
    empty and the selection returns a run: the branch that reports an
    experiment without runs is not taken. *)
Theorem zero_runs_branch_unreachable (d : Disk) (w1 : World) :
  train_phase params_candidates (boot d) = Ok () w1 →
  params_candidates.*1 = ["learning_rate"; "max_depth"; "max_features"]
  ∧ Forall (λ kv, length kv.2 = 1) params_candidates
  ∧ length (get_param_set params_candidates) = 1
  ∧ experiment_runs w1 ≠ []
  ∧ ∃ best, select_best w1 = Ok best w1.
Proof.
  intros Htrain. split_and!; [done|by repeat constructor|done| |].
  all: unfold train_phase in Htrain;
    apply bind_Ok_inv in Htrain as ([[_X X] y] & w0 & Hprep & Hgrid);
    pose proof (prepare_only_python_files (boot d)) as (_ & _ & Ha & _);
    rewrite Hprep in Ha; cbn in Ha;
    rewrite grid_search_eq in Hgrid;
    apply run_loop_Ok_has_run in Hgrid as (id & r & Hr & Hexp & Hcur);
    [|done|done];
    assert ((id, r) ∈ experiment_runs w1) as Hin
      by (apply elem_of_experiment_runs; split; [done|congruence]).
  - intros Hnil. rewrite Hnil in Hin. by apply elem_of_nil in Hin.
  - destruct (select_best_Ok w1) as (id' & r' & Hsel & _).
    { intros Hnil. rewrite Hnil in Hin. by apply elem_of_nil in Hin. }
    by exists (id', r').
Qed.
End claims_grid.

Section claims_grid_witnesses.
Import Utils Mlflow Train Demo.

Lemma zero_runs_branch_unreachable_witness :
  ∃ w1,
    @train_phase (demo (inr "chart")) params_candidates (boot demo_disk)
    = Ok () w1
    ∧ experiment_runs w1 ≠ [].
Proof.
  destruct (@train_phase (demo (inr "chart")) params_candidates
              (boot demo_disk)) as [[] w1|e w1] eqn:Htrain;
    [|vm_compute in Htrain; discriminate].
  exists w1. split; [reflexivity|].
  exact (proj1 (proj2 (proj2 (proj2
    (@zero_runs_branch_unreachable (demo (inr "chart")) demo_disk w1
       Htrain))))).
Defined.
End claims_grid_witnesses.

(** ** The feature file *)

Section prepare_facts.
Context `{!Collaborators}.
Import Sklearn Train.

(** What a preparation that returns has done. *)
Lemma prepare_Ok w _X X y w1 :
  prepare w = Ok (_X, X, y) w1 →
  ∃ csv rent vs st,
    train_csv (files w) = Some csv
    ∧ drop ["rent"; "area_locality"; "posted_on"] (read_csv csv) = inr _X
    ∧ assoc "rent" (csv_columns csv) = Some rent
    ∧ Numpy.log1p_cells rent = inr vs
    ∧ y = mkSeries (seq 0 (csv_nrows csv)) vs
    ∧ prep_fit _X y = inr st
    ∧ prep_transform st _X = inr X
    ∧ heap w1 = <[preprocess_pipeline := Preprocessor (Some st)]> (heap w)
    ∧ calls w1 = calls w ++ [CallFitTransform preprocess_pipeline _X y]
    ∧ features_csv (files w1) = Some (to_csv (assign X "rent" y)).
Proof.
  intros Hprep. unfold prepare in Hprep.
  apply bind_Ok_inv in Hprep as (train_df & wa & Hread & Hprep).
  assert (∃ csv, train_csv (files w) = Some csv ∧ train_df = read_csv csv
                 ∧ wa = w) as (csv & Hcsv & -> & ->).
  { unfold read_train_csv, get, mbind, M_bind in Hread.
    destruct (train_csv (files w)) as [csv|]; [|done].
    injection Hread as <- <-. by exists csv. }
  apply bind_Ok_inv in Hprep as (_X' & wb & Hdrop & Hprep).
  apply lift_Ok_inv in Hdrop as [Hdrop ->].
  apply bind_Ok_inv in Hprep as (rent_s & wc & Hget & Hprep).
  apply lift_Ok_inv in Hget as [Hget ->].
  apply bind_Ok_inv in Hprep as (y' & wd & Hlog & Hprep).
  apply lift_Ok_inv in Hlog as [Hlog ->].
  unfold getitem in Hget. cbn in Hget.
  destruct (assoc "rent" (csv_columns csv)) as [rent|] eqn:Hrent; [|done].
  injection Hget as <-. unfold Numpy.log1p in Hlog. cbn in Hlog.
  destruct (Numpy.log1p_cells rent) as [e|vs] eqn:Hvs; [done|].
  injection Hlog as <-.
  apply bind_Ok_inv in Hprep as (X' & we & Hft & Hprep).
  assert (∃ st, prep_fit _X' (mkSeries (seq 0 (csv_nrows csv)) vs) = inr st
                ∧ prep_transform st _X' = inr X'
                ∧ heap we = <[preprocess_pipeline := Preprocessor (Some st)]>
                              (heap w)
                ∧ calls we = calls w ++ [CallFitTransform preprocess_pipeline
                                _X' (mkSeries (seq 0 (csv_nrows csv)) vs)]
                ∧ files we = files w) as (st & Hst & Htr & Hheap & Hcalls & Hf).
  { unfold fit_transform, emit, deref, store in Hft. unfold_M. cbn in Hft.
    destruct (heap w !! preprocess_pipeline) as [[o| |]|]; try done.
    cbn in Hft. destruct (prep_fit _ _) as [e|st] eqn:Hst; [done|].
    cbn in Hft. destruct (prep_transform st _X') as [e|Xt] eqn:Htr; [done|].
    injection Hft as <- <-. by exists st. }
  apply bind_Ok_inv in Hprep as ([] & wf & Hmk & Hprep).
  apply bind_Ok_inv in Hprep as ([] & wg & Hcsvw & [= <- <- <- <-]).
  assert (heap wf = heap we ∧ calls wf = calls we
          ∧ storage_dir (files wf) = true) as (Hh1 & Hc1 & Hs1).
  { unfold makedirs_storage in Hmk. unfold_M.
    destruct (storage_dir (files we)) eqn:Hs; by injection Hmk as <-. }
  assert (heap wg = heap wf ∧ calls wg = calls wf
          ∧ features_csv (files wg)
            = Some (to_csv (assign X' "rent"
                      (mkSeries (seq 0 (csv_nrows csv)) vs))))
    as (Hh2 & Hc2 & Hout).
  { unfold to_csv_features in Hcsvw. unfold_M. rewrite Hs1 in Hcsvw.
    by injection Hcsvw as <-. }
  exists csv, rent, vs, st. split_and!; try done; congruence.
Qed.
End prepare_facts.

Section pandas_facts.







Lemma assoc_elem_of {V : Type} (k : string) (d : list (string * V)) v :
  assoc k d = Some v → (k, v) ∈ d.
Proof.
  induction d as [|[k' v'] d IH]; [done|]. cbn.
  destruct (decide (k = k')) as [->|]; [intros [= ->]; left|].
  intros ?. right. auto.
Qed.
End pandas_facts.

Section numpy_facts.
Context `{!Collaborators}.

End numpy_facts.

Section after_prepare.
Context `{!Collaborators}.
Import Utils Sklearn Metrics Mlflow Bentoml Logger Train.

Lemma main_with_after_prepare grid w _X X y w1 :
  prepare w = Ok (_X, X, y) w1 →
  main_with grid w
  = (grid_search grid _X X y ≫= λ _, select_and_export) w1.
Proof.
  intros Hprep. unfold main_with, train_phase, mbind, M_bind.
  by rewrite Hprep.
Qed.

(** After the preparation, the script leaves the feature file alone, and
    every call it makes takes the data the preparation produced. *)
Lemma main_after_prepare grid d _X X y w1 :
  prepare (boot d) = Ok (_X, X, y) w1 →
  let w' := world_of (main_with grid (boot d)) in
  features_csv (files w') = features_csv (files w1)
  ∧ Forall (driver_call _X X y) (calls w').
Proof.
  intros Hprep w'. unfold w'.
  rewrite (main_with_after_prepare _ _ _ _ _ _ Hprep).
  pose proof (prepare_only_python_files (boot d)) as (_ & _ & Ha & _).
  rewrite Hprep in Ha. cbn in Ha.
  apply prepare_Ok in Hprep
    as (csv & rent & vs & st & _ & _ & _ & _ & _ & _ & _ & _ & Hcalls & _).
  cbn in Hcalls.
  assert (Forall (driver_call _X X y) (calls (experiment_set w1))) as Hc1.
  { cbn. rewrite Hcalls. by repeat constructor. }
  unfold mbind, M_bind. rewrite grid_search_eq.
  pose proof (run_loop_frame _X X y 0 (get_param_set grid)
                (experiment_set w1) Ha) as (_ & _ & _ & Hf & _).
  pose proof (run_loop_calls_ok _X X y 0 (get_param_set grid)
                (experiment_set w1) Hc1) as Hc2.
  destruct (for_enumerate _ _ _ _) as [[] w2|e w2]; cbn in *.
  - pose proof (select_and_export_only_export w2) as (_ & Hc3 & _ & Hf3).
    rewrite Hc3, Hf3. by rewrite Hf.
  - by rewrite Hf.
Qed.
End after_prepare.

Section claims_features.
Context `{!Collaborators}.
Import Utils Sklearn Metrics Mlflow Bentoml Logger Train.

End claims_features.

Section claims_features_witness.
Import Train Demo.

End claims_features_witness.

(** ** One run: the parameters it tracks *)

Section tracked_params.
Context `{!Collaborators}.
Import Utils Sklearn Metrics Mlflow Bentoml Logger Train.

Lemma assoc_NoDup {V : Type} (d : list (string * V)) k v :
  NoDup (d.*1) → (k, v) ∈ d → assoc k d = Some v.
Proof.
  induction d as [|[k' v'] d IH]; [by intros _ ?%elem_of_nil|].
  cbn. intros [Hk' Hnd]%NoDup_cons [[= -> ->]|Hin]%elem_of_cons.
  - by rewrite decide_True.
  - rewrite decide_False; [by apply IH|]. intros ->. apply Hk'.
    apply list_elem_of_fmap. by exists (k', v).
Qed.

Lemma get_param_eq regr ps f k v w :
  heap w !! regr = Some (GradientBoostingRegressor ps f) →
  assoc k ps = Some v →
  get_param regr k w = Ok v w.
Proof.
  intros Hregr Hk. unfold get_param, deref. unfold_M. by rewrite Hregr, Hk.
Qed.

(** Reading back the parameters of a regressor, key by key, gives the
    dictionary it was built with. *)
Lemma read_back_params regr ps f l w :
  heap w !! regr = Some (GradientBoostingRegressor ps f) →
  (∀ k v, (k, v) ∈ l → assoc k ps = Some v) →
  mapM (λ key, v ← get_param regr key; mret (key, v)) (l.*1) w = Ok l w.
Proof.
  intros Hregr. induction l as [|[k v] l IH]; intros Hl; [done|].
  rewrite fmap_cons.
  change (mapM ?f (?x :: ?l')) with (y ← f x; k ← mapM f l'; mret (y :: k)).
  assert ((get_param regr k ≫= λ v0, mret (k, v0)) w = Ok (k, v) w) as Hx.
  { rewrite (bind_Ok _ _ _ _ _ (get_param_eq regr ps f k v w Hregr
                                  (Hl k v ltac:(left)))). done. }
  cbn [fst]. rewrite (bind_Ok _ _ _ _ _ Hx).
  rewrite (bind_Ok _ _ _ _ _ (IH (λ k' v' Hin, Hl k' v' ltac:(by right)))).
  done.
Qed.

Lemma logging_tail_quiet rid X regr pipeline score_cv :
  keeps (run_quiet rid)
    (log_metrics [("RMSE_CV", np_mean score_cv)];;
     f ← fitted_regressor regr;
     for_each (train_score_ f) (log_metric "Train Loss");;
     log_model pipeline "model";;
     log_artifact_dir;;
     log_feature_importance X regr).
Proof.
  keeps_step; [apply log_metrics_quiet|].
  keeps_step; [by_footprint idtac|].
  keeps_step; [keeps_step; apply log_metric_quiet|].
  keeps_step; [apply log_model_quiet|].
  keeps_step; [apply log_artifact_dir_quiet|].
  apply log_feature_importance_quiet.
Qed.

(** A body that returns has tracked exactly its parameter set, in string
    form. *)
Lemma evaluate_and_log_params rid X y ps regr pipeline w w' r f :
  evaluate_and_log X y ps regr pipeline w = Ok () w' →
  active_run w = Some rid →
  runs w !! rid = Some r →
  heap w !! regr = Some (GradientBoostingRegressor ps f) →
  NoDup (ps.*1) →
  ∃ r', runs w' !! rid = Some r'
        ∧ params r' = params r ++ (prod_map id py_str <$> ps).
Proof.
  intros Hrun Hact Hr Hregr Hnd. unfold evaluate_and_log in Hrun.
  apply bind_Ok_inv in Hrun as (score_cv & w2 & Hcv & Hrun).
  pose proof (rmse_cv_score_only_python regr X y w) as Hpy.
  pose proof (rmse_cv_score_heap_kinds regr X y w) as Hk.
  rewrite Hcv in Hpy, Hk. cbn in Hpy, Hk.
  apply (only_python_run_quiet rid) in Hpy as [Hfr Hq].
  destruct (Hfr Hact) as (Hact2 & _). destruct (Hq Hact r Hr) as (r2 & Hr2 & Hp2).
  destruct (Hk regr _ Hregr) as ([| ps2 f2 |] & Hregr2 & Hkind); try done.
  cbn in Hkind. subst ps2. clear Hfr Hq Hk Hcv.
  apply bind_Ok_inv in Hrun as (name & w3 & Hname & Hrun).
  pose proof (class_name_unchanged regr w2) as Hu.
  rewrite Hname in Hu. unfold unchanged in Hu. cbn in Hu. subst w3.
  clear Hname.
  apply bind_Ok_inv in Hrun as ([] & w4 & Htag & Hrun).
  pose proof (set_tag_quiet rid "estimator_name" name w2) as [Hfr Hq].
  pose proof (set_tag_only_tracker "estimator_name" name w2) as (Hh4 & _).
  rewrite Htag in Hfr, Hq, Hh4. cbn in Hfr, Hq, Hh4.
  destruct (Hfr Hact2) as (Hact4 & _).
  destruct (Hq Hact2 r2 Hr2) as (r4 & Hr4 & Hp4).
  rewrite <- Hh4 in Hregr2. clear Hfr Hq Htag.
  rewrite (bind_Ok _ _ _ _ _ (read_back_params regr ps f2 ps w4 Hregr2
             (λ k v Hin, assoc_NoDup ps k v Hnd Hin))) in Hrun.
  apply bind_Ok_inv in Hrun as ([] & w6 & Hlog & Hrun).
  unfold log_params in Hlog. rewrite (update_run_active rid) in Hlog by done.
  injection Hlog as <-.
  pose proof (logging_tail_quiet rid X regr pipeline score_cv
                (set_runs (alter (add_params (prod_map id py_str <$> ps)) rid) w4))
    as [_ Hq].
  rewrite Hrun in Hq. cbn in Hq.
  destruct (Hq Hact4 (add_params (prod_map id py_str <$> ps) r4))
    as (r' & Hr' & Hp'); [by rewrite lookup_alter_eq, Hr4|].
  exists r'. split; [done|]. rewrite Hp'. cbn. congruence.
Qed.

(** The fit of a run that returns leaves a regressor built with the
    parameter set, and touches no run record. *)
Lemma fit_pipeline_Ok _X y ps w regr pipeline w' :
  fit_pipeline _X y ps w = Ok (regr, pipeline) w' →
  only_python w w'
  ∧ ∃ f, heap w' !! regr = Some (GradientBoostingRegressor ps f).
Proof.
  intros Hfit. pose proof (fit_pipeline_only_python _X y ps w) as Hpy.
  rewrite Hfit in Hpy. split; [done|]. clear Hpy.
  rewrite fit_pipeline_eq in Hfit. destruct (filter _ _); [|done].
  apply bind_Ok_inv in Hfit as ([] & w2 & Hfit & [= <- <- <-]).
  assert (keeps heap_kinds (Xt ← fit_transform preprocess_pipeline _X y;
                            fit (length (heap w)) Xt y)) as Hk.
  { keeps_step; [apply fit_transform_heap_kinds|apply fit_heap_kinds]. }
  specialize (Hk (constructed ps w)). rewrite Hfit in Hk. cbn in Hk.
  destruct (Hk (length (heap w)) (GradientBoostingRegressor ps None))
    as ([| ps2 f2 |] & Hregr & Hkind); try done.
  - cbn. rewrite lookup_app_l by (rewrite length_app; cbn; lia).
    by apply list_lookup_middle.
  - cbn in Hkind. subst ps2. by exists f2.
Qed.

Lemma run_body_params rid _X X y ps w w' r :
  run_body _X X y ps w = Ok () w' →
  active_run w = Some rid →
  runs w !! rid = Some r →
  NoDup (ps.*1) →
  ∃ r', runs w' !! rid = Some r'
        ∧ params r' = params r ++ (prod_map id py_str <$> ps).
Proof.
  intros Hrun Hact Hr Hnd. unfold run_body in Hrun.
  apply bind_Ok_inv in Hrun as ([regr pipeline] & w2 & Hfit & Hrun).
  apply fit_pipeline_Ok in Hfit as [(_ & _ & Hact2 & Hruns2 & _) [f Hregr]].
  eapply evaluate_and_log_params; [exact Hrun| | |exact Hregr|exact Hnd];
    congruence.
Qed.
End tracked_params.

(** ** The export *)

Section export_facts.
Context `{!Collaborators}.
Import Utils Sklearn Metrics Mlflow Bentoml Logger Train.

(** An export that returns has appended one entry to the model store: the
    logged model of the run, under the name [house_rent], with the
    parameters of the run record as metadata. *)
Lemma export_Ok best w w' :
  export best w = Ok () w' →
  ∃ model r,
    bento_store w'
    = bento_store w
      ++ [mkBentoModel "house_rent" model [("predict", mkSignature true 0)]
            (params best.2)]
    ∧ runs w' = runs w
    ∧ runs w !! best.1 = Some r
    ∧ artifacts r !! "model" = Some (ModelArtifact model).
Proof.
  unfold export, copy_tree_model, load_model, get_run, save_model.
  unfold_M. intros Hexp.
  destruct (runs w !! best.1) as [r|] eqn:Hr; [|done]. cbn in Hexp.
  destruct (artifacts r !! "model") as [[model| |]|] eqn:Hm; try done.
  cbn in Hexp. rewrite Hr in Hexp. cbn in Hexp. rewrite Hm in Hexp.
  injection Hexp as <-. by exists model, r.
Qed.

Lemma train_phase_Ok grid d w1 :
  train_phase grid (boot d) = Ok () w1 →
  active_experiment w1 = Some experiment_name
  ∧ active_run w1 = None
  ∧ bento_store w1 = disk_bento d.
Proof.
  intros Htrain. pose proof (train_phase_bento grid d) as Hb.
  rewrite Htrain in Hb. split_and!; [| |done].
  all: unfold train_phase in Htrain;
    apply bind_Ok_inv in Htrain as ([[_X X] y] & w0 & Hprep & Hgrid);
    pose proof (prepare_only_python_files (boot d)) as (_ & _ & Ha & _);
    rewrite Hprep in Ha; cbn in Ha;
    rewrite grid_search_eq in Hgrid;
    pose proof (run_loop_frame _X X y 0 (get_param_set grid)
                  (experiment_set w0) Ha) as (Ha' & He' & _);
    rewrite Hgrid in Ha', He'; done.
Qed.

Lemma full_assignment_keys {V : Type} (grid : list (string * list V)) d :
  full_assignment grid d → d.*1 = grid.*1.
Proof.
  induction 1 as [|[k l] [k' v] grid d [Hk _] _ IH]; [done|].
  cbn in *. by rewrite Hk, IH.
Qed.

(** With one parameter set and no earlier run of the experiment, the runs
    of the experiment at selection time hold exactly that parameter set, in
    string form. *)
Lemma single_run_params grid ps d w1 :
  NoDup (grid.*1) →
  get_param_set grid = [ps] →
  (∀ j rj, disk_runs d !! j = Some rj → experiment rj ≠ experiment_name) →
  train_phase grid (boot d) = Ok () w1 →
  ∀ rid r, runs w1 !! rid = Some r → experiment r = experiment_name →
           params r = prod_map id py_str <$> ps.
Proof.
  intros Hnd Hps Hold Htrain rid r Hr Hexp.
  assert (NoDup (ps.*1)) as Hndps.
  { rewrite (full_assignment_keys grid ps); [done|].
    apply get_param_set_full. rewrite Hps. left. }
  unfold train_phase in Htrain.
  apply bind_Ok_inv in Htrain as ([[_X X] y] & w0 & Hprep & Hgrid).
  pose proof (prepare_only_python_files (boot d)) as (_ & _ & Ha & Hruns0 & _).
  rewrite Hprep in Ha, Hruns0. cbn in Ha, Hruns0.
  rewrite grid_search_eq, Hps in Hgrid. cbn [for_enumerate] in Hgrid.
  apply bind_Ok_inv in Hgrid as ([] & w1' & Hrun & [= <-]).
  rewrite with_start_run_eq in Hrun by done.
  set (ws := started ("Run " +:+ pretty 0) (experiment_set w0)) in *.
  set (rid0 := fresh (dom (runs w0))).
  destruct (run_body _X X y ps ws) as [[] w2|e w2] eqn:Hbody; [|done].
  injection Hrun as <-.
  assert (active_run ws = Some rid0) as Hacts by done.
  assert (runs ws !! rid0
          = Some (new_run experiment_name ("Run " +:+ pretty 0))) as Hnew.
  { cbn. apply lookup_insert_eq. }
  destruct (run_body_params rid0 _X X y ps ws w2 _ Hbody Hacts Hnew Hndps)
    as (r2 & Hr2 & Hp2).
  pose proof (run_body_frame rid0 _X X y ps ws Hacts)
    as (Hact2 & _ & _ & _ & Hother & _).
  rewrite Hbody in Hact2, Hother. cbn in Hact2, Hother.
  unfold end_run_world in Hr. rewrite Hact2 in Hr. cbn in Hr.
  destruct (decide (rid = rid0)) as [->|Hne].
  - rewrite lookup_alter_eq, Hr2 in Hr. injection Hr as <-. cbn.
    by rewrite Hp2.
  - rewrite lookup_alter_ne, Hother in Hr by done.
    rewrite lookup_insert_ne, Hruns0 in Hr by done.
    by destruct (Hold rid r Hr).
Qed.
End export_facts.

Section claims_export.
Context `{!Collaborators}.
Import Utils Sklearn Metrics Mlflow Bentoml Logger Train.

(** C6, as amended.  When the script ends without an exception, the model
    store has gained one entry: it is named [house_rent]; its signature
    declares [predict], batchable along dimension 0; its model is the
    logged model, and its metadata are the tracked parameters, of a run of
    the experiment whose mean cross-validated RMSE is smallest, among the
    runs of all executions.  With a grid of a single parameter set the
    metadata are exactly that parameter set, the values in their tracked
    string form, provided the tracking store holds no earlier run of the
    experiment. *)
Theorem export_entry (grid : list (string * list pyval)) (d : Disk)
    (w' : World) :
  main_with grid (boot d) = Ok () w' →
  ∃ rid r entry,
    bento_store w' = disk_bento d ++ [entry]
    ∧ bento_name entry = "house_rent"
    ∧ bento_signatures entry = [("predict", mkSignature true 0)]
    ∧ bento_metadata entry = params r
    ∧ runs w' !! rid = Some r
    ∧ experiment r = experiment_name
    ∧ artifacts r !! "model" = Some (ModelArtifact (bento_model entry))
    ∧ (∀ rid' r' m',
         runs w' !! rid' = Some r' →
         experiment r' = experiment_name →
         latest_metric "RMSE_CV" r' = Some m' →
         ∃ m, latest_metric "RMSE_CV" r = Some m ∧ (m <= m')%Q)
    ∧ (∀ ps,
         NoDup (grid.*1) →
         get_param_set grid = [ps] →
         (∀ j rj, disk_runs d !! j = Some rj →
                  experiment rj ≠ experiment_name) →
         bento_metadata entry = prod_map id py_str <$> ps).
Proof.
  intros Hmain. unfold main_with in Hmain.
  apply bind_Ok_inv in Hmain as ([] & w1 & Htrain & Hmain).
  unfold select_and_export in Hmain.
  apply bind_Ok_inv in Hmain as ([rid r] & w1' & Hsel & Hexp).
  pose proof (select_best_unchanged w1) as Hu. rewrite Hsel in Hu.
  unfold unchanged in Hu. cbn in Hu. subst w1'.
  destruct (train_phase_Ok grid d w1 Htrain) as (Hae & Hact & Hb).
  assert (current_experiment w1 = experiment_name) as Hcur
    by (unfold current_experiment; by rewrite Hae).
  destruct (decide (experiment_runs w1 = [])) as [Hnil|Hne].
  { by rewrite (select_best_no_runs w1 Hnil) in Hsel. }
  destruct (select_best_Ok w1 Hne) as (rid' & r' & Hsel' & Hin & Hmin).
  rewrite Hsel in Hsel'. injection Hsel' as <- <-.
  apply elem_of_experiment_runs in Hin as [Hr Hre].
  apply export_Ok in Hexp as (model & r2 & Hstore & Hruns & Hr2 & Hmodel).
  cbn in Hr2, Hstore. rewrite Hr in Hr2. injection Hr2 as <-.
  eexists rid, r, _. rewrite Hstore, Hb, Hruns.
  split_and!; try done; try congruence.
  - intros rid' r' m' Hr' Hre' Hm'. apply metric_leb_Some.
    rewrite <- Hm'. apply (Hmin (rid', r')).
    apply elem_of_experiment_runs. split; [done|congruence].
  - intros ps Hnd Hps Hold. cbn.
    eapply single_run_params; [exact Hnd|exact Hps|exact Hold|exact Htrain
                              |exact Hr|congruence].
Qed.
End claims_export.

Section claims_export_witness.
Import Utils Train Demo.

Lemma export_entry_witness :
  ∃ w' entry,
    @main_with (demo (inr "chart")) params_candidates (boot demo_disk)
    = Ok () w'
    ∧ bento_store w' = [entry]
    ∧ bento_name entry = "house_rent"
    ∧ bento_metadata entry
      = [("learning_rate", "0.01"); ("max_depth", "3"); ("max_features", "1.0")].
Proof.
  destruct (@main_with (demo (inr "chart")) params_candidates (boot demo_disk))
    as [[] w'|e w'] eqn:Hmain; [|vm_compute in Hmain; discriminate].
  destruct (@export_entry (demo (inr "chart")) params_candidates demo_disk w'
              Hmain)
    as (rid & r & entry & Hstore & Hname & _ & _ & _ & _ & _ & _ & Hsingle).
  exists w', entry. split; [reflexivity|]. split; [exact Hstore|].
  split; [exact Hname|].
  apply (Hsingle [("learning_rate", PyFloat 0.01); ("max_depth", PyInt 3);
                  ("max_features", PyFloat 1.0)]).
  - apply (bool_decide_unpack _). vm_compute. exact I.
  - reflexivity.
  - intros j rj Hj. cbn in Hj. by rewrite lookup_empty in Hj.
Defined.

(** C6, as stated, fails: the search of lines 109 to 111 looks at every
    run of the experiment, those of earlier executions included.  On a
    tracking store that holds an earlier run of the experiment with a
    smaller error, the script, with its grid of a single parameter set,
    completes and exports the metadata of the earlier run. *)
Lemma export_entry_counterexample :
  (∃ w' entry,
     @main (demo (inr "chart")) (boot earlier_disk) = Ok () w'
     ∧ get_param_set params_candidates
       = [[("learning_rate", PyFloat 0.01); ("max_depth", PyInt 3);
           ("max_features", PyFloat 1.0)]]
     ∧ bento_store w' = [entry]
     ∧ bento_metadata entry = [("max_depth", "9")])
  ∧ ¬ single_set_is_exported.
Proof.
  split.
  - eexists _, _. split; [vm_compute; reflexivity|].
    split; [reflexivity|]. split; reflexivity.
  - intros Hclaim.
    set (w' := world_of (@main_with (demo (inr "chart")) params_candidates
                           (boot earlier_disk))).
    assert (@main_with (demo (inr "chart")) params_candidates
              (boot earlier_disk) = Ok () w') as Hmain
      by (vm_compute; reflexivity).
    destruct (last (bento_store w')) as [entry|] eqn:Hlast;
      [|vm_compute in Hlast; discriminate].
    pose proof (Hclaim (demo (inr "chart")) params_candidates
                  [("learning_rate", PyFloat 0.01); ("max_depth", PyInt 3);
                   ("max_features", PyFloat 1.0)]
                  earlier_disk w' entry) as Hmeta.
    vm_compute in Hlast. injection Hlast as <-.
    specialize (Hmeta ltac:(apply (bool_decide_unpack _); vm_compute; exact I)
                  eq_refl Hmain eq_refl).
    vm_compute in Hmeta. discriminate.
Qed.
End claims_export_witness.

(** ** The sequence of calls of a completed grid search *)

#[global] Instance trace_same_preorder : PreOrder trace_same.
Proof.
  split; [done|]. unfold trace_same. intros w1 w2 w3 H12 H23. congruence.
Qed.

Lemma trace_same_calls w w' : calls w' = calls w → trace_same w w'.
Proof. unfold trace_same, driver_trace. by intros ->. Qed.

Lemma only_tracker_trace_same w w' : only_tracker w w' → trace_same w w'.
Proof. intros (_ & Hc & _). by apply trace_same_calls. Qed.

Lemma only_export_trace_same w w' : only_export w w' → trace_same w w'.
Proof. intros (_ & Hc & _). by apply trace_same_calls. Qed.

Section ok_adds_rules.
Context {A B : Type}.

Lemma ok_adds_keeps (m : M A) : keeps trace_same m → ok_adds m [].
Proof.
  intros Hm w a w' Hw. specialize (Hm w). rewrite Hw in Hm.
  by rewrite app_nil_r.
Qed.

Lemma ok_adds_bind (m : M A) (f : A → M B) cs1 cs2 :
  ok_adds m cs1 → (∀ a, ok_adds (f a) cs2) → ok_adds (m ≫= f) (cs1 ++ cs2).
Proof.
  intros Hm Hf w b w' Hw.
  apply bind_Ok_inv in Hw as (a & w1 & Hw1 & Hw').
  by rewrite (Hf a _ _ _ Hw'), (Hm _ _ _ Hw1), app_assoc.
Qed.

Lemma ok_adds_eq (m : M A) cs cs' : cs = cs' → ok_adds m cs → ok_adds m cs'.
Proof. by intros ->. Qed.
End ok_adds_rules.

Section trace_facts.
Context `{!Collaborators}.
Import Utils Sklearn Metrics Mlflow Bentoml Logger Train.

Lemma emit_fit_trace_same obj X y : keeps trace_same (emit (CallFit obj X y)).
Proof.
  apply keeps_modify. intros w. unfold trace_same, driver_trace.
  cbn [calls set_calls]. rewrite filter_app, filter_cons_False by done.
  by rewrite filter_nil, app_nil_r.
Qed.

Lemma emit_adds c : is_fit c = false → ok_adds (emit c) [c].
Proof.
  intros Hc w [] w' [= <-]. unfold driver_trace.
  cbn [calls set_calls]. by rewrite filter_app, filter_cons_True by done.
Qed.

Lemma alloc_trace_same o : keeps trace_same (alloc o).
Proof. intros w. by apply trace_same_calls. Qed.

Lemma store_trace_same p o : keeps trace_same (store p o).
Proof. apply keeps_modify. intros w. by apply trace_same_calls. Qed.

Lemma unchanged_trace_same {A} (m : M A) :
  keeps unchanged m → keeps trace_same m.
Proof. apply keeps_unchanged, _. Qed.

Lemma tracker_trace_same {A} (m : M A) :
  keeps only_tracker m → keeps trace_same m.
Proof. apply keeps_mono, only_tracker_trace_same. Qed.

Lemma fit_trace_same obj X y : keeps trace_same (fit obj X y).
Proof.
  unfold fit. keeps_step; [apply emit_fit_trace_same|].
  keeps_step; [apply unchanged_trace_same, deref_unchanged|].
  repeat keeps_step; apply store_trace_same.
Qed.

Lemma fit_transform_adds obj X y :
  ok_adds (fit_transform obj X y) [CallFitTransform obj X y].
Proof.
  unfold fit_transform.
  eapply ok_adds_eq; [|apply ok_adds_bind; [by apply emit_adds|intros _]];
    [apply app_nil_r|].
  apply ok_adds_keeps.
  keeps_step; [apply unchanged_trace_same, deref_unchanged|].
  repeat keeps_step; apply store_trace_same.
Qed.

Lemma rmse_cv_score_adds model X y :
  ok_adds (rmse_cv_score model X y) [CallRmseCv model X y].
Proof.
  unfold rmse_cv_score.
  eapply ok_adds_eq; [|apply ok_adds_bind; [by apply emit_adds|intros _]];
    [apply app_nil_r|].
  apply ok_adds_keeps. keeps_step. unfold fold_rmse.
  keeps_step.
  { unfold clone. keeps_step; [apply unchanged_trace_same, deref_unchanged|].
    repeat keeps_step; apply alloc_trace_same. }
  keeps_step; [apply fit_trace_same|].
  keeps_step; [|keeps_step].
  apply unchanged_trace_same, fitted_regressor_unchanged.
Qed.

Lemma log_feature_importance_adds train model :
  ok_adds (log_feature_importance train model)
    [CallFeatureImportance train model].
Proof.
  unfold log_feature_importance.
  eapply ok_adds_eq; [|apply ok_adds_bind; [by apply emit_adds|intros _]];
    [apply app_nil_r|].
  apply ok_adds_keeps.
  keeps_step; [apply unchanged_trace_same, fitted_regressor_unchanged|].
  repeat keeps_step. apply tracker_trace_same, update_run_only_tracker.
Qed.

Lemma fit_pipeline_adds _X y ps :
  ok_adds (fit_pipeline _X y ps) [CallFitTransform preprocess_pipeline _X y].
Proof.
  intros w [regr pipeline] w' Hfit. rewrite fit_pipeline_eq in Hfit.
  destruct (filter _ _); [|done].
  apply bind_Ok_inv in Hfit as ([] & w2 & Hfit & [= <- <- <-]).
  apply bind_Ok_inv in Hfit as (Xt & w1 & Hft & Hfit).
  pose proof (fit_trace_same (length (heap w)) Xt y w1) as Hsame.
  rewrite Hfit in Hsame. unfold trace_same in Hsame. cbn in Hsame.
  rewrite Hsame. by rewrite (fit_transform_adds _ _ _ _ _ _ Hft).
Qed.

Lemma evaluate_and_log_adds X y ps regr pipeline :
  ok_adds (evaluate_and_log X y ps regr pipeline)
    [CallRmseCv regr X y; CallFeatureImportance X regr].
Proof.
  unfold evaluate_and_log.
  pose proof (@tracker_trace_same) as Htr.
  pose proof (@unchanged_trace_same) as Hun.
  eapply ok_adds_eq;
    [|apply ok_adds_bind; [apply rmse_cv_score_adds|intros score_cv];
      apply ok_adds_bind;
        [apply ok_adds_keeps, Hun, class_name_unchanged|intros name];
      apply ok_adds_bind;
        [apply ok_adds_keeps, Htr, set_tag_only_tracker|intros _];
      apply ok_adds_bind;
        [apply ok_adds_keeps; keeps_step; keeps_step;
           [apply Hun, get_param_unchanged|keeps_step]|intros logged];
      apply ok_adds_bind;
        [apply ok_adds_keeps, Htr, log_params_only_tracker|intros _];
      apply ok_adds_bind;
        [apply ok_adds_keeps, Htr, log_metrics_only_tracker|intros _];
      apply ok_adds_bind;
        [apply ok_adds_keeps, Hun, fitted_regressor_unchanged|intros f];
      apply ok_adds_bind;
        [apply ok_adds_keeps; keeps_step;
           apply Htr, log_metric_only_tracker|intros _];
      apply ok_adds_bind;
        [apply ok_adds_keeps, Htr, log_model_only_tracker|intros _];
      apply ok_adds_bind;
        [apply ok_adds_keeps, Htr, log_artifact_dir_only_tracker|intros _];
      apply log_feature_importance_adds].
  reflexivity.
Qed.

Lemma run_body_adds _X X y ps w w' :
  run_body _X X y ps w = Ok () w' →
  ∃ regr, driver_trace w' = driver_trace w ++ run_calls _X X y regr.
Proof.
  intros Hrun. unfold run_body in Hrun.
  apply bind_Ok_inv in Hrun as ([regr pipeline] & w1 & Hfit & Hrun).
  exists regr. rewrite (evaluate_and_log_adds _ _ _ _ _ _ _ _ Hrun).
  rewrite (fit_pipeline_adds _ _ _ _ _ _ Hfit). by rewrite <- app_assoc.
Qed.

Lemma with_start_run_adds name _X X y ps w w' :
  with_start_run name (run_body _X X y ps) w = Ok () w' →
  ∃ regr, driver_trace w' = driver_trace w ++ run_calls _X X y regr.
Proof.
  unfold with_start_run. intros Hrun.
  pose proof (start_run_only_tracker name w) as Hs.
  destruct (start_run name w) as [rid w1|e w1]; [|done].
  apply only_tracker_trace_same in Hs. cbn in Hs.
  destruct (run_body _X X y ps w1) as [[] w2|e w2] eqn:Hbody; [|done].
  pose proof (end_run_only_tracker FINISHED w2) as He.
  rewrite Hrun in He. apply only_tracker_trace_same in He. cbn in He.
  apply run_body_adds in Hbody as [regr Hbody]. exists regr.
  unfold trace_same in *. congruence.
Qed.

(** A loop that returns has made, per parameter set and in order, one fit
    of the shared preprocessing pipeline on the raw features, one
    cross-validation and one chart on the transformed features. *)
Lemma run_loop_adds _X X y i param_set w w' :
  for_enumerate i param_set
    (λ i ps, with_start_run ("Run " +:+ pretty i) (run_body _X X y ps)) w
  = Ok () w' →
  ∃ regrs, length regrs = length param_set
           ∧ driver_trace w'
             = driver_trace w ++ (regr ← regrs; run_calls _X X y regr).
Proof.
  revert i w. induction param_set as [|ps rest IH]; intros i w Hloop.
  - injection Hloop as <-. exists []. by rewrite app_nil_r.
  - cbn [for_enumerate] in Hloop.
    apply bind_Ok_inv in Hloop as ([] & w1 & Hrun & Hrest).
    apply with_start_run_adds in Hrun as [regr Hrun].
    apply IH in Hrest as (regrs & Hlen & Hrest).
    exists (regr :: regrs). split; [cbn; by rewrite Hlen|].
    rewrite Hrest, Hrun, bind_cons. by rewrite <- app_assoc.
Qed.
End trace_facts.

(** ** What the fits leave in the objects *)

#[global] Instance objects_kept_preorder : PreOrder objects_kept.
Proof. split; [by intros w i o|]. intros w1 w2 w3 H12 H23 i o Hi. auto. Qed.

Lemma heap_same_objects_kept w w' : heap w' = heap w → objects_kept w w'.
Proof. intros Hh i o. by rewrite Hh. Qed.

Lemma only_tracker_objects_kept w w' : only_tracker w w' → objects_kept w w'.
Proof. intros (Hh & _). by apply heap_same_objects_kept. Qed.

Section fitted_objects.
Context `{!Collaborators}.
Import Utils Sklearn Metrics Mlflow Bentoml Logger Train.

Lemma fit_transform_Ok obj X y w Xt w' :
  fit_transform obj X y w = Ok Xt w' →
  ∃ s0 st,
    heap w !! obj = Some (Preprocessor s0)
    ∧ prep_fit X y = inr st
    ∧ prep_transform st X = inr Xt
    ∧ heap w' = <[obj := Preprocessor (Some st)]> (heap w)
    ∧ only_python w w'.
Proof.
  intros Hft. pose proof (fit_transform_only_python obj X y w) as Hpy.
  rewrite Hft in Hpy. cbn in Hpy. revert Hft.
  unfold fit_transform, emit, deref, store. unfold_M. cbn.
  destruct (heap w !! obj) as [[s0| |]|]; cbn; try done.
  destruct (prep_fit X y) as [|st] eqn:Hst; cbn; [done|].
  destruct (prep_transform st X) as [|Xt'] eqn:HXt; cbn; [done|].
  intros [= <- <-]. by exists s0, st.
Qed.

Lemma fit_Ok obj X y ps w w' :
  fit obj X y w = Ok () w' →
  heap w !! obj = Some (GradientBoostingRegressor ps None) →
  ∃ f, gbr_fit ps X y = inr f
       ∧ heap w' = <[obj := GradientBoostingRegressor ps (Some f)]> (heap w)
       ∧ only_python w w'.
Proof.
  intros Hfit Hobj. pose proof (fit_only_python obj X y w) as Hpy.
  rewrite Hfit in Hpy. cbn in Hpy. revert Hfit.
  unfold fit, emit, deref, store. unfold_M. cbn. rewrite Hobj. cbn.
  destruct (gbr_fit ps X y) as [|f] eqn:Hf; cbn; [done|].
  intros [= <-]. by exists f.
Qed.

(** The end-to-end fit of a run that returns: the shared preprocessing
    pipeline holds the statistics of the raw features, the new regressor is
    fitted on the transformed features, and the new pipeline chains the
    two. *)
Lemma fit_pipeline_fitted _X y ps w regr pipeline w' :
  fit_pipeline _X y ps w = Ok (regr, pipeline) w' →
  ∃ st Xt f,
    prep_fit _X y = inr st
    ∧ prep_transform st _X = inr Xt
    ∧ gbr_fit ps Xt y = inr f
    ∧ heap w' !! preprocess_pipeline = Some (Preprocessor (Some st))
    ∧ heap w' !! regr = Some (GradientBoostingRegressor ps (Some f))
    ∧ heap w' !! pipeline
      = Some (Pipeline [("preprocessor", preprocess_pipeline); ("regr", regr)])
    ∧ only_python w w'.
Proof.
  intros Hfit. pose proof (fit_pipeline_only_python _X y ps w) as Hpy.
  rewrite Hfit in Hpy. cbn in Hpy.
  rewrite fit_pipeline_eq in Hfit. destruct (filter _ _); [|done].
  apply bind_Ok_inv in Hfit as ([] & w3 & Hfit & [= <- <- <-]).
  apply bind_Ok_inv in Hfit as (Xt & w2 & Hft & Hfit).
  apply fit_transform_Ok in Hft as (s0 & st & Hprep & Hst & HXt & Hh2 & _).
  set (n := length (heap w)) in *.
  assert (heap (constructed ps w)
          = heap w ++ [GradientBoostingRegressor ps None;
                       Pipeline [("preprocessor", preprocess_pipeline);
                                 ("regr", n)]]) as Hc.
  { cbn. by rewrite <- app_assoc. }
  rewrite Hc in Hprep, Hh2.
  assert (0 < n) as Hn.
  { subst n. destruct (heap w) as [|o h]; [done|]. cbn. lia. }
  assert (heap w2 !! n = Some (GradientBoostingRegressor ps None)) as Hregr.
  { rewrite Hh2. unfold preprocess_pipeline.
    rewrite list_lookup_insert_ne by lia.
    by rewrite (list_lookup_middle _ _ _ n). }
  apply (fit_Ok _ _ _ ps) in Hfit as (f & Hf & Hh3 & _); [|done].
  exists st, Xt, f. do 3 (split; [done|]).
  split; [|split; [|split; [|done]]].
  - rewrite Hh3, Hh2. unfold preprocess_pipeline.
    rewrite list_lookup_insert_ne by lia.
    apply list_lookup_insert_eq. rewrite length_app. lia.
  - rewrite Hh3. apply list_lookup_insert_eq.
    rewrite Hh2, length_insert, length_app. cbn. lia.
  - rewrite Hh3, Hh2. unfold preprocess_pipeline.
    rewrite !list_lookup_insert_ne by lia.
    rewrite lookup_app_r by lia.
    by replace (S n - length (heap w)) with 1 by lia.
Qed.

Lemma rmse_cv_score_Ok regr X y w score_cv w2 :
  rmse_cv_score regr X y w = Ok score_cv w2 →
  only_python w w2
  ∧ ∀ i, i < length (heap w) → heap w2 !! i = heap w !! i.
Proof.
  intros Hcv. pose proof (rmse_cv_score_only_python regr X y w) as Hpy.
  rewrite Hcv in Hpy. split; [done|].
  unfold rmse_cv_score in Hcv.
  apply bind_Ok_inv in Hcv as ([] & w1 & Hemit & Hcv).
  injection Hemit as <-.
  pose proof (cross_validation_clones_only (length (heap w)) regr (kfold X y)
                (set_calls (λ cs, cs ++ [CallRmseCv regr X y]) w)) as Hc.
  rewrite Hcv in Hc. cbn in Hc. by destruct (Hc ltac:(done)) as (_ & Hh & _).
Qed.

Lemma rmse_cv_score_objects_kept regr X y :
  keeps objects_kept (rmse_cv_score regr X y).
Proof.
  intros w i o Hi. unfold rmse_cv_score. unfold mbind, M_bind. cbn.
  pose proof (cross_validation_clones_only (length (heap w)) regr (kfold X y)
                (set_calls (λ cs, cs ++ [CallRmseCv regr X y]) w)) as Hc.
  destruct (Hc ltac:(done)) as (_ & Hh & _). cbn in Hh.
  rewrite Hh; [done|]. by eapply lookup_lt_Some.
Qed.

Lemma log_feature_importance_objects_kept train model :
  keeps objects_kept (log_feature_importance train model).
Proof.
  unfold log_feature_importance.
  keeps_step; [apply keeps_modify; by intros w i o|].
  keeps_step; [by_footprint idtac|]. repeat keeps_step.
  by_footprint ltac:(apply only_tracker_objects_kept).
Qed.

(** The evaluation and the logging of a run leave every object as it is:
    the cross-validation works on clones, the logging reads. *)
Lemma evaluate_and_log_objects_kept X y ps regr pipeline :
  keeps objects_kept (evaluate_and_log X y ps regr pipeline).
Proof.
  unfold evaluate_and_log. keeps_step; [apply rmse_cv_score_objects_kept|].
  pose proof only_tracker_objects_kept as Htr.
  keeps_step; [by_footprint idtac|].
  keeps_step; [by_footprint ltac:(apply Htr)|].
  keeps_step; [keeps_step; keeps_step; [by_footprint idtac|keeps_step]|].
  keeps_step; [by_footprint ltac:(apply Htr)|].
  keeps_step; [by_footprint ltac:(apply Htr)|].
  keeps_step; [by_footprint idtac|].
  keeps_step; [keeps_step; by_footprint ltac:(apply Htr)|].
  keeps_step; [by_footprint ltac:(apply Htr)|].
  keeps_step; [by_footprint ltac:(apply Htr)|].
  apply log_feature_importance_objects_kept.
Qed.

(** A run that returns leaves the shared preprocessing pipeline with the
    statistics of the raw features, whatever it held before. *)
Lemma with_start_run_refits name _X X y ps st w w' :
  with_start_run name (run_body _X X y ps) w = Ok () w' →
  prep_fit _X y = inr st →
  heap w' !! preprocess_pipeline = Some (Preprocessor (Some st)).
Proof.
  unfold with_start_run. intros Hrun Hst.
  destruct (start_run name w) as [rid wa|e wa]; [|done].
  destruct (run_body _X X y ps wa) as [[] wb|e wb] eqn:Hbody; [|done].
  injection Hrun as <-. unfold run_body in Hbody.
  apply bind_Ok_inv in Hbody as ([regr pipeline] & w2 & Hfit & Hbody).
  apply fit_pipeline_fitted in Hfit
    as (st' & Xt & f & Hst' & _ & _ & Hprep & _).
  rewrite Hst in Hst'. injection Hst' as <-.
  pose proof (evaluate_and_log_objects_kept X y ps regr pipeline w2 _ _ Hprep)
    as Hkept.
  rewrite Hbody in Hkept. cbn in Hkept.
  unfold end_run_world. by destruct (active_run wb).
Qed.

Lemma run_loop_refits _X X y st param_set i w w' :
  for_enumerate i param_set
    (λ i ps, with_start_run ("Run " +:+ pretty i) (run_body _X X y ps)) w
  = Ok () w' →
  prep_fit _X y = inr st →
  heap w !! preprocess_pipeline = Some (Preprocessor (Some st)) →
  heap w' !! preprocess_pipeline = Some (Preprocessor (Some st)).
Proof.
  revert i w. induction param_set as [|ps rest IH]; intros i w Hloop Hst Hw.
  - by injection Hloop as <-.
  - cbn [for_enumerate] in Hloop.
    apply bind_Ok_inv in Hloop as ([] & w1 & Hrun & Hrest).
    eapply IH; [exact Hrest|done|]. by eapply with_start_run_refits.
Qed.
End fitted_objects.

Section claims_sharing.
Context `{!Collaborators}.
Import Utils Sklearn Metrics Mlflow Bentoml Logger Train.

(** C10.  The preprocessing pipeline is one object.  The fit before the
    loop leaves the object [preprocess_pipeline] with the statistics of the
    raw features, and the feature matrix [X] is what that fit returned,
    from those statistics.  The pipeline of every run holds a reference to
    that same object, and the end-to-end fit of a run re-fits it: whatever
    the object held before, it holds afterwards the statistics of the raw
    features, and the regressor of the run is fitted on [X].  Every call
    of the metric utility and of the chart logger, in every run and
    whatever the outcome of the script, takes the [X] computed before the
    loop.  When the loop returns, the shared object holds the statistics
    of the raw features, and the calls of the script are, in order: the
    fit before the loop, then per parameter set one fit of the shared
    pipeline on the raw features, one cross-validation on [X] and one
    chart on [X]. *)
Theorem shared_pipeline_one_X (grid : list (string * list pyval)) (d : Disk)
    (_X X : DataFrame) (y : Series) (w1 : World) :
  prepare (boot d) = Ok (_X, X, y) w1 →
  ∃ st,
    prep_fit _X y = inr st
    ∧ prep_transform st _X = inr X
    ∧ heap w1 !! preprocess_pipeline = Some (Preprocessor (Some st))
    ∧ calls w1 = [CallFitTransform preprocess_pipeline _X y]
    ∧ (∀ w ps regr pipeline w',
         fit_pipeline _X y ps w = Ok (regr, pipeline) w' →
         heap w' !! pipeline
         = Some (Pipeline [("preprocessor", preprocess_pipeline);
                           ("regr", regr)])
         ∧ heap w' !! preprocess_pipeline = Some (Preprocessor (Some st))
         ∧ ∃ f, gbr_fit ps X y = inr f
                ∧ heap w' !! regr
                  = Some (GradientBoostingRegressor ps (Some f)))
    ∧ Forall (driver_call _X X y)
        (calls (world_of (main_with grid (boot d))))
    ∧ ∀ w2, train_phase grid (boot d) = Ok () w2 →
        heap w2 !! preprocess_pipeline = Some (Preprocessor (Some st))
        ∧ ∃ regrs,
            length regrs = length (get_param_set grid)
            ∧ driver_trace w2
              = CallFitTransform preprocess_pipeline _X y
                :: (regr ← regrs; run_calls _X X y regr).
Proof.
  intros Hprep.
  destruct (prepare_Ok _ _ _ _ _ Hprep)
    as (csv & rent & vs & st & _ & _ & _ & _ & _ & Hst & Htr & Hheap & Hcalls
        & _).
  cbn in Hcalls, Hheap.
  assert (heap w1 !! preprocess_pipeline = Some (Preprocessor (Some st)))
    as Hshared by (by rewrite Hheap).
  exists st. do 4 (split; [done|]). split; [|split].
  - intros w ps regr pipeline w' Hfit.
    apply fit_pipeline_fitted in Hfit
      as (st' & Xt & f & Hst' & HXt & Hf & Hp & Hr & Hpipe & _).
    rewrite Hst in Hst'. injection Hst' as <-.
    rewrite Htr in HXt. injection HXt as <-.
    split; [done|]. split; [done|]. by exists f.
  - apply (main_after_prepare grid d _ _ _ _ Hprep).
  - intros w2 Htrain. unfold train_phase in Htrain.
    rewrite (bind_Ok _ _ _ _ _ Hprep) in Htrain.
    rewrite grid_search_eq in Htrain. split.
    + by eapply run_loop_refits.
    + apply run_loop_adds in Htrain as (regrs & Hlen & Htrace).
      exists regrs. split; [done|]. rewrite Htrace.
      unfold driver_trace at 1. cbn [calls experiment_set
        set_tracking_uri_field set_active_experiment]. by rewrite Hcalls.
Qed.
End claims_sharing.

Section claims_sharing_witness.
Import Utils Train Demo.

Lemma shared_pipeline_one_X_witness :
  ∃ _X X y w1 w2,
    @prepare (demo (inr "chart")) (boot demo_disk) = Ok (_X, X, y) w1
    ∧ @train_phase (demo (inr "chart")) params_candidates (boot demo_disk)
      = Ok () w2
    ∧ heap w1 !! preprocess_pipeline = Some (Preprocessor (Some [1%Q]))
    ∧ heap w2 !! preprocess_pipeline = Some (Preprocessor (Some [1%Q]))
    ∧ ∃ regr, driver_trace w2
              = [CallFitTransform preprocess_pipeline _X y;
                 CallFitTransform preprocess_pipeline _X y;
                 CallRmseCv regr X y;
                 CallFeatureImportance X regr].
Proof.
  destruct (@prepare (demo (inr "chart")) (boot demo_disk))
    as [[[_X X] y] w1|e w1] eqn:Hprep; [|vm_compute in Hprep; discriminate].
  destruct (@train_phase (demo (inr "chart")) params_candidates
              (boot demo_disk)) as [[] w2|e w2] eqn:Htrain;
    [|vm_compute in Htrain; discriminate].
  exists _X, X, y, w1, w2. split; [reflexivity|]. split; [reflexivity|].
  destruct (@shared_pipeline_one_X (demo (inr "chart")) params_candidates
              demo_disk _X X y w1 Hprep)
    as (st & Hst & _ & Hw1 & _ & _ & _ & Hloop).
  injection Hst as <-.
  destruct (Hloop w2 Htrain) as (Hw2 & regrs & Hlen & Htrace).
  split; [exact Hw1|]. split; [exact Hw2|].
  destruct regrs as [|regr [|? ?]]; [discriminate Hlen| |discriminate Hlen].
  exists regr. exact Htrace.
Defined.
End claims_sharing_witness.

(** ** A failing chart *)

Section chart_failure.
Context (C : Collaborators) (render : DataFrame → GbrFit → exn + string)
  (e : exn).
Import Utils Sklearn Metrics Mlflow Bentoml Logger Train.

Let Cok : Collaborators := with_chart C render.
Let Cbad : Collaborators := with_chart C (λ _ _, inl e).

(** Where the chart logger returns with the chart rendered, it raises with
    the rendering failing. *)
Lemma log_feature_importance_failure X regr w w' :
  @log_feature_importance Cok X regr w = Ok () w' →
  ∃ w'', @log_feature_importance Cbad X regr w = Raised e w''.
Proof.
  unfold log_feature_importance. intros Hok.
  apply bind_Ok_inv in Hok as ([] & w1 & Hemit & Hok).
  apply bind_Ok_inv in Hok as (f & w2 & Hf & Hok).
  rewrite (bind_Ok _ _ _ _ _ Hemit), (bind_Ok _ _ _ _ _ Hf).
  by eexists.
Qed.

(** Where the evaluation and logging of a run returns with the chart
    rendered, it raises with the rendering failing. *)
Lemma evaluate_and_log_failure X y ps regr pipeline w w' :
  @evaluate_and_log Cok X y ps regr pipeline w = Ok () w' →
  ∃ w'', @evaluate_and_log Cbad X y ps regr pipeline w = Raised e w''.
Proof.
  unfold evaluate_and_log. intros Hok.
  change (@rmse_cv_score Cok) with (@rmse_cv_score C) in Hok.
  change (@rmse_cv_score Cbad) with (@rmse_cv_score C).
  change (@log_params Cok) with (@log_params C) in Hok.
  change (@log_params Cbad) with (@log_params C).
  change (@log_artifact_dir Cok) with (@log_artifact_dir C) in Hok.
  change (@log_artifact_dir Cbad) with (@log_artifact_dir C).
  do 10 (let Hs := fresh "Hs" in
         apply bind_Ok_inv in Hok as (? & ? & Hs & Hok);
         rewrite (bind_Ok _ _ _ _ _ Hs); clear Hs).
  by eapply log_feature_importance_failure.
Qed.

Lemma run_body_failure _X X y ps w w' :
  @run_body Cok _X X y ps w = Ok () w' →
  ∃ w'', @run_body Cbad _X X y ps w = Raised e w''.
Proof.
  unfold run_body. intros Hok.
  change (@fit_pipeline Cok) with (@fit_pipeline C) in Hok.
  change (@fit_pipeline Cbad) with (@fit_pipeline C).
  apply bind_Ok_inv in Hok as ([regr pipeline] & w1 & Hfit & Hok).
  rewrite (bind_Ok _ _ _ _ _ Hfit).
  by eapply evaluate_and_log_failure.
Qed.

(** An execution that completes when the chart is rendered ends, when the
    rendering raises, in the first run, with that exception. *)
Lemma main_with_failure grid d w :
  get_param_set grid ≠ [] →
  @main_with Cok grid (boot d) = Ok () w →
  ∃ _X X y w1 ps rest,
    @prepare Cbad (boot d) = Ok (_X, X, y) w1
    ∧ get_param_set grid = ps :: rest
    ∧ @main_with Cbad grid (boot d)
      = @with_start_run ("Run " +:+ pretty 0) (@run_body Cbad _X X y ps)
          (experiment_set w1)
    ∧ ∃ w', @main_with Cbad grid (boot d) = Raised e w'.
Proof.
  intros Hne Hok. unfold main_with in Hok.
  apply bind_Ok_inv in Hok as ([] & w2 & Htrain & _).
  unfold train_phase in Htrain.
  apply bind_Ok_inv in Htrain as ([[_X X] y] & w1 & Hprep & Hgrid).
  change (@prepare Cok) with (@prepare C) in Hprep.
  pose proof (@prepare_only_python_files C (boot d)) as (_ & _ & Ha & _).
  rewrite Hprep in Ha. cbn in Ha.
  rewrite grid_search_eq in Hgrid.
  destruct (get_param_set grid) as [|ps rest] eqn:Hps; [done|].
  cbn [for_enumerate] in Hgrid.
  apply bind_Ok_inv in Hgrid as ([] & wa & Hrun & _).
  rewrite with_start_run_eq in Hrun by done.
  destruct (@run_body Cok _X X y ps _) as [[] wb|? ?] eqn:Hbody; [|done].
  apply run_body_failure in Hbody as [wd Hbad].
  exists _X, X, y, w1, ps, rest.
  assert (@main_with Cbad grid (boot d)
          = @with_start_run ("Run " +:+ pretty 0) (@run_body Cbad _X X y ps)
              (experiment_set w1)) as Hmain.
  { unfold main_with, train_phase.
    change (@prepare Cbad) with (@prepare C).
    rewrite with_start_run_eq, Hbad by done.
    erewrite bind_Raised; [done|].
    rewrite (bind_Ok _ _ _ _ _ Hprep), grid_search_eq, Hps.
    cbn [for_enumerate]. erewrite bind_Raised; [done|].
    by rewrite with_start_run_eq, Hbad by done. }
  split_and!; [done|done|done|].
  rewrite Hmain, with_start_run_eq, Hbad by done. by eexists.
Qed.
End chart_failure.

Section claims_chart.
Import Utils Sklearn Metrics Mlflow Bentoml Logger Train.

(** C8, as amended.  A failure of the chart logging is not absorbed: the
    script calls [log_feature_importance] last in the body of a run, under
    no handler.  In an execution that completes when the chart is rendered,
    a rendering that raises ends the script in its first run with that
    exception: the run record of [Run 0] is the only one added and its
    status is FAILED, no run is active, no later run is started, and the
    selection and the export do not happen, the model store being as it
    was. *)
Theorem chart_failure_aborts (C : Collaborators)
    (render : DataFrame → GbrFit → exn + string) (e : exn)
    (grid : list (string * list pyval)) (d : Disk) (w : World) :
  get_param_set grid ≠ [] →
  @main_with (with_chart C render) grid (boot d) = Ok () w →
  ∃ w' r,
    @main_with (with_chart C (λ _ _, inl e)) grid (boot d) = Raised e w'
    ∧ bento_store w' = disk_bento d
    ∧ active_run w' = None
    ∧ runs w' = <[fresh (dom (disk_runs d)) := r]> (disk_runs d)
    ∧ run_name r = "Run 0"
    ∧ status r = FAILED
    ∧ experiment r = experiment_name.
Proof.
  intros Hne Hok.
  destruct (main_with_failure C render e grid d w Hne Hok)
    as (_X & X & y & w1 & ps & rest & Hprep & Hps & Hmain & w' & Hbad).
  set (Cbad := with_chart C (λ _ _, inl e)) in *.
  pose proof (@prepare_only_python_files Cbad (boot d))
    as (_ & _ & Ha & Hruns & Hb).
  rewrite Hprep in Ha, Hruns, Hb. cbn in Ha, Hruns, Hb.
  destruct (@with_start_run_runs ("Run " +:+ pretty 0)
              (@run_body Cbad _X X y ps) (experiment_set w1) Ha
              (λ rid, @run_body_frame Cbad rid _X X y ps))
    as (r & Hr & Hexp & Hname & Hst & Hact & _ & Hbento & _).
  rewrite <- Hmain, Hbad in Hr, Hst, Hact, Hbento.
  cbn in Hr, Hact, Hbento, Hexp. rewrite Hruns in Hr.
  exists w', r. split_and!; try done; congruence.
Qed.

Lemma chart_failure_aborts_witness :
  let C := Demo.demo (inr "chart") in
  let e := Exception "no chart" in
  ∃ w' r,
    @main_with (with_chart C (λ _ _, inl e)) params_candidates
      (boot Demo.demo_disk) = Raised e w'
    ∧ bento_store w' = []
    ∧ runs w' = <[fresh (dom (∅ : gmap nat Run)) := r]> ∅
    ∧ status r = FAILED.
Proof.
  intros C e.
  destruct (@main_with (with_chart C (λ _ _, inr "chart")) params_candidates
              (boot Demo.demo_disk)) as [[] w|e0 w] eqn:Hok;
    [|vm_compute in Hok; discriminate].
  destruct (chart_failure_aborts C (λ _ _, inr "chart") e params_candidates
              Demo.demo_disk w ltac:(discriminate) Hok)
    as (w' & r & Hbad & Hb & _ & Hruns & _ & Hst & _).
  exists w', r. split; [exact Hbad|]. split; [exact Hb|].
  split; [exact Hruns|exact Hst].
Defined.

(** C8, as stated, fails: with the stand-in collaborators the script
    completes and exports when the chart is rendered; when the rendering
    raises, it ends with that exception, [Run 0] is marked FAILED and the
    model store stays empty. *)
Lemma chart_failure_counterexample :
  (∃ w, @main (Demo.demo (inr "chart")) (boot Demo.demo_disk) = Ok () w
        ∧ length (bento_store w) = 1)
  ∧ (∃ w', @main (Demo.demo (inl (Exception "no chart")))
             (boot Demo.demo_disk) = Raised (Exception "no chart") w'
           ∧ bento_store w' = []
           ∧ status <$> runs w' !! 0 = Some FAILED)
  ∧ ¬ chart_logging_best_effort.
Proof.
  split_and!.
  - eexists. split; [vm_compute; reflexivity|]. reflexivity.
  - eexists. split; [vm_compute; reflexivity|]. split; reflexivity.
  - intros Hclaim.
    destruct (@main (with_chart (Demo.demo (inr "chart")) (λ _ _, inr "chart"))
                (boot Demo.demo_disk)) as [[] w|e0 w] eqn:Hok;
      [|vm_compute in Hok; discriminate].
    destruct (Hclaim _ _ (Exception "no chart") _ _ Hok) as [w' Hbad].
    vm_compute in Hbad. discriminate.
Qed.
End claims_chart.

(** * Further properties of the script *)

(** ** Input errors come before any effect *)

Section input_errors.
Context `{!Collaborators}.
Import Utils Sklearn Metrics Mlflow Bentoml Logger Train.

(** X1.  Without the training file the script ends at its first statement
    with [FileNotFoundError], in the state it started in: nothing is
    fitted, tracked, written or exported. *)
Theorem missing_training_file (grid : list (string * list pyval)) (d : Disk) :
  train_csv (disk_files d) = None →
  main_with grid (boot d)
  = Raised (FileNotFoundError "house_rent_train.csv") (boot d).
Proof.
  intros Hnone. unfold main_with, train_phase, prepare, read_train_csv.
  unfold_M. cbn. by rewrite Hnone.
Qed.

Lemma drop_missing labels df :
  (∃ l, l ∈ labels ∧ l ∉ (df_columns df).*1) →
  ∃ l, l ∈ labels ∧ (l ∉ (df_columns df).*1)
       ∧ drop labels df = inl (KeyError l).
Proof.
  intros (l0 & Hin & Hmiss). unfold drop.
  destruct (filter (λ l, l ∉ (df_columns df).*1) labels) as [|l t] eqn:Hf.
  - assert (l0 ∈ filter (λ l, l ∉ (df_columns df).*1) labels) as Hl0
      by by apply list_elem_of_filter.
    rewrite Hf in Hl0. by apply elem_of_nil in Hl0.
  - assert (l ∈ filter (λ l, l ∉ (df_columns df).*1) labels) as Hl
      by (rewrite Hf; left).
    apply list_elem_of_filter in Hl as [Hmiss' Hin']. by exists l.
Qed.

(** X2.  When the training file lacks one of the columns [rent],
    [area_locality] and [posted_on], the script ends at line 33 with a
    [KeyError] naming a missing one of them, in the state it started in. *)
Theorem missing_column (grid : list (string * list pyval)) (d : Disk)
    (csv : Csv) :
  train_csv (disk_files d) = Some csv →
  (∃ l, l ∈ dropped_columns ∧ l ∉ (csv_columns csv).*1) →
  ∃ l, l ∈ dropped_columns
       ∧ (l ∉ (csv_columns csv).*1)
       ∧ main_with grid (boot d) = Raised (KeyError l) (boot d).
Proof.
  intros Hcsv Hmiss.
  destruct (drop_missing dropped_columns (read_csv csv) Hmiss)
    as (l & Hin & Hl & Hdrop).
  exists l. split_and!; [done|done|].
  unfold main_with, train_phase, prepare, read_train_csv.
  unfold_M. cbn. rewrite Hcsv.
  change (drop ["rent"; "area_locality"; "posted_on"] (read_csv csv))
    with (drop dropped_columns (read_csv csv)).
  by rewrite Hdrop.
Qed.

Lemma drop_Ok labels df df' :
  drop labels df = inr df' →
  df' = mkDataFrame (df_index df)
          (filter (λ c, c.1 ∉ labels) (df_columns df))
  ∧ ∀ l, l ∈ labels → l ∈ (df_columns df).*1.
Proof.
  unfold drop.
  destruct (filter (λ l, l ∉ (df_columns df).*1) labels) as [|l t] eqn:Hf;
    [|done].
  intros [= <-]. split; [done|]. intros l Hl.
  destruct (decide (l ∈ (df_columns df).*1)) as [|Hmiss]; [done|].
  assert (l ∈ filter (λ l, l ∉ (df_columns df).*1) labels) as Hl'
    by by apply list_elem_of_filter.
  rewrite Hf in Hl'. by apply elem_of_nil in Hl'.
Qed.

End input_errors.

Section features_input.
Context `{!Collaborators}.
Import Utils Sklearn Metrics Mlflow Bentoml Logger Train.

Lemma csv_as_read_text csv name col s :
  csv_as_read csv →
  assoc name (csv_columns csv) = Some col →
  Str s ∈ col →
  s ∉ pandas_na_values.
Proof.
  intros [_ Hcols] Hcol Hs. apply assoc_elem_of in Hcol.
  pose proof (proj1 (Forall_forall _ _) Hcols _ Hcol) as Hread.
  cbn in Hread. unfold column_as_read in Hread.
  apply orb_true_iff in Hread as [Hnum|Htext].
  - pose proof (proj1 (forallb_forall _ _) Hnum _
                  (proj1 (list_elem_of_In _ _) Hs)) as Hn. done.
  - pose proof (proj1 (forallb_forall _ _) Htext _
                  (proj1 (list_elem_of_In _ _) Hs)) as Ht.
    cbn in Ht. by apply bool_decide_eq_true in Ht.
Qed.

(** X3.  For a training table as pandas reads it (the header names
    distinct, the parser having renamed repeated ones), the table the
    preprocessing pipeline is fitted on holds the columns of the training
    table other than [rent], [area_locality] and [posted_on], in file
    order, on all rows of the file, under distinct names: the target never
    reaches the features, and no other column is lost. *)
Theorem raw_features_without_target (d : Disk) (csv : Csv)
    (_X X : DataFrame) (y : Series) (w1 : World) :
  train_csv (disk_files d) = Some csv →
  csv_as_read csv →
  prepare (boot d) = Ok (_X, X, y) w1 →
  df_columns _X = filter (λ c, c.1 ∉ dropped_columns) (csv_columns csv)
  ∧ df_index _X = seq 0 (csv_nrows csv)
  ∧ NoDup (df_columns _X).*1
  ∧ Forall (λ c, column_as_read c.2 = true) (df_columns _X)
  ∧ (∀ l, l ∈ dropped_columns → l ∉ (df_columns _X).*1)
  ∧ (∀ c, c ∈ csv_columns csv → c.1 ∉ dropped_columns →
          c ∈ df_columns _X)
  ∧ calls w1 = [CallFitTransform preprocess_pipeline _X y].
Proof.
  intros Hcsv [Hnames Hcols] Hprep.
  destruct (prepare_Ok _ _ _ _ _ Hprep)
    as (csv' & rent & vs & st & Hcsv' & Hdrop & _ & _ & _ & _ & _ & _
        & Hcalls & _).
  cbn in Hcsv', Hcalls. rewrite Hcsv in Hcsv'. injection Hcsv' as <-.
  apply drop_Ok in Hdrop as [-> _]. cbn.
  split_and!; [done|done| | | | |done].
  - eapply sublist_NoDup; [exact Hnames|].
    apply fmap_sublist, sublist_filter.
  - apply Forall_forall. intros c [_ Hc]%list_elem_of_filter.
    by apply (proj1 (Forall_forall _ _) Hcols).
  - intros l Hl (c & -> & Hc)%list_elem_of_fmap.
    by apply list_elem_of_filter in Hc as [Hc _].
  - intros c Hc Hkeep. by apply list_elem_of_filter.
Qed.
End features_input.

Section input_errors_witnesses.
Import Train Demo.

Lemma missing_training_file_witness :
  let d := mkDisk ∅ [] (mkFiles None false None None) in
  @main_with (demo (inr "chart")) params_candidates (boot d)
  = Raised (FileNotFoundError "house_rent_train.csv") (boot d).
Proof.
  intros d.
  exact (@missing_training_file (demo (inr "chart")) params_candidates d
           eq_refl).
Defined.

Lemma missing_column_witness :
  let csv :=
    mkCsv 1 [("rent", [Num (Some 10%Q)]); ("size", [Num (Some 1%Q)])] in
  let d := mkDisk ∅ [] (mkFiles (Some csv) false None None) in
  ∃ l, @main_with (demo (inr "chart")) params_candidates (boot d)
       = Raised (KeyError l) (boot d).
Proof.
  intros csv d.
  destruct (@missing_column (demo (inr "chart")) params_candidates d csv
              eq_refl) as (l & _ & _ & Hmain).
  - exists "area_locality". split; [right; left|].
    intros Hin. cbn in Hin.
    repeat (apply elem_of_cons in Hin as [Hin|Hin]; [discriminate|]).
    by apply elem_of_nil in Hin.
  - by exists l.
Defined.

Lemma raw_features_without_target_witness :
  ∃ _X X y w1,
    @prepare (demo (inr "chart")) (boot demo_disk) = Ok (_X, X, y) w1
    ∧ df_columns _X = [("size", [Num (Some 1100%Q); Num (Some 800%Q)])].
Proof.
  destruct (@prepare (demo (inr "chart")) (boot demo_disk))
    as [[[_X X] y] w1|e w1] eqn:Hprep; [|vm_compute in Hprep; discriminate].
  exists _X, X, y, w1. split; [reflexivity|].
  refine (proj1 (@raw_features_without_target (demo (inr "chart")) demo_disk
                   demo_csv _X X y w1 eq_refl _ Hprep)).
  split; [|repeat constructor].
  apply (bool_decide_unpack _). vm_compute. exact I.
Defined.
End input_errors_witnesses.

(** ** What the script leaves alone *)

#[global] Instance data_kept_preorder : PreOrder data_kept.
Proof.
  split; [done|]. unfold data_kept. intros w1 w2 w3 H12 H23. congruence.
Qed.

#[global] Instance sources_kept_preorder : PreOrder sources_kept.
Proof.
  split; [done|]. unfold sources_kept. intros w1 w2 w3 H12 H23.
  destruct_and!. split; congruence.
Qed.

#[global] Instance tracking_same_preorder : PreOrder tracking_same.
Proof.
  split; [done|]. unfold tracking_same. intros w1 w2 w3 H12 H23.
  destruct_and!. split_and!; congruence.
Qed.

Lemma only_python_sources_kept w w' : only_python w w' → sources_kept w w'.
Proof. intros (_ & _ & _ & _ & _ & Hf). unfold sources_kept. by rewrite Hf. Qed.

Section left_alone.
Context `{!Collaborators}.
Import Utils Sklearn Metrics Mlflow Bentoml Logger Train.

Lemma prepare_sources_kept : keeps sources_kept prepare.
Proof.
  unfold prepare, read_train_csv, makedirs_storage, to_csv_features.
  keeps_step; [repeat keeps_step|].
  keeps_step; [keeps_step|]. keeps_step; [keeps_step|].
  keeps_step; [keeps_step|].
  keeps_step; [by_footprint ltac:(apply only_python_sources_kept)|].
  keeps_step.
  { keeps_step; [keeps_step|]. destruct (storage_dir _); [keeps_step|].
    by apply keeps_modify. }
  keeps_step; [|keeps_step].
  keeps_step; [keeps_step|]. destruct (storage_dir _); [|keeps_step].
  by apply keeps_modify.
Qed.

Lemma export_data_kept best : keeps data_kept (export best).
Proof.
  unfold export, copy_tree_model, save_model.
  keeps_step.
  { keeps_step; [by_footprint idtac|]. repeat keeps_step.
    by apply keeps_modify. }
  keeps_step; [by_footprint idtac|]. by apply keeps_modify.
Qed.

Lemma export_tracking_same best : keeps tracking_same (export best).
Proof.
  unfold export, copy_tree_model, save_model.
  keeps_step.
  { keeps_step; [by_footprint idtac|]. repeat keeps_step.
    by apply keeps_modify. }
  keeps_step; [by_footprint idtac|]. by apply keeps_modify.
Qed.

Lemma select_and_export_data_kept : keeps data_kept select_and_export.
Proof.
  unfold select_and_export. keeps_step; [|apply export_data_kept].
  apply keeps_unchanged; [apply _|apply select_best_unchanged].
Qed.

Lemma select_and_export_tracking_same : keeps tracking_same select_and_export.
Proof.
  unfold select_and_export. keeps_step; [|apply export_tracking_same].
  apply keeps_unchanged; [apply _|apply select_best_unchanged].
Qed.

(** An export that raises has saved nothing. *)
Lemma select_and_export_Raised w e w' :
  select_and_export w = Raised e w' → bento_store w' = bento_store w.
Proof.
  unfold select_and_export. intros Hse.
  apply bind_Raised_inv in Hse as [Hsel|([rid r] & w1 & Hsel & Hexp)].
  - pose proof (select_best_unchanged w) as Hu. rewrite Hsel in Hu.
    unfold unchanged in Hu. cbn in Hu. by subst w'.
  - pose proof (select_best_unchanged w) as Hu. rewrite Hsel in Hu.
    unfold unchanged in Hu. cbn in Hu. subst w1. revert Hexp.
    unfold export, copy_tree_model, load_model, get_run, save_model.
    unfold_M. cbn. intros Hexp.
    destruct (runs w !! rid) as [r0|] eqn:Hr; [|by injection Hexp as _ <-].
    cbn in Hexp.
    destruct (artifacts r0 !! "model") as [[model| |]|] eqn:Hm;
      try by injection Hexp as _ <-.
    cbn in Hexp. rewrite Hr in Hexp. cbn in Hexp. by rewrite Hm in Hexp.
Qed.

(** X4.  Whatever the outcome, the script leaves the training file as it
    found it: the file is read once and never written. *)
Theorem training_file_read_only (grid : list (string * list pyval))
    (d : Disk) :
  train_csv (files (world_of (main_with grid (boot d))))
  = train_csv (disk_files d).
Proof.
  unfold main_with, train_phase. unfold mbind, M_bind.
  pose proof (prepare_sources_kept (boot d)) as [Ht _].
  pose proof (prepare_only_python_files (boot d)) as (_ & _ & Ha & _).
  destruct (prepare (boot d)) as [[[_X X] y] w1|e w1]; [|done].
  cbn in Ht, Ha. rewrite grid_search_eq.
  pose proof (run_loop_frame _X X y 0 (get_param_set grid)
                (experiment_set w1) Ha) as (_ & _ & _ & Hf & _).
  destruct (for_enumerate _ _ _ _) as [[] w2|e w2]; cbn in Hf |- *.
  - pose proof (select_and_export_data_kept w2) as Hd.
    unfold data_kept in Hd. congruence.
  - congruence.
Qed.

(** X5.  When the script ends with an exception, whichever statement
    raised it, the model store is the one it started with: an entry is
    saved only by an execution that completes. *)
Theorem no_export_on_error (grid : list (string * list pyval)) (d : Disk)
    (e : exn) (w : World) :
  main_with grid (boot d) = Raised e w →
  bento_store w = disk_bento d.
Proof.
  unfold main_with. intros Hmain.
  apply bind_Raised_inv in Hmain as [Htrain|([] & w1 & Htrain & Hse)].
  - pose proof (train_phase_bento grid d) as Hb. by rewrite Htrain in Hb.
  - apply select_and_export_Raised in Hse.
    destruct (train_phase_Ok grid d w1 Htrain) as (_ & _ & Hb). congruence.
Qed.
End left_alone.

Section left_alone_witness.
Import Train Demo.

Lemma no_export_on_error_witness :
  ∃ e w,
    @main_with (demo (inl (Exception "chart"))) params_candidates
      (boot demo_disk) = Raised e w
    ∧ bento_store w = [].
Proof.
  destruct (@main_with (demo (inl (Exception "chart"))) params_candidates
              (boot demo_disk))
    as [[] w|e w] eqn:Hmain; [vm_compute in Hmain; discriminate|].
  exists e, w. split; [reflexivity|].
  exact (@no_export_on_error (demo (inl (Exception "chart")))
           params_candidates demo_disk e w Hmain).
Defined.
End left_alone_witness.

(** ** The life of the runs *)

Section run_lifecycle.
Context `{!Collaborators}.
Import Utils Sklearn Metrics Mlflow Bentoml Logger Train.

Lemma current_experiment_eq w w' :
  active_experiment w' = active_experiment w →
  current_experiment w' = current_experiment w.
Proof. unfold current_experiment. by intros ->. Qed.

(** The loop, whatever its outcome: one new record per run started, under
    a fresh identifier, in loop order; all of them have ended, and only the
    last one of a loop that raises has FAILED. *)
Lemma run_loop_outcome _X X y param_set i w :
  active_run w = None →
  let res := run_loop _X X y i param_set w in
  ∃ ids,
    NoDup ids
    ∧ (∀ id, id ∈ ids → runs w !! id = None)
    ∧ (∀ j, j ∉ ids → runs (world_of res) !! j = runs w !! j)
    ∧ match res with
      | Ok _ _ => length ids = length param_set
      | Raised _ _ => 0 < length ids ≤ length param_set
      end
    ∧ ∀ k id, ids !! k = Some id →
        ∃ r, runs (world_of res) !! id = Some r
             ∧ experiment r = current_experiment w
             ∧ run_name r = "Run " +:+ pretty (i + k)
             ∧ status r = match res with
                          | Ok _ _ => FINISHED
                          | Raised _ _ =>
                              if decide (S k = length ids) then FAILED
                              else FINISHED
                          end.
Proof.
  revert i w. induction param_set as [|ps l IH]; intros i w Hact res.
  { exists []. subst res. cbn. split_and!; [constructor| |done|done|].
    - by intros id ?%elem_of_nil.
    - by intros k id ?. }
  subst res. unfold run_loop. cbn [for_enumerate]. unfold mbind, M_bind.
  destruct (with_start_run_runs ("Run " +:+ pretty i) (run_body _X X y ps) w
              Hact (λ id, run_body_frame id _X X y ps))
    as (r & Hruns & Hexp & Hname & Hst & Ha1 & He1 & _).
  set (id0 := fresh (dom (runs w))) in *.
  assert (runs w !! id0 = None) as Hid0 by apply fresh_run_None.
  destruct (with_start_run _ _ w) as [[] w1|e w1]; cbn in Hruns, Hst, Ha1, He1.
  - destruct (IH (S i) w1 Ha1) as (ids & Hnd & Hfresh & Hother & Hlen & Hrec).
    fold (run_loop _X X y (S i) l w1).
    set (res := run_loop _X X y (S i) l w1) in *.
    assert (id0 ∉ ids) as Hnotin.
    { intros Hin. apply Hfresh in Hin. rewrite Hruns in Hin.
      by rewrite lookup_insert_eq in Hin. }
    exists (id0 :: ids). split_and!.
    + by constructor.
    + intros id [->|Hin]%elem_of_cons; [done|].
      apply Hfresh in Hin. rewrite Hruns in Hin.
      destruct (decide (id = id0)) as [->|Hne]; [done|].
      by rewrite lookup_insert_ne in Hin.
    + intros j Hj. apply not_elem_of_cons in Hj as [Hne Hj].
      rewrite Hother, Hruns by done. by rewrite lookup_insert_ne.
    + destruct res; cbn [length]; lia.
    + intros [|k] id Hk.
      * injection Hk as <-. exists r. rewrite Hother, Hruns by done.
        rewrite lookup_insert_eq, Nat.add_0_r.
        split_and!; [done|done|done|].
        destruct res; [done|]. cbn [length].
        destruct (decide (1 = S (length ids))); [lia|done].
      * cbn in Hk. destruct (Hrec k id Hk) as (rk & Hrk & Hek & Hnk & Hsk).
        exists rk. rewrite <- Nat.add_succ_comm.
        split_and!; [done| |done|].
        { rewrite Hek. by apply current_experiment_eq. }
        rewrite Hsk. destruct res; [done|]. cbn [length].
        destruct (decide (S k = length ids)),
          (decide (S (S k) = S (length ids))); done || lia.
  - exists [id0]. split_and!.
    + apply NoDup_singleton.
    + by intros id ->%list_elem_of_singleton.
    + intros j [Hne _]%not_elem_of_cons. cbn. rewrite Hruns.
      by rewrite lookup_insert_ne.
    + cbn. lia.
    + cbn. lia.
    + intros [|k] id Hk; [|done]. injection Hk as <-. exists r. cbn.
      rewrite Hruns, lookup_insert_eq, Nat.add_0_r. done.
Qed.

(** X6.  The life of the runs, whatever the outcome of the script: every
    run it starts gets a record of its own under an identifier the store
    did not have, in experiment [new_experiment], named [Run k] in loop
    order; the records the store had are untouched; at most one run per
    parameter set is started, and exactly one when the script completes;
    no run is left active, every started run has ended, and only the last
    run of an execution that raises can have FAILED. *)
Theorem run_lifecycle (grid : list (string * list pyval)) (d : Disk) :
  let res := main_with grid (boot d) in
  ∃ ids,
    NoDup ids
    ∧ length ids ≤ length (get_param_set grid)
    ∧ (∀ w, res = Ok () w → length ids = length (get_param_set grid))
    ∧ (∀ id, id ∈ ids → disk_runs d !! id = None)
    ∧ (∀ j, j ∉ ids → runs (world_of res) !! j = disk_runs d !! j)
    ∧ active_run (world_of res) = None
    ∧ ∀ k id, ids !! k = Some id →
        ∃ r, runs (world_of res) !! id = Some r
             ∧ experiment r = experiment_name
             ∧ run_name r = "Run " +:+ pretty k
             ∧ (status r = FINISHED
                ∨ (status r = FAILED
                   ∧ S k = length ids
                   ∧ ∃ e w, res = Raised e w)).
Proof.
  intros res. subst res. unfold main_with, train_phase.
  unfold mbind, M_bind.
  pose proof (prepare_only_python_files (boot d)) as (_ & _ & Ha & Hr & _).
  destruct (prepare (boot d)) as [[[_X X] y] w1|e w1]; cbn in Ha, Hr.
  2:{ exists []. cbn. rewrite Hr.
      split_and!;
        first [done|lia|apply NoDup_nil_2|by intros id ?%elem_of_nil]. }
  rewrite grid_search_eq. fold (run_loop _X X y 0 (get_param_set grid)).
  destruct (run_loop_outcome _X X y (get_param_set grid) 0 (experiment_set w1)
              Ha) as (ids & Hnd & Hfresh & Hother & Hlen & Hrec).
  pose proof (run_loop_frame _X X y 0 (get_param_set grid)
                (experiment_set w1) Ha) as (Ha2 & _).
  fold (run_loop _X X y 0 (get_param_set grid)) in Ha2.
  cbn in Hfresh, Hother. rewrite Hr in Hfresh, Hother.
  destruct (run_loop _X X y 0 (get_param_set grid) (experiment_set w1))
    as [[] w2|e w2]; cbn in Hother, Hrec, Ha2.
  - pose proof (select_and_export_tracking_same w2) as (Hr3 & Ha3 & _).
    exists ids. rewrite Hr3, Ha3.
    split_and!; [done|lia|done|done|done|done|].
    intros k id Hk. destruct (Hrec k id Hk) as (r & ? & ? & ? & ?).
    exists r. split_and!; [done|done|done|by left].
  - exists ids. cbn. split_and!; [done|lia|done|done|done|done|].
    intros k id Hk. destruct (Hrec k id Hk) as (r & ? & ? & ? & Hst).
    exists r. split_and!; [done|done|done|].
    destruct (decide (S k = length ids)); [|by left].
    right. split_and!; [done|done|]. by exists e, w2.
Qed.
End run_lifecycle.

(** ** What a completed run has tracked *)

Section run_records.
Context `{!Collaborators}.
Import Utils Sklearn Metrics Mlflow Bentoml Logger Train.

Lemma pickle_fitted p a b oa ob w :
  heap w !! p = Some (Pipeline [("preprocessor", a); ("regr", b)]) →
  heap w !! a = Some oa →
  heap w !! b = Some ob →
  pickle p w = Ok [("preprocessor", oa); ("regr", ob)] w.
Proof.
  intros Hp Ha Hb. unfold pickle, deref. unfold_M. rewrite Hp. cbn.
  unfold_M. cbn. rewrite Ha. cbn. by rewrite Hb.
Qed.
Lemma class_name_eq obj ps f w :
  heap w !! obj = Some (GradientBoostingRegressor ps f) →
  class_name obj w = Ok "GradientBoostingRegressor" w.
Proof. intros Hobj. unfold class_name, deref. unfold_M. by rewrite Hobj. Qed.

Lemma fitted_regressor_eq obj ps f w :
  heap w !! obj = Some (GradientBoostingRegressor ps (Some f)) →
  fitted_regressor obj w = Ok f w.
Proof.
  intros Hobj. unfold fitted_regressor, deref. unfold_M. by rewrite Hobj.
Qed.

Lemma add_metrics_nil r : add_metrics [] r = r.
Proof. destruct r. unfold add_metrics. cbn. by rewrite app_nil_r. Qed.

Lemma add_metrics_cons x l r :
  add_metrics l (add_metrics [x] r) = add_metrics (x :: l) r.
Proof. unfold add_metrics. cbn. by rewrite <- app_assoc. Qed.

(** A loop of [log_metric] appends the series to the metrics of the active
    run, in order. *)
Lemma log_metric_enumerate rid k l i w r :
  active_run w = Some rid →
  runs w !! rid = Some r →
  ∃ w', for_enumerate i l (λ _, log_metric k) w = Ok () w'
        ∧ only_tracker w w'
        ∧ active_run w' = Some rid
        ∧ runs w' !! rid = Some (add_metrics ((λ v, (k, v)) <$> l) r).
Proof.
  revert i w r. induction l as [|v l IH]; intros i w r Hact Hr.
  { exists w. rewrite add_metrics_nil. by split. }
  cbn [for_enumerate].
  rewrite (bind_Ok _ _ _ _ _
             (update_run_active rid (add_metrics [(k, v)]) w Hact)).
  destruct (IH (S i) (set_runs (alter (add_metrics [(k, v)]) rid) w)
              (add_metrics [(k, v)] r)) as (w' & Hrun & Htr & Ha & Hr').
  { done. }
  { cbn. by rewrite lookup_alter_eq, Hr. }
  exists w'. split; [done|]. split; [|split; [done|]].
  - etransitivity; [|exact Htr]. done.
  - rewrite Hr', fmap_cons. by rewrite add_metrics_cons.
Qed.

Lemma log_metric_series rid k l w r :
  active_run w = Some rid →
  runs w !! rid = Some r →
  ∃ w', for_each l (log_metric k) w = Ok () w'
        ∧ only_tracker w w'
        ∧ active_run w' = Some rid
        ∧ runs w' !! rid = Some (add_metrics ((λ v, (k, v)) <$> l) r).
Proof. apply log_metric_enumerate. Qed.

Lemma log_model_fitted rid pipeline regr st ps f w :
  active_run w = Some rid →
  heap w !! preprocess_pipeline = Some (Preprocessor (Some st)) →
  heap w !! regr = Some (GradientBoostingRegressor ps (Some f)) →
  heap w !! pipeline
  = Some (Pipeline [("preprocessor", preprocess_pipeline); ("regr", regr)]) →
  log_model pipeline "model" w
  = Ok () (set_runs
             (alter (add_artifact "model"
                       (ModelArtifact (fitted_pipeline st ps f))) rid) w).
Proof.
  intros Hact Hprep Hregr Hpipe. unfold log_model.
  rewrite (bind_Ok _ _ _ _ _ (pickle_fitted _ _ _ _ _ w Hpipe Hprep Hregr)).
  by apply update_run_active.
Qed.

Lemma log_artifact_dir_Ok rid w w' :
  log_artifact_dir w = Ok () w' →
  active_run w = Some rid →
  ∃ dir, artifact_dir (files w) = Some dir
         ∧ w' = set_runs
                  (alter (add_artifact ARTIFACT_PATH (DirArtifact dir)) rid) w.
Proof.
  intros Hrun Hact. unfold log_artifact_dir in Hrun.
  apply bind_Ok_inv in Hrun as (w0 & w1 & [= <- <-] & Hrun).
  destruct (artifact_dir (files w)) as [dir|]; [|done].
  rewrite (update_run_active rid) in Hrun by done.
  injection Hrun as <-. by exists dir.
Qed.

Lemma log_feature_importance_Ok rid X regr ps f w w' :
  log_feature_importance X regr w = Ok () w' →
  active_run w = Some rid →
  heap w !! regr = Some (GradientBoostingRegressor ps (Some f)) →
  ∃ chart,
    render_importance X f = inr chart
    ∧ w' = set_runs
             (alter (add_artifact "feature_importance.png"
                       (ChartArtifact chart)) rid)
             (set_calls (λ cs, cs ++ [CallFeatureImportance X regr]) w).
Proof.
  intros Hrun Hact Hregr. unfold log_feature_importance in Hrun.
  apply bind_Ok_inv in Hrun as ([] & w1 & [= <-] & Hrun).
  rewrite (bind_Ok _ _ _ _ _
             (fitted_regressor_eq regr ps f
                (set_calls (λ cs, cs ++ [CallFeatureImportance X regr]) w)
                Hregr)) in Hrun.
  apply bind_Ok_inv in Hrun as (chart & w2 & Hchart & Hrun).
  apply lift_Ok_inv in Hchart as [Hchart ->].
  rewrite (update_run_active rid) in Hrun by done.
  injection Hrun as <-. by exists chart.
Qed.

Lemma update_run_bind {B} rid f (k : unit → M B) w :
  active_run w = Some rid →
  (update_run f ≫= k) w = k () (set_runs (alter f rid) w).
Proof.
  intros Hact. by rewrite (bind_Ok _ _ _ _ _ (update_run_active rid f w Hact)).
Qed.

Lemma clone_eq obj ps f w :
  heap w !! obj = Some (GradientBoostingRegressor ps f) →
  clone obj w
  = Ok (length (heap w))
      (set_heap (λ h, h ++ [GradientBoostingRegressor ps None]) w).
Proof. intros Hobj. unfold clone, deref, alloc. unfold_M. by rewrite Hobj. Qed.

(** The score of a fold is that of a clone: of a regressor with the
    parameters of the estimator, fitted on the training part. *)
Lemma fold_rmse_Ok regr ps fitted fold w v w' :
  fold_rmse regr fold w = Ok v w' →
  heap w !! regr = Some (GradientBoostingRegressor ps fitted) →
  fold_rmse_of ps fold v
  ∧ heap w' !! regr = Some (GradientBoostingRegressor ps fitted).
Proof.
  intros Hfold Hregr.
  pose proof (fold_rmse_clones_only (length (heap w)) regr fold w) as Hc.
  rewrite Hfold in Hc. cbn in Hc. destruct (Hc ltac:(done)) as (_ & Hh & _).
  split; [|rewrite Hh; [done|by eapply lookup_lt_Some]].
  unfold fold_rmse in Hfold.
  rewrite (bind_Ok _ _ _ _ _ (clone_eq regr ps fitted w Hregr)) in Hfold.
  apply bind_Ok_inv in Hfold as ([] & w2 & Hfit & Hfold).
  apply (fit_Ok _ _ _ ps) in Hfit as (f & Hf & Hh2 & _);
    [|cbn; by apply list_lookup_middle].
  assert (heap w2 !! length (heap w)
          = Some (GradientBoostingRegressor ps (Some f))) as Hclone.
  { rewrite Hh2. apply list_lookup_insert_eq. cbn. rewrite length_app. cbn.
    lia. }
  rewrite (bind_Ok _ _ _ _ _ (fitted_regressor_eq _ ps f w2 Hclone)) in Hfold.
  injection Hfold as <- _. by exists f.
Qed.

Lemma cross_validation_scores regr ps fitted folds w scores w' :
  mapM (fold_rmse regr) folds w = Ok scores w' →
  heap w !! regr = Some (GradientBoostingRegressor ps fitted) →
  Forall2 (fold_rmse_of ps) folds scores.
Proof.
  revert w scores. induction folds as [|fold folds IH];
    intros w scores Hcv Hregr.
  { injection Hcv as <- _. constructor. }
  change (mapM ?f (?x :: ?l')) with (y ← f x; k ← mapM f l'; mret (y :: k))
    in Hcv.
  apply bind_Ok_inv in Hcv as (v & w1 & Hfold & Hcv).
  apply bind_Ok_inv in Hcv as (vs & w2 & Hrest & [= <- <-]).
  destruct (fold_rmse_Ok regr ps fitted fold w v w1 Hfold Hregr)
    as [Hv Hregr1].
  constructor; [done|]. by eapply IH.
Qed.

(** What the metric utility returns for an estimator with the parameters
    [ps]. *)
Lemma rmse_cv_score_scores regr ps fitted X y w score_cv w' :
  rmse_cv_score regr X y w = Ok score_cv w' →
  heap w !! regr = Some (GradientBoostingRegressor ps fitted) →
  mean_cv_rmse ps X y (np_mean score_cv).
Proof.
  intros Hcv Hregr. unfold rmse_cv_score in Hcv.
  apply bind_Ok_inv in Hcv as ([] & w1 & [= <-] & Hcv).
  exists score_cv. split; [|done].
  by eapply cross_validation_scores.
Qed.

(** The logging of a run that returns: what the record of the active run
    gains. *)
Lemma evaluate_and_log_logged rid X y ps regr pipeline st f r w w' :
  evaluate_and_log X y ps regr pipeline w = Ok () w' →
  active_run w = Some rid →
  runs w !! rid = Some r →
  heap w !! preprocess_pipeline = Some (Preprocessor (Some st)) →
  heap w !! regr = Some (GradientBoostingRegressor ps (Some f)) →
  heap w !! pipeline
  = Some (Pipeline [("preprocessor", preprocess_pipeline); ("regr", regr)]) →
  NoDup (ps.*1) →
  ∃ rmse dir chart,
    mean_cv_rmse ps X y rmse
    ∧ artifact_dir (files w) = Some dir
    ∧ render_importance X f = inr chart
    ∧ runs w' !! rid = Some (logged ps st f rmse dir chart r)
    ∧ heap w' !! preprocess_pipeline = Some (Preprocessor (Some st)).
Proof.
  intros Hrun Hact Hr Hprep Hregr Hpipe Hnd. unfold evaluate_and_log in Hrun.
  apply bind_Ok_inv in Hrun as (score_cv & w2 & Hcv & Hrun).
  pose proof (rmse_cv_score_scores regr ps (Some f) X y w score_cv w2 Hcv
                Hregr) as Hscores.
  apply rmse_cv_score_Ok in Hcv
    as [(_ & _ & Hact2 & Hruns2 & _ & Hfiles2) Hheap2].
  rewrite <- Hheap2 in Hprep by (by eapply lookup_lt_Some).
  rewrite <- Hheap2 in Hregr by (by eapply lookup_lt_Some).
  rewrite <- Hheap2 in Hpipe by (by eapply lookup_lt_Some).
  rewrite <- Hact2 in Hact. rewrite <- Hruns2 in Hr. rewrite <- Hfiles2.
  clear Hact2 Hruns2 Hfiles2 Hheap2.
  rewrite (bind_Ok _ _ _ _ _ (class_name_eq regr ps _ w2 Hregr)) in Hrun.
  unfold set_tag, log_params, log_metrics in Hrun.
  rewrite (update_run_bind rid) in Hrun by done.
  match type of Hrun with
  | (_ ≫= _) ?w4 = _ =>
      rewrite (bind_Ok _ _ _ _ _
                 (read_back_params regr ps (Some f) ps w4 Hregr
                    (λ k v Hin, assoc_NoDup ps k v Hnd Hin))) in Hrun
  end.
  rewrite (update_run_bind rid) in Hrun by done.
  rewrite (update_run_bind rid) in Hrun by done.
  match type of Hrun with
  | (_ ≫= _) ?w6 = _ =>
      rewrite (bind_Ok _ _ _ _ _ (fitted_regressor_eq regr ps f w6 Hregr))
        in Hrun
  end.
  match type of Hrun with
  | (_ ≫= _) ?w6 = _ =>
      destruct (log_metric_series rid "Train Loss" (train_score_ f) w6
                  (add_metrics [("RMSE_CV", np_mean score_cv)]
                     (add_params (prod_map id py_str <$> ps)
                        (add_tag "estimator_name" "GradientBoostingRegressor"
                           r))))
        as (w7 & Hloss & (Hh7 & _ & _ & Hf7) & Hact7 & Hr7);
        [done|by cbn; rewrite !lookup_alter_eq, Hr|]
  end.
  rewrite (bind_Ok _ _ _ _ _ Hloss) in Hrun. cbn in Hh7, Hf7.
  rewrite <- Hh7 in Hprep, Hregr, Hpipe. rewrite <- Hf7.
  rewrite (bind_Ok _ _ _ _ _
             (log_model_fitted rid pipeline regr st ps f w7 Hact7 Hprep Hregr
                Hpipe)) in Hrun.
  apply bind_Ok_inv in Hrun as ([] & w9 & Hdir & Hrun).
  apply (log_artifact_dir_Ok rid) in Hdir as (dir & Hdir & ->); [|done].
  apply (log_feature_importance_Ok rid X regr ps f) in Hrun
    as (chart & Hchart & ->); [|done|done].
  exists (np_mean score_cv), dir, chart.
  split; [done|]. split; [done|]. split; [done|]. split; [|done].
  cbn. rewrite !lookup_alter_eq, Hr7. done.
Qed.

(** The body of a run that returns: the record of the run has gained the
    tag, the parameter set, the metrics and the artifacts of a regressor
    fitted under the parameter set on the transformed raw features. *)
Lemma run_body_logged rid _X X y ps r w w' :
  run_body _X X y ps w = Ok () w' →
  active_run w = Some rid →
  runs w !! rid = Some r →
  NoDup (ps.*1) →
  ∃ st Xt f rmse dir chart,
    mean_cv_rmse ps X y rmse
    ∧ prep_fit _X y = inr st
    ∧ prep_transform st _X = inr Xt
    ∧ gbr_fit ps Xt y = inr f
    ∧ artifact_dir (files w) = Some dir
    ∧ render_importance X f = inr chart
    ∧ runs w' !! rid = Some (logged ps st f rmse dir chart r).
Proof.
  intros Hrun Hact Hr Hnd. unfold run_body in Hrun.
  apply bind_Ok_inv in Hrun as ([regr pipeline] & w2 & Hfit & Hrun).
  apply fit_pipeline_fitted in Hfit
    as (st & Xt & f & Hst & HXt & Hf & Hprep & Hregr & Hpipe
        & (_ & _ & Hact2 & Hruns2 & _ & Hfiles2)).
  destruct (evaluate_and_log_logged rid X y ps regr pipeline st f r w2 w' Hrun)
    as (rmse & dir & chart & Hcv & Hdir & Hchart & Hr' & _);
    [congruence|congruence|done|done|done|done|].
  exists st, Xt, f, rmse, dir, chart. by rewrite <- Hfiles2.
Qed.

Lemma with_start_run_completed name _X X y ps w w' :
  with_start_run name (run_body _X X y ps) w = Ok () w' →
  active_run w = None →
  NoDup (ps.*1) →
  ∃ st Xt f rmse dir chart,
    mean_cv_rmse ps X y rmse
    ∧ prep_fit _X y = inr st
    ∧ prep_transform st _X = inr Xt
    ∧ gbr_fit ps Xt y = inr f
    ∧ artifact_dir (files w) = Some dir
    ∧ render_importance X f = inr chart
    ∧ runs w' !! fresh (dom (runs w))
      = Some (set_status FINISHED
                (logged ps st f rmse dir chart
                   (new_run (current_experiment w) name))).
Proof.
  intros Hrun Hact Hnd. rewrite with_start_run_eq in Hrun by done.
  destruct (run_body _X X y ps (started name w)) as [[] w2|e w2] eqn:Hbody;
    [|done].
  injection Hrun as <-.
  destruct (run_body_logged (fresh (dom (runs w))) _X X y ps
              (new_run (current_experiment w) name) (started name w) w2 Hbody)
    as (st & Xt & f & rmse & dir & chart & Hcv & Hst & HXt & Hf & Hdir
            & Hchart
        & Hr2); [done|cbn; apply lookup_insert_eq|done|].
  pose proof (run_body_frame (fresh (dom (runs w))) _X X y ps (started name w)
                eq_refl) as (Hact2 & _).
  rewrite Hbody in Hact2. cbn in Hact2.
  exists st, Xt, f, rmse, dir, chart. do 6 (split; [done|]).
  unfold end_run_world. rewrite Hact2. cbn. by rewrite lookup_alter_eq, Hr2.
Qed.

(** A loop that returns: the record of every run, in loop order. *)
Lemma run_loop_records _X X y param_set i w w' :
  run_loop _X X y i param_set w = Ok () w' →
  active_run w = None →
  Forall (λ ps, NoDup (ps.*1)) param_set →
  ∃ ids,
    NoDup ids
    ∧ length ids = length param_set
    ∧ (∀ id, id ∈ ids → runs w !! id = None)
    ∧ (∀ j, j ∉ ids → runs w' !! j = runs w !! j)
    ∧ ∀ k id ps, ids !! k = Some id → param_set !! k = Some ps →
        ∃ st Xt f rmse dir chart,
          mean_cv_rmse ps X y rmse
          ∧ prep_fit _X y = inr st
          ∧ prep_transform st _X = inr Xt
          ∧ gbr_fit ps Xt y = inr f
          ∧ artifact_dir (files w) = Some dir
          ∧ render_importance X f = inr chart
          ∧ runs w' !! id
            = Some (set_status FINISHED
                      (logged ps st f rmse dir chart
                         (new_run (current_experiment w)
                            ("Run " +:+ pretty (i + k))))).
Proof.
  revert i w. induction param_set as [|ps l IH]; intros i w Hrun Hact Hnd.
  { injection Hrun as <-. exists [].
    split_and!; [constructor|done| |done|by intros k id ps ?].
    by intros id ?%elem_of_nil. }
  apply Forall_cons in Hnd as [Hps Hnd].
  unfold run_loop in Hrun. cbn [for_enumerate] in Hrun.
  apply bind_Ok_inv in Hrun as ([] & w1 & Hrun1 & Hrest).
  fold (run_loop _X X y (S i) l) in Hrest.
  destruct (with_start_run_runs ("Run " +:+ pretty i) (run_body _X X y ps) w
              Hact (λ id, run_body_frame id _X X y ps))
    as (r & Hruns & _ & _ & _ & Ha1 & He1 & _ & Hf1).
  rewrite Hrun1 in Hruns, Ha1, He1, Hf1. cbn in Hruns, Ha1, He1, Hf1.
  set (id0 := fresh (dom (runs w))) in *.
  assert (runs w !! id0 = None) as Hid0 by apply fresh_run_None.
  destruct (IH (S i) w1 Hrest Ha1 Hnd)
    as (ids & Hndi & Hlen & Hfresh & Hother & Hrec).
  pose proof (run_loop_frame _X X y (S i) l w1 Ha1) as (_ & _ & _ & _ & Hkeep).
  fold (run_loop _X X y (S i) l) in Hkeep. rewrite Hrest in Hkeep.
  cbn in Hkeep.
  assert (id0 ∉ ids) as Hnotin.
  { intros Hin. apply Hfresh in Hin. rewrite Hruns in Hin.
    by rewrite lookup_insert_eq in Hin. }
  exists (id0 :: ids). split_and!.
  - by constructor.
  - cbn. by rewrite Hlen.
  - intros id [->|Hin]%elem_of_cons; [done|].
    apply Hfresh in Hin. rewrite Hruns in Hin.
    destruct (decide (id = id0)) as [->|Hne]; [done|].
    by rewrite lookup_insert_ne in Hin.
  - intros j [Hne Hj]%not_elem_of_cons.
    rewrite Hother, Hruns by done. by rewrite lookup_insert_ne.
  - intros [|k] id ps' Hk Hps'.
    + injection Hk as <-. injection Hps' as <-.
      destruct (with_start_run_completed _ _X X y ps w w1 Hrun1 Hact Hps)
        as (st & Xt & f & rmse & dir & chart & Hcv & Hst & HXt & Hf & Hdir
            & Hchart
            & Hr1).
      exists st, Xt, f, rmse, dir, chart. do 6 (split; [done|]).
      rewrite Nat.add_0_r. by apply Hkeep.
    + cbn in Hk, Hps'.
      destruct (Hrec k id ps' Hk Hps')
        as (st & Xt & f & rmse & dir & chart & Hcv & Hst & HXt & Hf & Hdir
            & Hchart
            & Hr1).
      exists st, Xt, f, rmse, dir, chart. do 4 (split; [done|]).
      split; [congruence|]. split; [done|].
      rewrite <- Nat.add_succ_comm, <- (current_experiment_eq w w1) by done.
      done.
Qed.
End run_records.

Section tracked_runs.
Context `{!Collaborators}.
Import Utils Sklearn Metrics Mlflow Bentoml Logger Train.

Lemma param_set_NoDup (grid : list (string * list pyval)) :
  NoDup (grid.*1) → Forall (λ ps, NoDup (ps.*1)) (get_param_set grid).
Proof.
  intros Hnd. apply Forall_forall. intros ps Hps.
  rewrite (full_assignment_keys grid ps); [done|]. by apply get_param_set_full.
Qed.

Lemma completed_run_model name ps st f rmse dir chart :
  ARTIFACT_PATH ≠ "model" →
  artifacts (completed_run name ps st f rmse dir chart) !! "model"
  = Some (ModelArtifact (fitted_pipeline st ps f)).
Proof.
  intros Hpath. cbn. rewrite lookup_insert_ne by done.
  rewrite lookup_insert_ne by done. apply lookup_insert_eq.
Qed.

(** A training phase that returns, run by run. *)
Lemma train_phase_records grid d w1 :
  train_phase grid (boot d) = Ok () w1 →
  NoDup (grid.*1) →
  ∃ _X X y w0 st ids,
    prepare (boot d) = Ok (_X, X, y) w0
    ∧ prep_fit _X y = inr st
    ∧ prep_transform st _X = inr X
    ∧ NoDup ids
    ∧ length ids = length (get_param_set grid)
    ∧ (∀ id, id ∈ ids → disk_runs d !! id = None)
    ∧ (∀ j, j ∉ ids → runs w1 !! j = disk_runs d !! j)
    ∧ ∀ k id ps,
        ids !! k = Some id → get_param_set grid !! k = Some ps →
        ∃ f rmse dir chart,
          mean_cv_rmse ps X y rmse
          ∧ gbr_fit ps X y = inr f
          ∧ artifact_dir (disk_files d) = Some dir
          ∧ render_importance X f = inr chart
          ∧ runs w1 !! id
            = Some (completed_run ("Run " +:+ pretty k) ps st f rmse dir
                      chart).
Proof.
  intros Htrain Hnd. unfold train_phase in Htrain.
  apply bind_Ok_inv in Htrain as ([[_X X] y] & w0 & Hprep & Hgrid).
  destruct (prepare_Ok _ _ _ _ _ Hprep)
    as (csv & rent & vs & st & _ & _ & _ & _ & _ & Hst & HX & _).
  pose proof (prepare_only_python_files (boot d)) as (_ & _ & Ha & Hruns0 & _).
  pose proof (prepare_sources_kept (boot d)) as [_ Hdir0].
  rewrite Hprep in Ha, Hruns0, Hdir0. cbn in Ha, Hruns0, Hdir0.
  rewrite grid_search_eq in Hgrid.
  fold (run_loop _X X y 0 (get_param_set grid)) in Hgrid.
  destruct (run_loop_records _X X y (get_param_set grid) 0 (experiment_set w0)
              w1 Hgrid Ha (param_set_NoDup grid Hnd))
    as (ids & Hndi & Hlen & Hfresh & Hother & Hrec).
  cbn in Hfresh, Hother. rewrite Hruns0 in Hfresh, Hother.
  exists _X, X, y, w0, st, ids. do 7 (split; [done|]).
  intros k id ps Hk Hps.
  destruct (Hrec k id ps Hk Hps)
    as (st' & Xt & f & rmse & dir & chart & Hcv & Hst' & HXt & Hf & Hdir
        & Hchart
        & Hr).
  rewrite Hst in Hst'. injection Hst' as <-.
  rewrite HX in HXt. injection HXt as <-.
  exists f, rmse, dir, chart. do 2 (split; [done|]).
  split; [|split; [done|]].
  - cbn in Hdir. by rewrite Hdir0 in Hdir.
  - exact Hr.
Qed.

(** X7.  What a completed grid search has tracked, as the script leaves it
    behind whether or not the export that follows goes through.  The runs
    are recorded in loop order under new identifiers.  The record of the
    run of a parameter set is FINISHED, named [Run k], tagged with the
    class name of the regressor; its parameters are the parameter set in
    string form; its metrics are [RMSE_CV] once, the mean of the RMSE of
    the folds for the parameter set on [X] and [y], then [Train Loss] once
    per boosting iteration, in order; its artifacts are the chart, the
    artifact directory as it was when the run logged it, and under [model]
    the pipeline of the run: the preprocessing statistics of the raw
    features, which all runs share, and the regressor fitted under the
    parameter set on the whole of the transformed features [X] and the
    target [y].  The artifact directory is not named [model]: the tracking
    store would merge it into the directory of the logged model. *)
Theorem completed_runs_tracked (grid : list (string * list pyval))
    (d : Disk) (w1 : World) :
  train_phase grid (boot d) = Ok () w1 →
  NoDup (grid.*1) →
  ARTIFACT_PATH ≠ "model" →
  let w' := world_of (main_with grid (boot d)) in
  ∃ _X X y w0 st ids,
    prepare (boot d) = Ok (_X, X, y) w0
    ∧ prep_fit _X y = inr st
    ∧ prep_transform st _X = inr X
    ∧ NoDup ids
    ∧ length ids = length (get_param_set grid)
    ∧ (∀ id, id ∈ ids → disk_runs d !! id = None)
    ∧ (∀ j, j ∉ ids → runs w' !! j = disk_runs d !! j)
    ∧ ∀ k id ps,
        ids !! k = Some id → get_param_set grid !! k = Some ps →
        ∃ f rmse dir chart,
          gbr_fit ps X y = inr f
          ∧ mean_cv_rmse ps X y rmse
          ∧ render_importance X f = inr chart
          ∧ runs w' !! id
            = Some (completed_run ("Run " +:+ pretty k) ps st f rmse dir
                      chart)
          ∧ artifacts (completed_run ("Run " +:+ pretty k) ps st f rmse dir
                         chart) !! "model"
            = Some (ModelArtifact (fitted_pipeline st ps f)).
Proof.
  intros Htrain Hnd Hpath w'.
  assert (runs w' = runs w1) as Hruns.
  { subst w'. unfold main_with. rewrite (bind_Ok _ _ _ _ _ Htrain).
    apply select_and_export_tracking_same. }
  rewrite Hruns.
  destruct (train_phase_records grid d w1 Htrain Hnd)
    as (_X & X & y & w0 & st & ids & Hprep & Hst & HX & Hndi & Hlen & Hfresh
        & Hother & Hrec).
  exists _X, X, y, w0, st, ids. do 7 (split; [done|]).
  intros k id ps Hk Hps.
  destruct (Hrec k id ps Hk Hps)
    as (f & rmse & dir & chart & Hcv & Hf & _ & Hchart & Hr).
  exists f, rmse, dir, chart. do 4 (split; [done|]).
  by apply completed_run_model.
Qed.

Lemma train_phase_keeps_runs grid d w1 :
  train_phase grid (boot d) = Ok () w1 →
  ∀ j r, disk_runs d !! j = Some r → runs w1 !! j = Some r.
Proof.
  intros Htrain. unfold train_phase in Htrain.
  apply bind_Ok_inv in Htrain as ([[_X X] y] & w0 & Hprep & Hgrid).
  pose proof (prepare_only_python_files (boot d)) as (_ & _ & Ha & Hruns0 & _).
  rewrite Hprep in Ha, Hruns0. cbn in Ha, Hruns0.
  rewrite grid_search_eq in Hgrid.
  pose proof (run_loop_frame _X X y 0 (get_param_set grid)
                (experiment_set w0) Ha) as (_ & _ & _ & _ & Hkeep).
  rewrite Hgrid in Hkeep. cbn in Hkeep. rewrite Hruns0 in Hkeep. done.
Qed.

(** An execution that completes: the selection it made and the entry it
    saved. *)
Lemma main_with_Ok grid d w' :
  main_with grid (boot d) = Ok () w' →
  ∃ w1 rid r model,
    train_phase grid (boot d) = Ok () w1
    ∧ current_experiment w1 = experiment_name
    ∧ runs w1 !! rid = Some r
    ∧ experiment r = experiment_name
    ∧ (∀ ir, ir ∈ experiment_runs w1 →
         metric_leb (latest_metric "RMSE_CV" r)
           (latest_metric "RMSE_CV" ir.2) = true)
    ∧ artifacts r !! "model" = Some (ModelArtifact model)
    ∧ runs w' = runs w1
    ∧ bento_store w'
      = disk_bento d
        ++ [mkBentoModel "house_rent" model [("predict", mkSignature true 0)]
              (params r)].
Proof.
  intros Hmain. unfold main_with in Hmain.
  apply bind_Ok_inv in Hmain as ([] & w1 & Htrain & Hmain).
  unfold select_and_export in Hmain.
  apply bind_Ok_inv in Hmain as ([rid r] & w1' & Hsel & Hexp).
  pose proof (select_best_unchanged w1) as Hu. rewrite Hsel in Hu.
  unfold unchanged in Hu. cbn in Hu. subst w1'.
  destruct (train_phase_Ok grid d w1 Htrain) as (Hae & Hact & Hb).
  assert (current_experiment w1 = experiment_name) as Hcur
    by (unfold current_experiment; by rewrite Hae).
  destruct (decide (experiment_runs w1 = [])) as [Hnil|Hne].
  { by rewrite (select_best_no_runs w1 Hnil) in Hsel. }
  destruct (select_best_Ok w1 Hne) as (rid' & r' & Hsel' & Hin & Hmin).
  rewrite Hsel in Hsel'. injection Hsel' as <- <-.
  apply elem_of_experiment_runs in Hin as [Hr Hre].
  apply export_Ok in Hexp as (model & r2 & Hstore & Hruns & Hr2 & Hmodel).
  cbn in Hr2, Hstore. rewrite Hr in Hr2. injection Hr2 as <-.
  exists w1, rid, r, model. rewrite Hstore, Hb.
  split_and!; [done|done|done|congruence|done|done|done|done].
Qed.

Lemma export_returns best r p w :
  runs w !! best.1 = Some r →
  artifacts r !! "model" = Some (ModelArtifact p) →
  ∃ w', export best w = Ok () w'.
Proof.
  intros Hr Hm. unfold export, copy_tree_model, load_model, get_run, save_model.
  unfold_M. rewrite Hr. cbn. rewrite Hm. cbn. rewrite Hr. cbn. rewrite Hm.
  by eexists.
Qed.

(** X8.  The exported entry describes the model it holds.  When the script
    completes on a tracking store without earlier runs of the experiment,
    the saved model is the pipeline of one parameter set of the grid: the
    preprocessing statistics of the raw features and the regressor fitted
    under that parameter set on the whole of [X] and [y]; and the metadata
    of the entry are that same parameter set, in string form. *)
Theorem exported_model_matches_metadata (grid : list (string * list pyval))
    (d : Disk) (w' : World) :
  main_with grid (boot d) = Ok () w' →
  NoDup (grid.*1) →
  ARTIFACT_PATH ≠ "model" →
  (∀ j rj, disk_runs d !! j = Some rj →
           experiment rj ≠ experiment_name) →
  ∃ _X X y w0 st ps f,
    prepare (boot d) = Ok (_X, X, y) w0
    ∧ prep_fit _X y = inr st
    ∧ ps ∈ get_param_set grid
    ∧ gbr_fit ps X y = inr f
    ∧ bento_store w'
      = disk_bento d
        ++ [mkBentoModel "house_rent" (fitted_pipeline st ps f)
              [("predict", mkSignature true 0)] (prod_map id py_str <$> ps)].
Proof.
  intros Hmain Hnd Hpath Hold.
  apply main_with_Ok in Hmain
    as (w1 & rid & r & model & Htrain & _ & Hr & Hre & _ & Hmodel & _
        & Hstore).
  destruct (train_phase_records grid d w1 Htrain Hnd)
    as (_X & X & y & w0 & st & ids & Hprep & Hst & _ & _ & Hlen & _ & Hother
        & Hrec).
  destruct (decide (rid ∈ ids)) as [Hin|Hnotin].
  2:{ rewrite Hother in Hr by done. by destruct (Hold rid r Hr). }
  apply list_elem_of_lookup in Hin as [k Hk].
  destruct (lookup_lt_is_Some_2 (get_param_set grid) k) as [ps Hps].
  { rewrite <- Hlen. by eapply lookup_lt_Some. }
  destruct (Hrec k rid ps Hk Hps)
    as (f & rmse & dir & chart & _ & Hf & _ & _ & Hrk).
  rewrite Hr in Hrk. injection Hrk as ->.
  rewrite completed_run_model in Hmodel by done. injection Hmodel as <-.
  exists _X, X, y, w0, st, ps, f.
  split_and!; [done|done|by eapply list_elem_of_lookup_2|done|done].
Qed.

(** X9.  After a training phase that returns, selection and export go
    through.  With a dictionary as grid that expands to at least one
    parameter set, an artifact directory not named [model], and a logged
    model in every earlier run of the experiment, the script completes
    whenever its grid search does. *)
Theorem export_completes (grid : list (string * list pyval)) (d : Disk)
    (w1 : World) :
  train_phase grid (boot d) = Ok () w1 →
  NoDup (grid.*1) →
  get_param_set grid ≠ [] →
  ARTIFACT_PATH ≠ "model" →
  (∀ j rj, disk_runs d !! j = Some rj → experiment rj = experiment_name →
           ∃ p, artifacts rj !! "model" = Some (ModelArtifact p)) →
  ∃ w', main_with grid (boot d) = Ok () w'.
Proof.
  intros Htrain Hnd Hne Hpath Hold.
  destruct (train_phase_records grid d w1 Htrain Hnd)
    as (_X & X & y & w0 & st & ids & _ & _ & _ & _ & Hlen & _ & Hother & Hrec).
  destruct (train_phase_Ok grid d w1 Htrain) as (Hae & _ & _).
  assert (current_experiment w1 = experiment_name) as Hcur
    by (unfold current_experiment; by rewrite Hae).
  assert (∀ rid r,
            runs w1 !! rid = Some r → experiment r = experiment_name →
            ∃ p, artifacts r !! "model" = Some (ModelArtifact p))
    as Hmodels.
  { intros rid r Hr Hre. destruct (decide (rid ∈ ids)) as [Hin|Hnotin].
    2:{ rewrite Hother in Hr by done. by eapply Hold. }
    apply list_elem_of_lookup in Hin as [k Hk].
    destruct (lookup_lt_is_Some_2 (get_param_set grid) k) as [ps Hps].
    { rewrite <- Hlen. by eapply lookup_lt_Some. }
    destruct (Hrec k rid ps Hk Hps)
      as (f & rmse & dir & chart & _ & _ & _ & _ & Hrk).
    rewrite Hr in Hrk. injection Hrk as ->.
    eexists. by apply completed_run_model. }
  assert (experiment_runs w1 ≠ []) as Hruns.
  { destruct (get_param_set grid) as [|ps l] eqn:Hset; [done|].
    destruct ids as [|id ids]; [done|].
    destruct (Hrec 0 id ps eq_refl eq_refl)
      as (f & rmse & dir & chart & _ & _ & _ & _ & Hr0).
    intros Hnil.
    assert ((id, completed_run ("Run " +:+ pretty 0) ps st f rmse dir chart)
            ∈ experiment_runs w1) as Hin.
    { apply elem_of_experiment_runs. by rewrite Hcur. }
    rewrite Hnil in Hin. by apply elem_of_nil in Hin. }
  destruct (select_best_Ok w1 Hruns) as (rid & r & Hsel & Hin & _).
  apply elem_of_experiment_runs in Hin as [Hr Hre].
  destruct (Hmodels rid r Hr) as [p Hp]; [congruence|].
  destruct (export_returns (rid, r) r p w1 Hr Hp) as [w' Hexp].
  exists w'. unfold main_with. rewrite (bind_Ok _ _ _ _ _ Htrain).
  unfold select_and_export. by rewrite (bind_Ok _ _ _ _ _ Hsel).
Qed.

(** X10.  Executions build on one another.  When the script completes
    twice in a row, the second on what the first left behind, each
    execution appends one entry to the model store and replaces none, the
    run records behind both entries are in the store, and the run behind
    the second entry has a mean cross-validated RMSE that is not larger
    than (in the order of the search: not after) the one behind the first:
    the selection looks at the runs of all executions, not only at those
    of the current one. *)
Theorem reexecution_never_worse (grid1 grid2 : list (string * list pyval))
    (d : Disk) (w1 w2 : World) :
  main_with grid1 (boot d) = Ok () w1 →
  main_with grid2 (boot (persist w1)) = Ok () w2 →
  ∃ rid1 r1 rid2 r2 entry1 entry2,
    bento_store w1 = disk_bento d ++ [entry1]
    ∧ bento_store w2 = disk_bento d ++ [entry1; entry2]
    ∧ runs w2 !! rid1 = Some r1
    ∧ runs w2 !! rid2 = Some r2
    ∧ bento_metadata entry1 = params r1
    ∧ bento_metadata entry2 = params r2
    ∧ artifacts r1 !! "model" = Some (ModelArtifact (bento_model entry1))
    ∧ artifacts r2 !! "model" = Some (ModelArtifact (bento_model entry2))
    ∧ metric_leb (latest_metric "RMSE_CV" r2) (latest_metric "RMSE_CV" r1)
      = true.
Proof.
  intros Hmain1 Hmain2.
  apply main_with_Ok in Hmain1
    as (w1a & rid1 & r1 & model1 & Htrain1 & _ & Hr1 & Hre1 & _ & Hmodel1
        & Hruns1 & Hstore1).
  apply main_with_Ok in Hmain2
    as (w2a & rid2 & r2 & model2 & Htrain2 & Hcur2 & Hr2 & Hre2 & Hmin2
        & Hmodel2 & Hruns2 & Hstore2).
  assert (runs w2a !! rid1 = Some r1) as Hr1'.
  { apply (train_phase_keeps_runs grid2 (persist w1) w2a Htrain2).
    cbn. by rewrite Hruns1. }
  eexists rid1, r1, rid2, r2, _, _. rewrite Hruns2.
  split; [exact Hstore1|]. split.
  { rewrite Hstore2. cbn. rewrite Hstore1. by rewrite <- app_assoc. }
  split_and!; [done|done|done|done|done|done|].
  apply (Hmin2 (rid1, r1)). apply elem_of_experiment_runs.
  split; [done|congruence].
Qed.
End tracked_runs.

Section tracked_runs_witnesses.
Import Utils Mlflow Train Demo.

Lemma completed_runs_tracked_witness :
  ∃ id r,
    runs (world_of (@main_with (demo (inr "chart")) params_candidates
                      (boot demo_disk))) !! id = Some r
    ∧ run_name r = "Run 0"
    ∧ status r = FINISHED
    ∧ params r
      = [("learning_rate", "0.01"); ("max_depth", "3"); ("max_features", "1.0")]
    ∧ metrics r
      = [("RMSE_CV", Some (4 # 2)%Q); ("Train Loss", Some 2%Q);
         ("Train Loss", Some 1%Q)].
Proof.
  destruct (@train_phase (demo (inr "chart")) params_candidates
              (boot demo_disk))
    as [[] w1|e w1] eqn:Htrain; [|vm_compute in Htrain; discriminate].
  destruct (@completed_runs_tracked (demo (inr "chart")) params_candidates
              demo_disk w1 Htrain)
    as (_X & X & y & w0 & st & ids & _ & _ & _ & _ & Hlen & _ & _ & Hrec).
  { apply (bool_decide_unpack _). vm_compute. exact I. }
  { discriminate. }
  destruct ids as [|id ids]; [discriminate Hlen|].
  destruct (Hrec 0 id _ eq_refl eq_refl)
    as (f & rmse & dir & chart & Hf & (score_cv & Hcv & ->) & _ & Hr & _).
  injection Hf as <-.
  apply Forall2_cons_inv_l in Hcv as (v1 & vs1 & (f1 & Hf1 & ->) & Hcv & ->).
  apply Forall2_cons_inv_l in Hcv as (v2 & vs2 & (f2 & Hf2 & ->) & Hcv & ->).
  apply Forall2_nil_inv_l in Hcv as ->.
  eexists id, _. split; [exact Hr|]. repeat split.
Defined.

Lemma exported_model_matches_metadata_witness :
  ∃ w' st f,
    @main_with (demo (inr "chart")) params_candidates (boot demo_disk)
    = Ok () w'
    ∧ bento_store w'
      = [mkBentoModel "house_rent"
           [("preprocessor", Preprocessor (Some st));
            ("regr",
             GradientBoostingRegressor
               [("learning_rate", PyFloat 0.01); ("max_depth", PyInt 3);
                ("max_features", PyFloat 1.0)] (Some f))]
           [("predict", mkSignature true 0)]
           [("learning_rate", "0.01"); ("max_depth", "3");
            ("max_features", "1.0")]].
Proof.
  destruct (@main_with (demo (inr "chart")) params_candidates (boot demo_disk))
    as [[] w'|e w'] eqn:Hmain; [|vm_compute in Hmain; discriminate].
  destruct (@exported_model_matches_metadata (demo (inr "chart"))
              params_candidates demo_disk w' Hmain)
    as (_X & X & y & w0 & st & ps & f & _ & _ & Hps & _ & Hstore).
  { apply (bool_decide_unpack _). vm_compute. exact I. }
  { discriminate. }
  { intros j rj Hj. cbn in Hj. by rewrite lookup_empty in Hj. }
  apply list_elem_of_singleton in Hps. subst ps.
  exists w', st, f. split; [reflexivity|]. exact Hstore.
Defined.

Lemma export_completes_witness :
  ∃ w',
    @main_with (demo (inr "chart")) params_candidates (boot demo_disk)
    = Ok () w'.
Proof.
  destruct (@train_phase (demo (inr "chart")) params_candidates
              (boot demo_disk))
    as [[] w1|e w1] eqn:Htrain; [|vm_compute in Htrain; discriminate].
  apply (@export_completes (demo (inr "chart")) params_candidates demo_disk w1
           Htrain).
  - apply (bool_decide_unpack _). vm_compute. exact I.
  - discriminate.
  - discriminate.
  - intros j rj Hj. cbn in Hj. by rewrite lookup_empty in Hj.
Defined.

Lemma reexecution_never_worse_witness :
  let w1 :=
    world_of (@main_with (demo (inr "chart")) params_candidates
                (boot demo_disk)) in
  let w2 :=
    world_of (@main_with (demo (inr "chart")) params_candidates
                (boot (persist w1))) in
  ∃ entry1 entry2,
    bento_store w1 = [entry1] ∧ bento_store w2 = [entry1; entry2].
Proof.
  intros w1 w2.
  assert (@main_with (demo (inr "chart")) params_candidates (boot demo_disk)
          = Ok () w1) as Hmain1 by (vm_compute; reflexivity).
  assert (@main_with (demo (inr "chart")) params_candidates
            (boot (persist w1)) = Ok () w2) as Hmain2
    by (vm_compute; reflexivity).
  destruct (@reexecution_never_worse (demo (inr "chart")) params_candidates
              params_candidates demo_disk w1 w2 Hmain1 Hmain2)
    as (rid1 & r1 & rid2 & r2 & entry1 & entry2 & Hs1 & Hs2 & _).
  clearbody w2 w1. exists entry1, entry2. split; [exact Hs1|exact Hs2].
Defined.
End tracked_runs_witnesses.

(** ** The data preparation goes through *)

Section preparation.
Context `{!Collaborators}.
Import Utils Sklearn Metrics Mlflow Bentoml Logger Train.

Lemma drop_present labels df :
  (∀ l, l ∈ labels → l ∈ (df_columns df).*1) →
  drop labels df
  = inr (mkDataFrame (df_index df)
           (filter (λ c, c.1 ∉ labels) (df_columns df))).
Proof.
  intros Hall. unfold drop.
  destruct (filter (λ l, l ∉ (df_columns df).*1) labels) as [|l t] eqn:Hf;
    [done|].
  assert (l ∈ filter (λ l, l ∉ (df_columns df).*1) labels) as Hl
    by (rewrite Hf; left).
  apply list_elem_of_filter in Hl as [Hmiss Hin]. destruct Hmiss.
  by apply Hall.
Qed.

(** X11.  The data preparation completes whenever its inputs allow it.
    With a training file that has the three columns, numbers (or missing
    values) in [rent], and a preprocessing pipeline that fits and
    transforms the raw features, lines 30 to 43 return: the storage
    directory exists afterwards whether or not it existed before, and the
    features file holds the transformed features with the target. *)
Theorem preparation_completes (d : Disk) (csv : Csv) (rent vs : list cell)
    (st : PrepFit) (X : DataFrame) :
  let _X := mkDataFrame (seq 0 (csv_nrows csv))
              (filter (λ c, c.1 ∉ dropped_columns) (csv_columns csv)) in
  let y := mkSeries (seq 0 (csv_nrows csv)) vs in
  train_csv (disk_files d) = Some csv →
  (∀ l, l ∈ dropped_columns → l ∈ (csv_columns csv).*1) →
  assoc "rent" (csv_columns csv) = Some rent →
  Numpy.log1p_cells rent = inr vs →
  prep_fit _X y = inr st →
  prep_transform st _X = inr X →
  ∃ w1, prepare (boot d) = Ok (_X, X, y) w1
        ∧ storage_dir (files w1) = true
        ∧ features_csv (files w1) = Some (to_csv (assign X "rent" y))
        ∧ train_csv (files w1) = Some csv
        ∧ artifact_dir (files w1) = artifact_dir (disk_files d).
Proof.
  intros _X y Hcsv Hcols Hrent Hvs Hst HX.
  unfold prepare, read_train_csv, makedirs_storage, to_csv_features,
    fit_transform, emit, deref, store, getitem, Numpy.log1p.
  unfold_M. cbn. rewrite Hcsv.
  change (drop ["rent"; "area_locality"; "posted_on"] (read_csv csv))
    with (drop dropped_columns (read_csv csv)).
  rewrite (drop_present dropped_columns (read_csv csv) Hcols). cbn.
  rewrite Hrent. cbn. rewrite Hvs. cbn.
  fold _X y. rewrite Hst. cbn. rewrite HX. cbn.
  destruct (storage_dir (disk_files d)) eqn:Hdir; cbn; rewrite ?Hdir; cbn;
    by eexists.
Qed.
Lemma log1p_cells_Str cs s :
  Str s ∈ cs → Numpy.log1p_cells cs = inl (TypeError "log1p").
Proof.
  induction cs as [|c cs IH]; [by intros ?%elem_of_nil|].
  intros Hin. cbn. destruct c as [[q|]|s']; cbn; [| |done].
  - apply elem_of_cons in Hin as [|Hin]; [done|]. by rewrite IH.
  - apply elem_of_cons in Hin as [|Hin]; [done|]. by rewrite IH.
Qed.

(** X13.  A [rent] column that holds a text, one the parser has not read
    as a missing value, ends the script at line 34 with a [TypeError], in
    the state it started in: the target is derived, and checked, before
    anything is fitted, tracked or written. *)
Theorem non_numeric_rent (grid : list (string * list pyval)) (d : Disk)
    (csv : Csv) (rent : list cell) (s : string) :
  train_csv (disk_files d) = Some csv →
  csv_as_read csv →
  (∀ l, l ∈ dropped_columns → l ∈ (csv_columns csv).*1) →
  assoc "rent" (csv_columns csv) = Some rent →
  Str s ∈ rent →
  (s ∉ pandas_na_values)
  ∧ main_with grid (boot d) = Raised (TypeError "log1p") (boot d).
Proof.
  intros Hcsv Hread Hcols Hrent Hs.
  split; [by eapply csv_as_read_text|].
  unfold main_with, train_phase, prepare, read_train_csv, getitem,
    Numpy.log1p.
  unfold_M. cbn. rewrite Hcsv.
  change (drop ["rent"; "area_locality"; "posted_on"] (read_csv csv))
    with (drop dropped_columns (read_csv csv)).
  rewrite (drop_present dropped_columns (read_csv csv) Hcols). cbn.
  rewrite Hrent. cbn. by rewrite (log1p_cells_Str rent s Hs).
Qed.
End preparation.

Section preparation_witness.
Import Train Demo.

Lemma preparation_completes_witness :
  ∃ w1 _X X y,
    @prepare (demo (inr "chart")) (boot demo_disk) = Ok (_X, X, y) w1
    ∧ storage_dir (files w1) = true.
Proof.
  destruct (@preparation_completes (demo (inr "chart")) demo_disk demo_csv
              [Num (Some 10%Q); Num (Some 20%Q)]
              [Num (Some 10%Q); Num (Some 20%Q)] [1%Q]
              (mkDataFrame [0; 1]
                 [("size", [Num (Some 1100%Q); Num (Some 800%Q)])]))
    as (w1 & Hprep & Hdir & _); try reflexivity.
  - intros l Hl. cbn.
    repeat (apply elem_of_cons in Hl as [->|Hl];
            [apply (bool_decide_unpack _); vm_compute; exact I|]).
    by apply elem_of_nil in Hl.
  - eexists w1, _, _, _. split; [exact Hprep|exact Hdir].
Defined.

Lemma non_numeric_rent_witness :
  let csv :=
    mkCsv 1 [("rent", [Str "on request"]); ("area_locality", [Str "north"]);
             ("posted_on", [Str "2022-05-18"]); ("size", [Num (Some 1%Q)])] in
  let d := mkDisk ∅ [] (mkFiles (Some csv) false None None) in
  @main_with (demo (inr "chart")) params_candidates (boot d)
  = Raised (TypeError "log1p") (boot d).
Proof.
  intros csv d.
  apply (@non_numeric_rent (demo (inr "chart")) params_candidates d csv
           [Str "on request"] "on request"); try reflexivity.
  - split; [|repeat constructor].
    apply (bool_decide_unpack _). vm_compute. exact I.
  - intros l Hl. cbn.
    repeat (apply elem_of_cons in Hl as [->|Hl];
            [apply (bool_decide_unpack _); vm_compute; exact I|]).
    by apply elem_of_nil in Hl.
  - left.
Defined.
End preparation_witness.

(** ** The copy of the best model *)

Section artifact_copy.
Context `{!Collaborators}.
Import Utils Sklearn Metrics Mlflow Bentoml Logger Train.

Lemma export_Ok_files best w w' :
  export best w = Ok () w' →
  ∃ model,
    bento_store w'
    = bento_store w
      ++ [mkBentoModel "house_rent" model [("predict", mkSignature true 0)]
            (params best.2)]
    ∧ artifact_dir (files w')
      = Some (<["model.pkl" := ModelFile model]>
                (default ∅ (artifact_dir (files w))))
    ∧ features_csv (files w') = features_csv (files w)
    ∧ storage_dir (files w') = storage_dir (files w).
Proof.
  unfold export, copy_tree_model, load_model, get_run, save_model.
  unfold_M. intros Hexp.
  destruct (runs w !! best.1) as [r|] eqn:Hr; [|done]. cbn in Hexp.
  destruct (artifacts r !! "model") as [[model| |]|] eqn:Hm; try done.
  cbn in Hexp. rewrite Hr in Hexp. cbn in Hexp. rewrite Hm in Hexp.
  injection Hexp as <-. by exists model.
Qed.

Lemma train_phase_artifact_dir grid d w1 :
  train_phase grid (boot d) = Ok () w1 →
  artifact_dir (files w1) = artifact_dir (disk_files d).
Proof.
  intros Htrain. unfold train_phase in Htrain.
  apply bind_Ok_inv in Htrain as ([[_X X] y] & w0 & Hprep & Hgrid).
  pose proof (prepare_only_python_files (boot d)) as (_ & _ & Ha & _).
  pose proof (prepare_sources_kept (boot d)) as [_ Hdir0].
  rewrite Hprep in Ha, Hdir0. cbn in Ha, Hdir0.
  rewrite grid_search_eq in Hgrid.
  pose proof (run_loop_frame _X X y 0 (get_param_set grid)
                (experiment_set w0) Ha) as (_ & _ & _ & Hf & _).
  rewrite Hgrid in Hf. cbn in Hf. by rewrite Hf.
Qed.

(** X12.  The copy and the export agree.  When the script completes, the
    model file it has copied into the artifact directory is the model of
    the entry it has saved to the model store, both taken from the run it
    selected, and that run has logged it under [model]. *)
Theorem artifact_copy_is_exported_model (grid : list (string * list pyval))
    (d : Disk) (w' : World) :
  main_with grid (boot d) = Ok () w' →
  ∃ entry dir rid r,
    bento_store w' = disk_bento d ++ [entry]
    ∧ artifact_dir (files w') = Some dir
    ∧ dir !! "model.pkl" = Some (ModelFile (bento_model entry))
    ∧ runs w' !! rid = Some r
    ∧ experiment r = experiment_name
    ∧ artifacts r !! "model" = Some (ModelArtifact (bento_model entry)).
Proof.
  intros Hmain. pose proof Hmain as Hmain'.
  apply main_with_Ok in Hmain'
    as (w1 & rid & r & model & Htrain & _ & Hr & Hre & _ & Hmodel & Hruns
        & Hstore).
  unfold main_with in Hmain. rewrite (bind_Ok _ _ _ _ _ Htrain) in Hmain.
  unfold select_and_export in Hmain.
  apply bind_Ok_inv in Hmain as (best & w1' & Hsel & Hexp).
  pose proof (select_best_unchanged w1) as Hu. rewrite Hsel in Hu.
  unfold unchanged in Hu. cbn in Hu. subst w1'.
  apply export_Ok_files in Hexp as (model' & Hstore' & Hdir & _).
  destruct (train_phase_Ok grid d w1 Htrain) as (_ & _ & Hb).
  rewrite Hb, Hstore in Hstore'.
  apply app_inj_tail in Hstore' as [_ [= -> _]].
  eexists _, _, rid, r. split; [exact Hstore|]. split; [exact Hdir|].
  split; [apply lookup_insert_eq|]. rewrite Hruns. done.
Qed.
End artifact_copy.

Section artifact_copy_witness.
Import Train Demo.

Lemma artifact_copy_is_exported_model_witness :
  ∃ w' entry dir,
    @main_with (demo (inr "chart")) params_candidates (boot demo_disk)
    = Ok () w'
    ∧ bento_store w' = [entry]
    ∧ artifact_dir (files w') = Some dir
    ∧ dir !! "model.pkl" = Some (ModelFile (bento_model entry)).
Proof.
  destruct (@main_with (demo (inr "chart")) params_candidates (boot demo_disk))
    as [[] w'|e w'] eqn:Hmain; [|vm_compute in Hmain; discriminate].
  destruct (@artifact_copy_is_exported_model (demo (inr "chart"))
              params_candidates demo_disk w' Hmain)
    as (entry & dir & rid & r & Hstore & Hdir & Hfile & _).
  exists w', entry, dir. split; [reflexivity|]. split; [exact Hstore|].
  split; [exact Hdir|exact Hfile].
Defined.
End artifact_copy_witness.

(** ** A run that fails before it tracks *)

Section failed_evaluation.
Context `{!Collaborators}.
Import Utils Sklearn Metrics Mlflow Bentoml Logger Train.

Lemma run_body_evaluation_raises _X X y ps w :
  evaluation_raises _X X y ps w →
  ∃ e w', run_body _X X y ps w = Raised e w' ∧ only_python w w'.
Proof.
  intros [(e & w2 & Hfit)|(regr & pipeline & w2 & e & w3 & Hfit & Hcv)].
  - exists e, w2. unfold run_body. rewrite (bind_Raised _ _ _ _ _ Hfit).
    split; [done|].
    pose proof (fit_pipeline_only_python _X y ps w) as Hpy.
    by rewrite Hfit in Hpy.
  - exists e, w3. unfold run_body. rewrite (bind_Ok _ _ _ _ _ Hfit).
    unfold evaluate_and_log. rewrite (bind_Raised _ _ _ _ _ Hcv).
    split; [done|].
    pose proof (fit_pipeline_only_python _X y ps w) as Hpy.
    pose proof (rmse_cv_score_only_python regr X y w2) as Hpy2.
    rewrite Hfit in Hpy. rewrite Hcv in Hpy2. by etransitivity.
Qed.

(** X14.  Tracking starts after the evaluation.  When the end-to-end fit
    of a run or its cross-validation raises, the exception leaves the
    [with] block, the run is ended FAILED, and its record is empty: no
    tag, no parameter, no metric and no artifact has been logged.  The
    other records and the rest of the tracking state are as before. *)
Theorem failed_evaluation_tracks_nothing (name : string)
    (_X X : DataFrame) (y : Series) (ps : list (string * pyval))
    (w : World) :
  active_run w = None →
  evaluation_raises _X X y ps (started name w) →
  ∃ e w',
    with_start_run name (run_body _X X y ps) w = Raised e w'
    ∧ runs w'
      = <[fresh (dom (runs w)) :=
            empty_failed_run (current_experiment w) name]> (runs w)
    ∧ active_run w' = None
    ∧ bento_store w' = bento_store w
    ∧ files w' = files w.
Proof.
  intros Hact Hraises.
  destruct (run_body_evaluation_raises _X X y ps _ Hraises)
    as (e & w2 & Hbody & (_ & _ & Ha2 & Hr2 & Hb2 & Hf2)).
  exists e, (end_run_world FAILED w2).
  rewrite with_start_run_eq, Hbody by done. split; [done|].
  unfold end_run_world. rewrite Ha2. cbn. rewrite Hr2, Hb2, Hf2. cbn.
  split_and!; [|done|done|done].
  by rewrite alter_insert_eq.
Qed.
End failed_evaluation.

Section failed_evaluation_witness.
Import Mlflow Train Demo.

Lemma failed_evaluation_tracks_nothing_witness :
  let w := boot demo_disk in
  let _X := mkDataFrame [0] [("size", [Num (Some 1%Q)])] in
  let y := mkSeries [0] [Num (Some 2%Q)] in
  ∃ e w',
    @with_start_run "Run 0" (@run_body demo_fit_fails _X _X y []) w
    = Raised e w'
    ∧ runs w' = <[0 := empty_failed_run "Default" "Run 0"]> ∅.
Proof.
  intros w _X y.
  destruct (@failed_evaluation_tracks_nothing demo_fit_fails "Run 0" _X _X y
              [] w eq_refl) as (e & w' & Hrun & Hruns & _).
  - left. by eexists _, _.
  - exists e, w'. split; [exact Hrun|exact Hruns].
Defined.
End failed_evaluation_witness.
